(** * Shallow embedding of the query routes of FinLLM-Server

    Model of [routes/query.py] ([find_stock_by_name], [signal_query] and the
    individual-price branch of [simple_query]) and of [utils/helpers.py]
    ([parse_date]).

    Modelling choices:
    - database columns of SQL type Float are rationals [Q]; nullable columns
      are [option]; dates are day numbers in [Z] (proleptic Gregorian);
    - a table is a list of rows in storage order; [.first()] is the first
      row of that list satisfying the filter; [ORDER BY] is a stable
      insertion sort (the order of ties is not fixed by SQL);
    - a Python [str] is the [string] of its UTF-8 bytes; [str.upper()],
      [\d] of [re] and [int()] work on the decoded code points, with the
      tables of [unicodedata] 14.0 (Python 3.11);
    - SQL string equality compares the strings as they are (the case and
      accent folding of a MySQL [_ci] collation is not modelled), and
      [.contains(value)] is [LIKE concat('%', value, '%')] with [value]
      unescaped, so [%], [_] and [\] inside it keep their LIKE meaning;
    - the float parameters of [signal_query] are finite and taken as
      rationals; the bounds of [filter_query], compared directly with the
      columns, are Python floats with infinities and NaN; arithmetic on
      floats is exact rational arithmetic;
    - Python exceptions are the left side of the sum [M]; the handler's
      [try: ... except Exception as e: raise HTTPException(500, ...)] is
      [guard500]. *)

From Stdlib Require Import ZArith QArith List String Ascii Bool Lia.
From Stdlib Require Import Sorting.Sorted Sorting.Permutation.
Import ListNotations.
Open Scope string_scope.
Open Scope Z_scope.

(* ------------------------------------------------------------------ *)
(** ** Exceptions *)

(** The exceptions raised inside the route handlers. *)
Inductive py_exn :=
| HTTPException (status_code : Z)
| TypeError            (* arithmetic on a NULL column value *)
| UnboundLocalError    (* a branch that never binds [query] *)
| DBError              (* an SQL statement rejected by the database *)
| OverflowError.       (* [date] arithmetic leaving the years 1..9999 *)

Definition M (A : Type) : Type := (py_exn + A)%type.

Definition ret {A} (a : A) : M A := inr a.
Definition raise {A} (e : py_exn) : M A := inl e.

Notation "x <- m ;; k" :=
  (match m with inl e => inl e | inr x => k end)
  (at level 61, m at next level, right associativity).

(** [try: body except Exception as e: raise HTTPException(status_code=500, ...)]:
    every exception, an [HTTPException] included, leaves as a 500. *)
Definition guard500 {A} (m : M A) : M A :=
  match m with
  | inl _ => inl (HTTPException 500)
  | inr a => inr a
  end.

(* ------------------------------------------------------------------ *)
(** ** Python helpers *)

Definition Qltb (a b : Q) : bool := negb (Qle_bool b a).

(** Truthiness of an optional string parameter. *)
Definition truthy_str (o : option string) : bool :=
  match o with Some s => negb (String.eqb s EmptyString) | None => false end.

(** Truthiness of an optional float value. *)
Definition truthy_Q (o : option Q) : bool :=
  match o with Some x => negb (Qeq_bool x 0%Q) | None => false end.

(** [x or d] on an [Optional[float]]. *)
Definition or_Q (o : option Q) (d : Q) : Q :=
  match o with Some x => if Qeq_bool x 0%Q then d else x | None => d end.

(** [x or d] on an [Optional[int]]. *)
Definition or_Z (o : option Z) (d : Z) : Z :=
  match o with Some x => if Z.eqb x 0 then d else x | None => d end.

Definition is_some {A} (o : option A) : bool :=
  match o with Some _ => true | None => false end.

(** [s.startswith(p)] and [s.endswith(p)]. *)
Definition startswith (s p : string) : bool := String.prefix p s.

Definition endswith (s p : string) : bool :=
  (String.length p <=? String.length s)%nat &&
  String.eqb (String.substring (String.length s - String.length p)
                               (String.length p) s) p.

(** [lst[:n]]. *)
Definition py_take {A} (n : Z) (l : list A) : list A :=
  if 0 <=? n then firstn (Z.to_nat n) l
  else firstn (Z.to_nat (Z.of_nat (List.length l) + n)) l.

(** [query.limit(n).all()]: a negative LIMIT is an SQL syntax error. *)
Definition sql_limit {A} (n : Z) (l : list A) : M (list A) :=
  if n <? 0 then raise DBError else ret (firstn (Z.to_nat n) l).

(** Stable insertion sort: [le x y] means [x] may come before [y]. *)
Fixpoint insert_by {A} (le : A -> A -> bool) (x : A) (l : list A) : list A :=
  match l with
  | [] => [x]
  | y :: ys => if le x y then x :: y :: ys else y :: insert_by le x ys
  end.

Definition sort_by {A} (le : A -> A -> bool) (l : list A) : list A :=
  fold_right (insert_by le) [] l.

(* ------------------------------------------------------------------ *)
(** ** Text

    A Python [str] is held as the [string] of its UTF-8 bytes; where the
    code works on characters the bytes are decoded to code points. *)

Definition byte_of (c : ascii) : Z := Z.of_nat (nat_of_ascii c).

Definition ascii_of_Z (z : Z) : ascii := ascii_of_nat (Z.to_nat z).

Definition cont_in (lo hi : Z) (c : ascii) : bool :=
  (lo <=? byte_of c) && (byte_of c <=? hi).

(** [data.decode("utf-8", errors="replace")]: each maximal ill-formed
    subsequence becomes one U+FFFD (65533). *)
Fixpoint utf8_decode (l : list ascii) : list Z :=
  match l with
  | [] => []
  | c :: r =>
    let b := byte_of c in
    if b <? 128 then b :: utf8_decode r
    else if (194 <=? b) && (b <=? 223) then
      match r with
      | c1 :: r1 =>
          if cont_in 128 191 c1 then ((b - 192) * 64 + (byte_of c1 - 128)) :: utf8_decode r1
          else 65533 :: utf8_decode r
      | [] => [65533]
      end
    else if (224 <=? b) && (b <=? 239) then
      let lo := if b =? 224 then 160 else 128 in
      let hi := if b =? 237 then 159 else 191 in
      match r with
      | c1 :: r1 =>
          if cont_in lo hi c1 then
            match r1 with
            | c2 :: r2 =>
                if cont_in 128 191 c2 then
                  ((b - 224) * 4096 + (byte_of c1 - 128) * 64 + (byte_of c2 - 128))
                    :: utf8_decode r2
                else 65533 :: utf8_decode r1
            | [] => [65533]
            end
          else 65533 :: utf8_decode r
      | [] => [65533]
      end
    else if (240 <=? b) && (b <=? 244) then
      let lo := if b =? 240 then 144 else 128 in
      let hi := if b =? 244 then 143 else 191 in
      match r with
      | c1 :: r1 =>
          if cont_in lo hi c1 then
            match r1 with
            | c2 :: r2 =>
                if cont_in 128 191 c2 then
                  match r2 with
                  | c3 :: r3 =>
                      if cont_in 128 191 c3 then
                        ((b - 240) * 262144 + (byte_of c1 - 128) * 4096
                         + (byte_of c2 - 128) * 64 + (byte_of c3 - 128)) :: utf8_decode r3
                      else 65533 :: utf8_decode r2
                  | [] => [65533]
                  end
                else 65533 :: utf8_decode r1
            | [] => [65533]
            end
          else 65533 :: utf8_decode r
      | [] => [65533]
      end
    else 65533 :: utf8_decode r
  end.

(** The code points of a [str]. *)
Definition chars (s : string) : list Z := utf8_decode (list_ascii_of_string s).

Definition utf8_encode_cp (c : Z) : list ascii :=
  if c <? 128 then [ascii_of_Z c]
  else if c <? 2048 then [ascii_of_Z (192 + c / 64); ascii_of_Z (128 + c mod 64)]
  else if c <? 65536 then
    [ascii_of_Z (224 + c / 4096); ascii_of_Z (128 + c / 64 mod 64);
     ascii_of_Z (128 + c mod 64)]
  else
    [ascii_of_Z (240 + c / 262144); ascii_of_Z (128 + c / 4096 mod 64);
     ascii_of_Z (128 + c / 64 mod 64); ascii_of_Z (128 + c mod 64)].

(** The [str] of a list of code points. *)
Definition utf8_encode (cs : list Z) : string :=
  string_of_list_ascii (flat_map utf8_encode_cp cs).

(** The code points [c] with [len(chr(c).upper()) == 1] and
    [chr(c).upper() != chr(c)], as runs [(lo, hi, step, delta)]: every
    [c = lo + k * step <= hi] has [ord(chr(c).upper()) = c + delta]. *)
Definition upper_runs : list (Z * Z * Z * Z) :=
  [ (97, 122, 1, -32); (181, 181, 1, 743); (224, 246, 1, -32); (248, 254, 1, -32);
   (255, 255, 1, 121); (257, 303, 2, -1); (305, 305, 1, -232); (307, 311, 2, -1);
   (314, 328, 2, -1); (331, 375, 2, -1); (378, 382, 2, -1); (383, 383, 1, -300);
   (384, 384, 1, 195); (387, 389, 2, -1); (392, 392, 1, -1); (396, 396, 1, -1);
   (402, 402, 1, -1); (405, 405, 1, 97); (409, 409, 1, -1); (410, 410, 1, 163);
   (414, 414, 1, 130); (417, 421, 2, -1); (424, 424, 1, -1); (429, 429, 1, -1);
   (432, 432, 1, -1); (436, 438, 2, -1); (441, 441, 1, -1); (445, 445, 1, -1);
   (447, 447, 1, 56); (453, 453, 1, -1); (454, 454, 1, -2); (456, 456, 1, -1);
   (457, 457, 1, -2); (459, 459, 1, -1); (460, 460, 1, -2); (462, 476, 2, -1);
   (477, 477, 1, -79); (479, 495, 2, -1); (498, 498, 1, -1); (499, 499, 1, -2);
   (501, 501, 1, -1); (505, 543, 2, -1); (547, 563, 2, -1); (572, 572, 1, -1);
   (575, 576, 1, 10815); (578, 578, 1, -1); (583, 591, 2, -1); (592, 592, 1, 10783);
   (593, 593, 1, 10780); (594, 594, 1, 10782); (595, 595, 1, -210); (596, 596, 1, -206);
   (598, 599, 1, -205); (601, 601, 1, -202); (603, 603, 1, -203); (604, 604, 1, 42319);
   (608, 608, 1, -205); (609, 609, 1, 42315); (611, 611, 1, -207); (613, 613, 1, 42280);
   (614, 614, 1, 42308); (616, 616, 1, -209); (617, 617, 1, -211); (618, 618, 1, 42308);
   (619, 619, 1, 10743); (620, 620, 1, 42305); (623, 623, 1, -211); (625, 625, 1, 10749);
   (626, 626, 1, -213); (629, 629, 1, -214); (637, 637, 1, 10727); (640, 640, 1, -218);
   (642, 642, 1, 42307); (643, 643, 1, -218); (647, 647, 1, 42282); (648, 648, 1, -218);
   (649, 649, 1, -69); (650, 651, 1, -217); (652, 652, 1, -71); (658, 658, 1, -219);
   (669, 669, 1, 42261); (670, 670, 1, 42258); (837, 837, 1, 84); (881, 883, 2, -1);
   (887, 887, 1, -1); (891, 893, 1, 130); (940, 940, 1, -38); (941, 943, 1, -37);
   (945, 961, 1, -32); (962, 962, 1, -31); (963, 971, 1, -32); (972, 972, 1, -64);
   (973, 974, 1, -63); (976, 976, 1, -62); (977, 977, 1, -57); (981, 981, 1, -47);
   (982, 982, 1, -54); (983, 983, 1, -8); (985, 1007, 2, -1); (1008, 1008, 1, -86);
   (1009, 1009, 1, -80); (1010, 1010, 1, 7); (1011, 1011, 1, -116); (1013, 1013, 1, -96);
   (1016, 1016, 1, -1); (1019, 1019, 1, -1); (1072, 1103, 1, -32); (1104, 1119, 1, -80);
   (1121, 1153, 2, -1); (1163, 1215, 2, -1); (1218, 1230, 2, -1); (1231, 1231, 1, -15);
   (1233, 1327, 2, -1); (1377, 1414, 1, -48); (4304, 4346, 1, 3008); (4349, 4351, 1, 3008);
   (5112, 5117, 1, -8); (7296, 7296, 1, -6254); (7297, 7297, 1, -6253); (7298, 7298, 1, -6244);
   (7299, 7300, 1, -6242); (7301, 7301, 1, -6243); (7302, 7302, 1, -6236); (7303, 7303, 1, -6181);
   (7304, 7304, 1, 35266); (7545, 7545, 1, 35332); (7549, 7549, 1, 3814); (7566, 7566, 1, 35384);
   (7681, 7829, 2, -1); (7835, 7835, 1, -59); (7841, 7935, 2, -1); (7936, 7943, 1, 8);
   (7952, 7957, 1, 8); (7968, 7975, 1, 8); (7984, 7991, 1, 8); (8000, 8005, 1, 8);
   (8017, 8023, 2, 8); (8032, 8039, 1, 8); (8048, 8049, 1, 74); (8050, 8053, 1, 86);
   (8054, 8055, 1, 100); (8056, 8057, 1, 128); (8058, 8059, 1, 112); (8060, 8061, 1, 126);
   (8112, 8113, 1, 8); (8126, 8126, 1, -7205); (8144, 8145, 1, 8); (8160, 8161, 1, 8);
   (8165, 8165, 1, 7); (8526, 8526, 1, -28); (8560, 8575, 1, -16); (8580, 8580, 1, -1);
   (9424, 9449, 1, -26); (11312, 11359, 1, -48); (11361, 11361, 1, -1); (11365, 11365, 1, -10795);
   (11366, 11366, 1, -10792); (11368, 11372, 2, -1); (11379, 11379, 1, -1); (11382, 11382, 1, -1);
   (11393, 11491, 2, -1); (11500, 11502, 2, -1); (11507, 11507, 1, -1); (11520, 11557, 1, -7264);
   (11559, 11559, 1, -7264); (11565, 11565, 1, -7264); (42561, 42605, 2, -1); (42625, 42651, 2, -1);
   (42787, 42799, 2, -1); (42803, 42863, 2, -1); (42874, 42876, 2, -1); (42879, 42887, 2, -1);
   (42892, 42892, 1, -1); (42897, 42899, 2, -1); (42900, 42900, 1, 48); (42903, 42921, 2, -1);
   (42933, 42947, 2, -1); (42952, 42954, 2, -1); (42961, 42961, 1, -1); (42967, 42969, 2, -1);
   (42998, 42998, 1, -1); (43859, 43859, 1, -928); (43888, 43967, 1, -38864); (65345, 65370, 1, -32);
   (66600, 66639, 1, -40); (66776, 66811, 1, -40); (66967, 66977, 1, -39); (66979, 66993, 1, -39);
   (66995, 67001, 1, -39); (67003, 67004, 1, -39); (68800, 68850, 1, -64); (71872, 71903, 1, -32);
   (93792, 93823, 1, -32); (125218, 125251, 1, -34) ].

(** The code points whose upper case has several characters. *)
Definition upper_special : list (Z * list Z) :=
  [ (223, [83; 83]); (329, [700; 78]); (496, [74; 780]); (912, [921; 776; 769]);
   (944, [933; 776; 769]); (1415, [1333; 1362]); (7830, [72; 817]); (7831, [84; 776]);
   (7832, [87; 778]); (7833, [89; 778]); (7834, [65; 702]); (8016, [933; 787]);
   (8018, [933; 787; 768]); (8020, [933; 787; 769]); (8022, [933; 787; 834]); (8064, [7944; 921]);
   (8065, [7945; 921]); (8066, [7946; 921]); (8067, [7947; 921]); (8068, [7948; 921]);
   (8069, [7949; 921]); (8070, [7950; 921]); (8071, [7951; 921]); (8072, [7944; 921]);
   (8073, [7945; 921]); (8074, [7946; 921]); (8075, [7947; 921]); (8076, [7948; 921]);
   (8077, [7949; 921]); (8078, [7950; 921]); (8079, [7951; 921]); (8080, [7976; 921]);
   (8081, [7977; 921]); (8082, [7978; 921]); (8083, [7979; 921]); (8084, [7980; 921]);
   (8085, [7981; 921]); (8086, [7982; 921]); (8087, [7983; 921]); (8088, [7976; 921]);
   (8089, [7977; 921]); (8090, [7978; 921]); (8091, [7979; 921]); (8092, [7980; 921]);
   (8093, [7981; 921]); (8094, [7982; 921]); (8095, [7983; 921]); (8096, [8040; 921]);
   (8097, [8041; 921]); (8098, [8042; 921]); (8099, [8043; 921]); (8100, [8044; 921]);
   (8101, [8045; 921]); (8102, [8046; 921]); (8103, [8047; 921]); (8104, [8040; 921]);
   (8105, [8041; 921]); (8106, [8042; 921]); (8107, [8043; 921]); (8108, [8044; 921]);
   (8109, [8045; 921]); (8110, [8046; 921]); (8111, [8047; 921]); (8114, [8122; 921]);
   (8115, [913; 921]); (8116, [902; 921]); (8118, [913; 834]); (8119, [913; 834; 921]);
   (8124, [913; 921]); (8130, [8138; 921]); (8131, [919; 921]); (8132, [905; 921]);
   (8134, [919; 834]); (8135, [919; 834; 921]); (8140, [919; 921]); (8146, [921; 776; 768]);
   (8147, [921; 776; 769]); (8150, [921; 834]); (8151, [921; 776; 834]); (8162, [933; 776; 768]);
   (8163, [933; 776; 769]); (8164, [929; 787]); (8166, [933; 834]); (8167, [933; 776; 834]);
   (8178, [8186; 921]); (8179, [937; 921]); (8180, [911; 921]); (8182, [937; 834]);
   (8183, [937; 834; 921]); (8188, [937; 921]); (64256, [70; 70]); (64257, [70; 73]);
   (64258, [70; 76]); (64259, [70; 70; 73]); (64260, [70; 70; 76]); (64261, [83; 84]);
   (64262, [83; 84]); (64275, [1348; 1350]); (64276, [1348; 1333]); (64277, [1348; 1339]);
   (64278, [1358; 1350]); (64279, [1348; 1341]) ].

(** [chr(c).upper()] *)
Definition upper_cp (c : Z) : list Z :=
  match find (fun e => fst e =? c) upper_special with
  | Some (_, u) => u
  | None =>
      match find (fun r => let '(lo, hi, step, _) := r in
                           (lo <=? c) && (c <=? hi) && ((c - lo) mod step =? 0))
                 upper_runs with
      | Some (_, _, _, delta) => [c + delta]
      | None => [c]
      end
  end.

(** [s.upper()]: character by character (no context enters [upper]). *)
Definition str_upper (s : string) : string := utf8_encode (flat_map upper_cp (chars s)).

(** The zeros of the runs of ten characters of category Nd, [\d] of [re]
    on [str]: the digit of value [k] of a run is its zero plus [k]. *)
Definition nd_zeros : list Z :=
  [ 48; 1632; 1776; 1984; 2406; 2534; 2662; 2790; 2918; 3046;
   3174; 3302; 3430; 3558; 3664; 3792; 3872; 4160; 4240; 6112;
   6160; 6470; 6608; 6784; 6800; 6992; 7088; 7232; 7248; 42528;
   43216; 43264; 43472; 43504; 43600; 44016; 65296; 66720; 68912; 69734;
   69872; 69942; 70096; 70384; 70736; 70864; 71248; 71360; 71472; 71904;
   72016; 72784; 73040; 73120; 92768; 92864; 93008; 120782; 120792; 120802;
   120812; 120822; 123200; 123632; 125264; 130032 ].

(** A character matching [\d], with its value for [int()]. *)
Definition nd_digit (c : Z) : option Z :=
  match find (fun z => (z <=? c) && (c <? z + 10)) nd_zeros with
  | Some z => Some (c - z)
  | None => None
  end.

(** A character of the class [[0-9]], with its value. *)
Definition ascii_digit (c : Z) : option Z :=
  if (48 <=? c) && (c <=? 57) then Some (c - 48) else None.

Fixpoint cp_prefix (p s : list Z) : bool :=
  match p, s with
  | [], _ => true
  | x :: p', y :: s' => (x =? y) && cp_prefix p' s'
  | _ :: _, [] => false
  end.

Fixpoint cp_contains (p s : list Z) : bool :=
  cp_prefix p s || match s with [] => false | _ :: s' => cp_contains p s' end.

(** [needle in hay] on strings. *)
Definition str_contains (needle hay : string) : bool :=
  cp_contains (chars needle) (chars hay).

(** MySQL's [pattern LIKE] on code points, escape character [\]: [%]
    matches any sequence of characters, [_] one character, [\c] the
    character [c] (a final [\] itself). *)
Fixpoint like_match (p s : list Z) : bool :=
  match p with
  | [] => match s with [] => true | _ :: _ => false end
  | c :: p' =>
    if c =? 37 then
      (fix any (t : list Z) : bool :=
         like_match p' t || match t with [] => false | _ :: t' => any t' end) s
    else if c =? 95 then
      match s with [] => false | _ :: s' => like_match p' s' end
    else if c =? 92 then
      match p' with
      | e :: p'' => match s with x :: s' => (x =? e) && like_match p'' s' | [] => false end
      | [] => match s with [x] => x =? 92 | _ => false end
      end
    else match s with x :: s' => (x =? c) && like_match p' s' | [] => false end
  end.

(** [column.contains(value)] on a non-NULL column: SQLAlchemy sends
    [column LIKE concat('%', value, '%')] with [value] unescaped. *)
Definition like_contains (col value : string) : bool :=
  like_match (37 :: chars value ++ [37]) (chars col).

(* ------------------------------------------------------------------ *)
(** ** [parse_date]: [datetime.strptime(date_str, "%Y-%m-%d")]

    The [_strptime] patterns are [%Y = \d\d\d\d],
    [%m = 1[0-2]|0[1-9]|[1-9]] and [%d = 3[01]|[12]\d|0[1-9]|[1-9]| [1-9]],
    matched against the whole string ([\d] is any character of category
    Nd, the other classes are ASCII); [int()] reads the groups and the
    [datetime] constructor then rejects year 0 and days past the end of
    the month. *)

Fixpoint split_dash (l : list Z) : list (list Z) :=
  match l with
  | [] => [[]]
  | c :: rest =>
      let parts := split_dash rest in
      if c =? 45 then [] :: parts
      else match parts with
           | p :: ps => (c :: p) :: ps
           | [] => [[c]]
           end
  end.

Definition parse_year (l : list Z) : option Z :=
  match l with
  | [a; b; c; d] =>
      match nd_digit a, nd_digit b, nd_digit c, nd_digit d with
      | Some a, Some b, Some c, Some d => Some (((a * 10 + b) * 10 + c) * 10 + d)
      | _, _, _, _ => None
      end
  | _ => None
  end.

Definition parse_month (l : list Z) : option Z :=
  match l with
  | [c] => match ascii_digit c with Some v => if 1 <=? v then Some v else None | None => None end
  | [a; b] =>
      match ascii_digit a, ascii_digit b with
      | Some 0, Some v => if 1 <=? v then Some v else None
      | Some 1, Some v => if v <=? 2 then Some (10 + v) else None
      | _, _ => None
      end
  | _ => None
  end.

Definition parse_day (l : list Z) : option Z :=
  match l with
  | [c] => match ascii_digit c with Some v => if 1 <=? v then Some v else None | None => None end
  | [a; b] =>
      if a =? 32 then
        match ascii_digit b with Some v => if 1 <=? v then Some v else None | None => None end
      else
      match ascii_digit a with
      | Some 3 =>
          match ascii_digit b with Some v => if v <=? 1 then Some (30 + v) else None | None => None end
      | Some 1 => match nd_digit b with Some v => Some (10 + v) | None => None end
      | Some 2 => match nd_digit b with Some v => Some (20 + v) | None => None end
      | Some 0 =>
          match ascii_digit b with Some v => if 1 <=? v then Some v else None | None => None end
      | _ => None
      end
  | _ => None
  end.

Definition is_leap (y : Z) : bool :=
  (Z.eqb (y mod 4) 0 && negb (Z.eqb (y mod 100) 0)) || Z.eqb (y mod 400) 0.

Definition days_in_month (y m : Z) : Z :=
  if Z.eqb m 2 then (if is_leap y then 29 else 28)
  else if (Z.eqb m 4 || Z.eqb m 6 || Z.eqb m 9 || Z.eqb m 11) then 30
  else 31.

(** Day number of a civil date (days since 1970-01-01). *)
Definition days_from_civil (y m d : Z) : Z :=
  let y' := if m <=? 2 then y - 1 else y in
  let era := y' / 400 in
  let yoe := y' - era * 400 in
  let mp := if 2 <? m then m - 3 else m + 9 in
  let doy := (153 * mp + 2) / 5 + d - 1 in
  let doe := yoe * 365 + yoe / 4 - yoe / 100 + doy in
  era * 146097 + doe - 719468.

(** [parse_date]: a [ValueError] of [strptime] becomes [HTTPException(400)]. *)
Definition parse_date (date_str : string) : M Z :=
  match split_dash (chars date_str) with
  | [ys; ms; ds] =>
      match parse_year ys, parse_month ms, parse_day ds with
      | Some y, Some m, Some d =>
          if (1 <=? y) && (d <=? days_in_month y m)
          then ret (days_from_civil y m d)
          else raise (HTTPException 400)
      | _, _, _ => raise (HTTPException 400)
      end
  | _ => raise (HTTPException 400)
  end.

Example parse_date_ok : parse_date "2024-11-06" = inr 20033.
Proof. reflexivity. Qed.
Example parse_date_slash : parse_date "2024/11/06" = inl (HTTPException 400).
Proof. reflexivity. Qed.
Example parse_date_feb30 : parse_date "2024-02-30" = inl (HTTPException 400).
Proof. reflexivity. Qed.
Example parse_date_fullwidth : parse_date "２０２４-11-1６" = inr 20043.
Proof. vm_compute. reflexivity. Qed.
Example parse_date_day_space : parse_date "2024-11- 6" = inr 20033.
Proof. vm_compute. reflexivity. Qed.
Example parse_date_fullwidth_month : parse_date "2024-1１-06" = inl (HTTPException 400).
Proof. vm_compute. reflexivity. Qed.

(* ------------------------------------------------------------------ *)
(** ** Data model ([models.py]) *)

(** [Stock]: [krx_code] is nullable; [symbol] and [name] are NOT NULL. *)
Record Stock := mkStock {
  stock_id : Z;
  symbol : string;
  krx_code : option string;
  name : string;
  market : string;
  is_active : bool
}.

Record DailyPrice := mkDailyPrice {
  dp_stock_id : Z;
  dp_date : Z;
  open_price : option Q;
  high_price : option Q;
  low_price : option Q;
  close_price : option Q;
  volume : option Z;
  change_rate : option Q
}.

Record TechnicalIndicator := mkTechnicalIndicator {
  ti_stock_id : Z;
  ti_date : Z;
  ma5 : option Q;
  ma20 : option Q;
  ma60 : option Q;
  rsi : option Q;
  bb_upper_touch : option bool;
  bb_lower_touch : option bool
}.

(** The three tables the routes read. *)
Record DB := mkDB {
  stocks : list Stock;
  daily_prices : list DailyPrice;
  technical_indicators : list TechnicalIndicator
}.

(* ------------------------------------------------------------------ *)
(** ** [find_stock_by_name] *)

(** [column == value] on a nullable string column. *)
Definition col_eq (c : option string) (v : string) : bool :=
  match c with Some x => String.eqb x v | None => false end.

(** [column.contains(value)] on a nullable string column. *)
Definition col_contains (c : option string) (v : string) : bool :=
  match c with Some x => like_contains x v | None => false end.

(** [db.query(Stock).filter(Stock.is_active == True)], plus the market
    filter when [market != "ALL"]. *)
Definition resolver_base (db : DB) (mkt : string) : list Stock :=
  filter (fun s => is_active s &&
                   (if String.eqb mkt "ALL" then true else String.eqb (market s) mkt))
         (stocks db).

Definition exact_name (q : string) (s : Stock) : bool := String.eqb (name s) q.
Definition exact_symbol (q : string) (s : Stock) : bool := String.eqb (symbol s) q.
Definition exact_krx (q : string) (s : Stock) : bool := col_eq (krx_code s) q.
Definition partial_any (q : string) (s : Stock) : bool :=
  like_contains (name s) q || like_contains (symbol s) q || col_contains (krx_code s) q.

(** The four [.first()] lookups in order; the final scan over all names only
    prints suggestions and the function returns [None]. *)
Definition find_stock_by_name (db : DB) (stock_name : string) (mkt : string)
  : option Stock :=
  let base := resolver_base db mkt in
  match find (exact_name stock_name) base with
  | Some s => Some s
  | None =>
    match find (exact_symbol stock_name) base with
    | Some s => Some s
    | None =>
      match find (exact_krx stock_name) base with
      | Some s => Some s
      | None =>
        match find (partial_any stock_name) base with
        | Some s => Some s
        | None => None
        end
      end
    end
  end.

(* ------------------------------------------------------------------ *)
(** ** Responses and the [signal_query] request *)

Record SignalItem := mkSignalItem {
  item_name : string;
  item_symbol : string;
  item_metric : option Q   (* rsi, surge_ratio or deviation *)
}.

Inductive Response :=
| CrossCount (golden_cross_count dead_cross_count : nat)
| SignalDetection (results : list SignalItem)
| IndividualPrice (price_type : string) (value : option Q).

Record SignalReq := mkSignalReq {
  sq_date : option string;
  signal_type : string;
  threshold : option Q;
  volume_multiplier : option Q;
  ma_period : option Z;
  breakout_percent : option Q;
  sq_stock : option string;
  start_date : option string;
  end_date : option string;
  period : Z;
  limit : Z
}.

(** A request with the route's defaults ([period = 20], [limit = 15]). *)
Definition default_req (st : string) : SignalReq :=
  mkSignalReq None st None None None None None None None 20 15.

Definition opt_str (o : option string) : string :=
  match o with Some s => s | None => EmptyString end.

(* ------------------------------------------------------------------ *)
(** ** Cross counting *)

(** [TechnicalIndicator.stock_id == stock_id, date.between(start, end),
    ma5.isnot(None), ma20.isnot(None)], [.order_by(TechnicalIndicator.date)]. *)
Definition cross_filter (sid s e : Z) (t : TechnicalIndicator) : bool :=
  (ti_stock_id t =? sid) && (s <=? ti_date t) && (ti_date t <=? e) &&
  is_some (ma5 t) && is_some (ma20 t).

Definition date_le (a b : TechnicalIndicator) : bool := ti_date a <=? ti_date b.

Definition cross_rows (db : DB) (st : Stock) (s e : Z) : list TechnicalIndicator :=
  sort_by date_le (filter (cross_filter (stock_id st) s e) (technical_indicators db)).

(** The value of a moving average of a row that passed [cross_filter]. *)
Definition mav (o : option Q) : Q := match o with Some x => x | None => 0%Q end.

(** [prev.ma5 <= prev.ma20 and curr.ma5 > curr.ma20] *)
Definition golden_step (prev curr : TechnicalIndicator) : bool :=
  Qle_bool (mav (ma5 prev)) (mav (ma20 prev)) &&
  Qltb (mav (ma20 curr)) (mav (ma5 curr)).

(** [prev.ma5 >= prev.ma20 and curr.ma5 < curr.ma20] *)
Definition dead_step (prev curr : TechnicalIndicator) : bool :=
  Qle_bool (mav (ma20 prev)) (mav (ma5 prev)) &&
  Qltb (mav (ma5 curr)) (mav (ma20 curr)).

(** [for i in range(1, len(tech_data))] with [if ... elif ...]. *)
Fixpoint cross_loop (prev : TechnicalIndicator) (rest : list TechnicalIndicator)
  (g d : nat) : nat * nat :=
  match rest with
  | [] => (g, d)
  | curr :: rest' =>
      if golden_step prev curr then cross_loop curr rest' (S g) d
      else if dead_step prev curr then cross_loop curr rest' g (S d)
      else cross_loop curr rest' g d
  end.

Definition cross_counts (tech_data : list TechnicalIndicator) : nat * nat :=
  match tech_data with
  | [] => (0%nat, 0%nat)
  | first :: rest => cross_loop first rest 0 0
  end.

(** The cross-count branch of [signal_query], entered when
    [signal_type.endswith("_count") or (stock and start_date and end_date)]. *)
Definition cross_count_branch (db : DB) (req : SignalReq) : M Response :=
  if negb (truthy_str (sq_stock req) && truthy_str (start_date req)
           && truthy_str (end_date req))
  then raise (HTTPException 400)
  else
    match find_stock_by_name db (opt_str (sq_stock req)) "ALL" with
    | None => raise (HTTPException 404)
    | Some stock_obj =>
        start_dt <- parse_date (opt_str (start_date req));;
        end_dt <- parse_date (opt_str (end_date req));;
        let tech_data := cross_rows db stock_obj start_dt end_dt in
        if (List.length tech_data <? 2)%nat then ret (CrossCount 0 0)
        else let (g, d) := cross_counts tech_data in ret (CrossCount g d)
    end.

(* ------------------------------------------------------------------ *)
(** ** Snapshot signals *)

(** [db.query(TechnicalIndicator, Stock).join(Stock, ...)] restricted by [keep]
    on the indicator row and [Stock.is_active == True]. *)
Definition tech_join (db : DB) (keep : TechnicalIndicator -> bool)
  : list (TechnicalIndicator * Stock) :=
  flat_map (fun t =>
    if keep t then
      map (fun s => (t, s))
          (filter (fun s => (stock_id s =? ti_stock_id t) && is_active s) (stocks db))
    else []) (technical_indicators db).

Definition rsi_of (r : TechnicalIndicator * Stock) : Q := mav (rsi (fst r)).

Definition rsi_item (r : TechnicalIndicator * Stock) : SignalItem :=
  mkSignalItem (name (snd r)) (symbol (snd r)) (rsi (fst r)).

(** The [rsi_] branch: [threshold or 70] with [rsi >= threshold] ordered
    by [desc(rsi)], [threshold or 30] with [rsi <= threshold] ordered by
    [asc(rsi)]; any other [rsi_] type leaves [query] unbound. *)
Definition rsi_branch (db : DB) (req : SignalReq) (query_date : Z) : M Response :=
  let base := tech_join db (fun t => (ti_date t =? query_date) && is_some (rsi t)) in
  q <- (if String.eqb (signal_type req) "rsi_overbought" then
          let thr := or_Q (threshold req) 70 in
          ret (sort_by (fun a b => Qle_bool (rsi_of b) (rsi_of a))
                 (filter (fun r => Qle_bool thr (rsi_of r)) base))
        else if String.eqb (signal_type req) "rsi_oversold" then
          let thr := or_Q (threshold req) 30 in
          ret (sort_by (fun a b => Qle_bool (rsi_of a) (rsi_of b))
                 (filter (fun r => Qle_bool (rsi_of r) thr) base))
        else raise UnboundLocalError);;
  results <- sql_limit (limit req) q;;
  ret (SignalDetection (map rsi_item results)).

(** [db.query(DailyPrice, Stock).join(Stock, ...)] on [date == query_date]
    and [Stock.is_active == True]. *)
Definition price_join (db : DB) (query_date : Z) : list (DailyPrice * Stock) :=
  flat_map (fun p =>
    if dp_date p =? query_date then
      map (fun s => (p, s))
          (filter (fun s => (stock_id s =? dp_stock_id p) && is_active s) (stocks db))
    else []) (daily_prices db).

(** The first and the last day a [date] can hold: 0001-01-01 and 9999-12-31. *)
Definition date_min : Z := days_from_civil 1 1 1.
Definition date_max : Z := days_from_civil 9999 12 31.

(** [d - timedelta(days=k)]: [timedelta] raises [OverflowError] beyond
    999999999 days, and so does the subtraction when the day it reaches is
    not a [date]. *)
Definition date_sub_days (d k : Z) : M Z :=
  if 999999999 <? Z.abs k then raise OverflowError
  else if (d - k <? date_min) || (date_max <? d - k) then raise OverflowError
  else ret (d - k).

(** The rows of [avg_volume_query]: [lo <= date <= hi]. *)
Definition volume_window (db : DB) (sid lo hi : Z) : list DailyPrice :=
  filter (fun p => (dp_stock_id p =? sid) && (dp_date p <=? hi) && (lo <=? dp_date p))
         (daily_prices db).

(** [p.volume], raising when it is NULL and used in arithmetic. *)
Definition volume_of (p : DailyPrice) : M Z :=
  match volume p with Some v => ret v | None => raise TypeError end.

(** [sum(p.volume for p in rows)] *)
Fixpoint sum_volumes (rows : list DailyPrice) : M Z :=
  match rows with
  | [] => ret 0
  | p :: ps => v <- volume_of p;; tot <- sum_volumes ps;; ret (v + tot)
  end.

(** One iteration of the [volume_surge] loop. *)
Definition surge_row (db : DB) (query_date per : Z) (mult : Q)
  (r : DailyPrice * Stock) : M (option SignalItem) :=
  let (current_price, stock) := r in
  hi <- date_sub_days query_date 1;;
  lo <- date_sub_days query_date per;;
  let rows := volume_window db (stock_id stock) lo hi in
  if (10 <=? List.length rows)%nat then
    tot <- sum_volumes rows;;
    let avg_volume := (inject_Z tot / inject_Z (Z.of_nat (List.length rows)))%Q in
    if Qltb 0 avg_volume then
      cv <- volume_of current_price;;
      let surge_ratio := (inject_Z cv / avg_volume * 100)%Q in
      if Qle_bool (mult * 100) surge_ratio
      then ret (Some (mkSignalItem (name stock) (symbol stock) (Some surge_ratio)))
      else ret None
    else ret None
  else ret None.

Fixpoint surge_loop (db : DB) (query_date per : Z) (mult : Q)
  (rows : list (DailyPrice * Stock)) : M (list SignalItem) :=
  match rows with
  | [] => ret []
  | r :: rs =>
      o <- surge_row db query_date per mult r;;
      rest <- surge_loop db query_date per mult rs;;
      ret (match o with Some it => it :: rest | None => rest end)
  end.

Definition metric (it : SignalItem) : Q := mav (item_metric it).

(** [results.sort(key=lambda x: x[...], reverse=True)] *)
Definition sort_desc (l : list SignalItem) : list SignalItem :=
  sort_by (fun a b => Qle_bool (metric b) (metric a)) l.

Definition volume_surge_branch (db : DB) (req : SignalReq) (query_date : Z)
  : M Response :=
  let multiplier := or_Q (volume_multiplier req) 1 in
  results <- surge_loop db query_date (period req) multiplier (price_join db query_date);;
  ret (SignalDetection (py_take (limit req) (sort_desc results))).

(** The [bollinger_] branch. *)
Definition bollinger_branch (db : DB) (req : SignalReq) (query_date : Z)
  : M Response :=
  let base_keep := fun t => (ti_date t =? query_date) && is_some (bb_upper_touch t) in
  q <- (if String.eqb (signal_type req) "bollinger_upper" then
          ret (tech_join db (fun t => base_keep t &&
                  match bb_upper_touch t with Some true => true | _ => false end))
        else if String.eqb (signal_type req) "bollinger_lower" then
          ret (tech_join db (fun t => base_keep t &&
                  match bb_lower_touch t with Some true => true | _ => false end))
        else raise UnboundLocalError);;
  results <- sql_limit (limit req) q;;
  ret (SignalDetection (map (fun r => mkSignalItem (name (snd r)) (symbol (snd r)) None)
                            results)).

(** [db.query(TechnicalIndicator, DailyPrice, Stock)] joined on stock and date,
    with [TechnicalIndicator.date == query_date] and [Stock.is_active == True]. *)
Definition breakout_join (db : DB) (query_date : Z)
  : list (TechnicalIndicator * DailyPrice * Stock) :=
  flat_map (fun t =>
    if ti_date t =? query_date then
      flat_map (fun p =>
        if (dp_stock_id p =? ti_stock_id t) && (dp_date p =? ti_date t) then
          map (fun s => (t, p, s))
              (filter (fun s => (stock_id s =? ti_stock_id t) && is_active s) (stocks db))
        else []) (daily_prices db)
    else []) (technical_indicators db).

Definition ma_value_of (ma_period_val : Z) (t : TechnicalIndicator) : option Q :=
  if ma_period_val =? 5 then ma5 t
  else if ma_period_val =? 20 then ma20 t
  else if ma_period_val =? 60 then ma60 t
  else None.

(** [deviation = ((price.close_price - ma_value) / ma_value) * 100] *)
Definition deviation (close ma : Q) : Q := ((close - ma) / ma * 100)%Q.

(** One iteration of the [ma_breakout] loop. *)
Definition breakout_row (ma_period_val : Z) (bp : Q)
  (r : TechnicalIndicator * DailyPrice * Stock) : option SignalItem :=
  let '(t, p, s) := r in
  let ma_value := ma_value_of ma_period_val t in
  if truthy_Q ma_value && truthy_Q (close_price p) then
    let dev := deviation (mav (close_price p)) (mav ma_value) in
    if Qle_bool bp dev then Some (mkSignalItem (name s) (symbol s) (Some dev))
    else None
  else None.

Definition ma_breakout_branch (db : DB) (req : SignalReq) (query_date : Z)
  : M Response :=
  let ma_period_val := or_Z (ma_period req) 20 in
  let breakout_percent_val := or_Q (breakout_percent req) 3 in
  let results := flat_map (fun r => match breakout_row ma_period_val breakout_percent_val r
                                    with Some it => [it] | None => [] end)
                          (breakout_join db query_date) in
  ret (SignalDetection (py_take (limit req) (sort_desc results))).

(** The body of [signal_query], inside its [try]. *)
Definition signal_query_body (db : DB) (req : SignalReq) : M Response :=
  if endswith (signal_type req) "_count" ||
     (truthy_str (sq_stock req) && truthy_str (start_date req) && truthy_str (end_date req))
  then cross_count_branch db req
  else if negb (truthy_str (sq_date req)) then raise (HTTPException 400)
  else
    query_date <- parse_date (opt_str (sq_date req));;
    if startswith (signal_type req) "rsi_" then rsi_branch db req query_date
    else if String.eqb (signal_type req) "volume_surge" then
      volume_surge_branch db req query_date
    else if startswith (signal_type req) "bollinger_" then
      bollinger_branch db req query_date
    else if String.eqb (signal_type req) "ma_breakout" then
      ma_breakout_branch db req query_date
    else raise (HTTPException 400).

(** [signal_query]: the body under [except Exception: raise HTTPException(500)]. *)
Definition signal_query (db : DB) (req : SignalReq) : M Response :=
  guard500 (signal_query_body db req).

(* ------------------------------------------------------------------ *)
(** ** [simple_query], individual price branch ([if stock and date:]) *)

(** The four lookups of [simple_query], each with [Stock.is_active == True]. *)
Definition simple_stock_lookup (db : DB) (stock : string) : option Stock :=
  let act := filter is_active (stocks db) in
  match find (exact_name stock) act with
  | Some s => Some s
  | None =>
    match find (exact_symbol stock) act with
    | Some s => Some s
    | None =>
      match find (exact_krx stock) act with
      | Some s => Some s
      | None => find (partial_any stock) act
      end
    end
  end.

Definition simple_query_price_body (db : DB) (stock date price_type : string)
  : M Response :=
  query_date <- parse_date date;;
  match simple_stock_lookup db stock with
  | None => raise (HTTPException 404)
  | Some so =>
      match find (fun p => (dp_stock_id p =? stock_id so) && (dp_date p =? query_date))
                 (daily_prices db) with
      | None => raise (HTTPException 404)
      | Some price_data =>
          (* [price_map.get(price_type, price_data.close_price)]; building
             [formatted_answer] raises nothing, a missing value included *)
          let value :=
            if String.eqb price_type "open" then open_price price_data
            else if String.eqb price_type "high" then high_price price_data
            else if String.eqb price_type "low" then low_price price_data
            else if String.eqb price_type "close" then close_price price_data
            else if String.eqb price_type "change_rate" then change_rate price_data
            else close_price price_data in
          ret (IndividualPrice price_type value)
      end
  end.

(** [simple_query] with non-empty [stock] and [date]. *)
Definition simple_query_price (db : DB) (stock date price_type : string) : M Response :=
  guard500 (simple_query_price_body db stock date price_type).

(* ------------------------------------------------------------------ *)
(** ** Sample data *)

Definition june (d : Z) : Z := days_from_civil 2024 6 d.

Definition samsung : Stock := mkStock 1 "005930.KS" (Some "005930") "Samsung Electronics" "KOSPI" true.
Definition hyundai : Stock := mkStock 2 "069960.KS" (Some "069960") "Hyundai Department Store" "KOSPI" true.

Definition ti (sid d : Z) (a b : option Q) : TechnicalIndicator :=
  mkTechnicalIndicator sid d a b None None None None.

(** MA5 crosses above MA20 on the 3rd and the 10th, below on the 7th; the
    row of the 5th has no MA5; the rows are stored out of date order. *)
Definition cross_series : list TechnicalIndicator :=
  [ ti 1 (june 10) (Some 3%Q) (Some 2%Q);
    ti 1 (june 3) (Some 3%Q) (Some 2%Q);
    ti 1 (june 2) (Some 1%Q) (Some 2%Q);
    ti 1 (june 5) None (Some 2%Q);
    ti 2 (june 4) (Some 9%Q) (Some 1%Q);
    ti 1 (june 7) (Some 1%Q) (Some 2%Q);
    ti 1 (june 8) (Some 2%Q) (Some 2%Q);
    ti 1 (june 11) (Some 4%Q) (Some 2%Q) ].

Definition cross_db : DB := mkDB [samsung; hyundai] [] cross_series.

Definition cross_req : SignalReq :=
  mkSignalReq None "golden_cross_count" None None None None
    (Some "Samsung Electronics") (Some "2024-06-01") (Some "2024-06-30") 20 15.

Example cross_req_eval : signal_query cross_db cross_req = inr (CrossCount 2 1).
Proof. vm_compute. reflexivity. Qed.

(* ================================================================== *)
(** * Properties *)

(** ** The insertion sort behind [ORDER BY] and [list.sort] *)

Section SortBy.
Variable A : Type.
Variable le : A -> A -> bool.
Hypothesis le_total : forall a b, le a b = false -> le b a = true.

Let R (a b : A) : Prop := le a b = true.

Lemma insert_by_perm (x : A) (l : list A) :
  Permutation (insert_by le x l) (x :: l).
Proof.
  induction l as [|y ys IH]; simpl; [constructor; constructor|].
  destruct (le x y); [reflexivity|].
  eapply perm_trans; [apply perm_skip, IH|apply perm_swap].
Qed.

Lemma sort_by_perm (l : list A) : Permutation (sort_by le l) l.
Proof.
  induction l as [|x xs IH]; simpl; [constructor|].
  eapply perm_trans; [apply insert_by_perm|apply perm_skip, IH].
Qed.

Lemma insert_by_hdrel (x y : A) (l : list A) :
  HdRel R y l -> R y x -> HdRel R y (insert_by le x l).
Proof.
  intros Hhd Hyx; destruct l as [|z zs]; simpl; [constructor; exact Hyx|].
  destruct (le x z); constructor; [exact Hyx|].
  inversion Hhd; assumption.
Qed.

Lemma insert_by_sorted (x : A) (l : list A) :
  Sorted R l -> Sorted R (insert_by le x l).
Proof.
  induction 1 as [|y ys Hs IH Hhd]; simpl; [repeat constructor|].
  destruct (le x y) eqn:E.
  - constructor; [constructor; assumption|constructor; exact E].
  - constructor; [exact IH|].
    apply insert_by_hdrel; [exact Hhd|apply le_total, E].
Qed.

Lemma sort_by_sorted (l : list A) : Sorted R (sort_by le l).
Proof.
  induction l; simpl; [constructor|apply insert_by_sorted; assumption].
Qed.
End SortBy.

Lemma Sorted_weaken {A : Type} (R S : A -> A -> Prop) (l : list A) :
  (forall a b, R a b -> S a b) -> Sorted R l -> Sorted S l.
Proof.
  intros HRS; induction 1 as [|x xs _ IH Hhd]; constructor; [exact IH|].
  destruct Hhd; constructor; apply HRS; assumption.
Qed.

Arguments sort_by_perm {A}.
Arguments sort_by_sorted {A}.

Lemma Qle_bool_total (a b : Q) : Qle_bool a b = false -> Qle_bool b a = true.
Proof.
  intros H; apply Qle_bool_iff.
  destruct (Qlt_le_dec a b) as [Hlt|Hle]; [|exact Hle].
  exfalso; apply Qlt_le_weak, Qle_bool_iff in Hlt; congruence.
Qed.

Lemma Zleb_total (a b : Z) : (a <=? b) = false -> (b <=? a) = true.
Proof. intros H; apply Z.leb_gt in H; apply Z.leb_le; lia. Qed.

Lemma Qltb_iff (a b : Q) : Qltb a b = true <-> (a < b)%Q.
Proof.
  unfold Qltb; rewrite negb_true_iff; split; intros H.
  - apply Qnot_le_lt; intros H'; apply Qle_bool_iff in H'; congruence.
  - destruct (Qle_bool b a) eqn:E; [|reflexivity].
    apply Qle_bool_iff in E; exfalso; apply (Qlt_not_le _ _ H E).
Qed.

(** ** Cross counting *)

(** Number of adjacent pairs [(l[i-1], l[i])] satisfying [P]. *)
Definition count_pairs (P : TechnicalIndicator -> TechnicalIndicator -> bool)
  (l : list TechnicalIndicator) : nat :=
  List.length (filter (fun pr => P (fst pr) (snd pr)) (combine l (tl l))).

Lemma golden_step_iff (a b : TechnicalIndicator) :
  golden_step a b = true <->
  (mav (ma5 a) <= mav (ma20 a))%Q /\ (mav (ma20 b) < mav (ma5 b))%Q.
Proof.
  unfold golden_step; rewrite andb_true_iff, Qle_bool_iff, Qltb_iff; tauto.
Qed.

Lemma dead_step_iff (a b : TechnicalIndicator) :
  dead_step a b = true <->
  (mav (ma20 a) <= mav (ma5 a))%Q /\ (mav (ma5 b) < mav (ma20 b))%Q.
Proof.
  unfold dead_step; rewrite andb_true_iff, Qle_bool_iff, Qltb_iff; tauto.
Qed.

(** The two branches of the [if ... elif ...] never both apply. *)
Lemma golden_not_dead (a b : TechnicalIndicator) :
  golden_step a b = true -> dead_step a b = false.
Proof.
  intros Hg; apply golden_step_iff in Hg as [_ Hg].
  destruct (dead_step a b) eqn:Hd; [|reflexivity].
  apply dead_step_iff in Hd as [_ Hd].
  exfalso; apply (Qlt_irrefl (mav (ma5 b))); eapply Qlt_trans; eauto.
Qed.

Lemma cross_loop_count (prev : TechnicalIndicator) (rest : list TechnicalIndicator)
  (g d : nat) :
  cross_loop prev rest g d =
  (g + count_pairs golden_step (prev :: rest),
   d + count_pairs dead_step (prev :: rest))%nat.
Proof.
  revert prev g d; induction rest as [|curr rest IH]; intros prev g d.
  - unfold count_pairs; simpl; f_equal; lia.
  - unfold count_pairs in *; cbn [cross_loop combine tl filter fst snd] in *.
    destruct (golden_step prev curr) eqn:Hg.
    + rewrite (golden_not_dead _ _ Hg), IH; cbn [List.length]; f_equal; lia.
    + destruct (dead_step prev curr); rewrite IH; cbn [List.length]; f_equal; lia.
Qed.

Lemma cross_counts_spec (l : list TechnicalIndicator) :
  cross_counts l = (count_pairs golden_step l, count_pairs dead_step l).
Proof.
  destruct l as [|t ts]; [reflexivity|].
  unfold cross_counts; rewrite cross_loop_count; reflexivity.
Qed.

Lemma cross_rows_sorted (db : DB) (st : Stock) (s e : Z) :
  Sorted (fun a b => ti_date a <= ti_date b) (cross_rows db st s e).
Proof.
  unfold cross_rows.
  eapply Sorted_weaken; [|apply (sort_by_sorted date_le)].
  - intros a b H; apply Z.leb_le; exact H.
  - intros a b; apply Zleb_total.
Qed.

Lemma cross_rows_In (db : DB) (st : Stock) (s e : Z) (t : TechnicalIndicator) :
  In t (cross_rows db st s e) <->
  In t (technical_indicators db) /\ ti_stock_id t = stock_id st /\
  s <= ti_date t <= e /\ ma5 t <> None /\ ma20 t <> None.
Proof.
  unfold cross_rows; split; intros H.
  - apply (Permutation_in _ (sort_by_perm date_le _)) in H.
    apply filter_In in H as [Hin Hf]; unfold cross_filter in Hf.
    repeat rewrite andb_true_iff in Hf.
    destruct Hf as [[[[H1 H2] H3] H4] H5].
    apply Z.eqb_eq in H1; apply Z.leb_le in H2; apply Z.leb_le in H3.
    repeat split; try assumption; try lia.
    + destruct (ma5 t); discriminate.
    + destruct (ma20 t); discriminate.
  - destruct H as [Hin [H1 [[H2 H3] [H4 H5]]]].
    apply (Permutation_in _ (Permutation_sym (sort_by_perm date_le _))).
    apply filter_In; split; [exact Hin|]; unfold cross_filter.
    rewrite H1, Z.eqb_refl; apply Z.leb_le in H2; apply Z.leb_le in H3.
    rewrite H2, H3; destruct (ma5 t); [|congruence]; destruct (ma20 t); [|congruence].
    reflexivity.
Qed.

(** The handler's answer on a cross-count request for a resolved stock. *)
Lemma cross_branch_result (db : DB) (req : SignalReq) (st : Stock) (s e : Z) :
  truthy_str (sq_stock req) && truthy_str (start_date req) && truthy_str (end_date req) = true ->
  find_stock_by_name db (opt_str (sq_stock req)) "ALL" = Some st ->
  parse_date (opt_str (start_date req)) = inr s ->
  parse_date (opt_str (end_date req)) = inr e ->
  signal_query db req =
  inr (if (List.length (cross_rows db st s e) <? 2)%nat then CrossCount 0 0
       else CrossCount (count_pairs golden_step (cross_rows db st s e))
                       (count_pairs dead_step (cross_rows db st s e))).
Proof.
  intros Htr Hfind Hs He.
  unfold signal_query, signal_query_body; rewrite Htr, orb_true_r.
  unfold cross_count_branch; rewrite Htr; cbn [negb].
  rewrite Hfind, Hs, He.
  destruct (List.length (cross_rows db st s e) <? 2)%nat; [reflexivity|].
  rewrite cross_counts_spec; reflexivity.
Qed.

Lemma filter_disjoint_length {X : Type} (P Q : X -> bool) (l : list X) :
  (forall x, P x = true -> Q x = false) ->
  (List.length (filter P l) + List.length (filter Q l) <= List.length l)%nat.
Proof.
  intros HPQ; induction l as [|x xs IH]; simpl; [lia|].
  destruct (P x) eqn:HP; [rewrite (HPQ x HP)|destruct (Q x)]; simpl; lia.
Qed.

Lemma count_pairs_bound (l : list TechnicalIndicator) :
  (count_pairs golden_step l + count_pairs dead_step l <= List.length l - 1)%nat.
Proof.
  unfold count_pairs.
  eapply Nat.le_trans.
  - apply filter_disjoint_length; intros [a b]; apply golden_not_dead.
  - rewrite length_combine; destruct l as [|t ts]; [reflexivity|].
    cbn [tl List.length]; rewrite Nat.min_r by lia; lia.
Qed.

(** C1: for a resolved stock and a date range, the cross-count evaluator
    works on the stock's indicator rows of the range with both MA5 and MA20
    present, in ascending date order; it reports zero counts when fewer than
    two such rows exist, and otherwise counts the adjacent pairs with
    MA5 <= MA20 before and MA5 > MA20 after (golden) and those with
    MA5 >= MA20 before and MA5 < MA20 after (dead); a series crossing above
    twice and below once gives 2 and 1. *)
Theorem C1_cross_count_evaluator (db : DB) (req : SignalReq) (st : Stock) (s e : Z) :
  truthy_str (sq_stock req) && truthy_str (start_date req) && truthy_str (end_date req) = true ->
  find_stock_by_name db (opt_str (sq_stock req)) "ALL" = Some st ->
  parse_date (opt_str (start_date req)) = inr s ->
  parse_date (opt_str (end_date req)) = inr e ->
  let qs := cross_rows db st s e in
  Sorted (fun a b => ti_date a <= ti_date b) qs /\
  (forall t, In t qs <->
     In t (technical_indicators db) /\ ti_stock_id t = stock_id st /\
     s <= ti_date t <= e /\ ma5 t <> None /\ ma20 t <> None) /\
  (forall a b, golden_step a b = true <->
     (mav (ma5 a) <= mav (ma20 a))%Q /\ (mav (ma20 b) < mav (ma5 b))%Q) /\
  (forall a b, dead_step a b = true <->
     (mav (ma20 a) <= mav (ma5 a))%Q /\ (mav (ma5 b) < mav (ma20 b))%Q) /\
  signal_query db req =
    inr (if (List.length qs <? 2)%nat then CrossCount 0 0
         else CrossCount (count_pairs golden_step qs) (count_pairs dead_step qs)) /\
  signal_query cross_db cross_req = inr (CrossCount 2 1).
Proof.
  intros Htr Hfind Hs He qs.
  split; [apply cross_rows_sorted|].
  split; [intros t; apply cross_rows_In|].
  split; [apply golden_step_iff|].
  split; [apply dead_step_iff|].
  split; [apply (cross_branch_result db req st s e Htr Hfind Hs He)|].
  vm_compute; reflexivity.
Qed.

Lemma C1_witness :
  truthy_str (sq_stock cross_req) && truthy_str (start_date cross_req)
    && truthy_str (end_date cross_req) = true /\
  find_stock_by_name cross_db (opt_str (sq_stock cross_req)) "ALL" = Some samsung /\
  parse_date (opt_str (start_date cross_req)) = inr (june 1) /\
  parse_date (opt_str (end_date cross_req)) = inr (june 30) /\
  signal_query cross_db cross_req =
    inr (if (List.length (cross_rows cross_db samsung (june 1) (june 30)) <? 2)%nat
         then CrossCount 0 0
         else CrossCount (count_pairs golden_step (cross_rows cross_db samsung (june 1) (june 30)))
                         (count_pairs dead_step (cross_rows cross_db samsung (june 1) (june 30)))).
Proof.
  assert (H1 : truthy_str (sq_stock cross_req) && truthy_str (start_date cross_req)
                 && truthy_str (end_date cross_req) = true) by reflexivity.
  assert (H2 : find_stock_by_name cross_db (opt_str (sq_stock cross_req)) "ALL" = Some samsung)
    by (vm_compute; reflexivity).
  assert (H3 : parse_date (opt_str (start_date cross_req)) = inr (june 1))
    by (vm_compute; reflexivity).
  assert (H4 : parse_date (opt_str (end_date cross_req)) = inr (june 30))
    by (vm_compute; reflexivity).
  split; [exact H1|split; [exact H2|split; [exact H3|split; [exact H4|]]]].
  exact (proj1 (proj2 (proj2 (proj2 (proj2
           (C1_cross_count_evaluator cross_db cross_req samsung (june 1) (june 30)
              H1 H2 H3 H4)))))).
Defined.

(** C9: on a cross-count request for a resolved stock with at least two
    qualifying rows, no adjacent pair is both a golden and a dead cross,
    and golden_cross_count + dead_cross_count is at most the number of
    qualifying rows minus one. *)
Theorem C9_cross_counts_bounded (db : DB) (req : SignalReq) (st : Stock) (s e : Z) :
  truthy_str (sq_stock req) && truthy_str (start_date req) && truthy_str (end_date req) = true ->
  find_stock_by_name db (opt_str (sq_stock req)) "ALL" = Some st ->
  parse_date (opt_str (start_date req)) = inr s ->
  parse_date (opt_str (end_date req)) = inr e ->
  (2 <= List.length (cross_rows db st s e))%nat ->
  (forall a b, golden_step a b = true -> dead_step a b = false) /\
  exists g d, signal_query db req = inr (CrossCount g d) /\
              (g + d <= List.length (cross_rows db st s e) - 1)%nat.
Proof.
  intros Htr Hfind Hs He Hlen.
  split; [apply golden_not_dead|].
  exists (count_pairs golden_step (cross_rows db st s e)),
         (count_pairs dead_step (cross_rows db st s e)).
  rewrite (cross_branch_result db req st s e Htr Hfind Hs He).
  destruct (Nat.ltb_spec (List.length (cross_rows db st s e)) 2) as [Hlt|_]; [lia|].
  split; [reflexivity|apply count_pairs_bound].
Qed.

Lemma C9_witness :
  (2 <= List.length (cross_rows cross_db samsung (june 1) (june 30)))%nat /\
  (forall a b, golden_step a b = true -> dead_step a b = false) /\
  exists g d, signal_query cross_db cross_req = inr (CrossCount g d) /\
              (g + d <= List.length (cross_rows cross_db samsung (june 1) (june 30)) - 1)%nat.
Proof.
  assert (H0 : (2 <= List.length (cross_rows cross_db samsung (june 1) (june 30)))%nat)
    by (vm_compute; lia).
  split; [exact H0|].
  apply (C9_cross_counts_bounded cross_db cross_req samsung (june 1) (june 30));
    [reflexivity|vm_compute; reflexivity|vm_compute; reflexivity|vm_compute; reflexivity|exact H0].
Defined.

(** ** The resolver *)



Lemma resolver_base_In (db : DB) (mkt : string) (s : Stock) :
  In s (resolver_base db mkt) <->
  In s (stocks db) /\ is_active s = true /\ (mkt = "ALL" \/ market s = mkt).
Proof.
  unfold resolver_base; rewrite filter_In, andb_true_iff.
  destruct (String.eqb_spec mkt "ALL") as [->|Hne].
  - intuition.
  - rewrite String.eqb_eq; intuition congruence.
Qed.


Definition resolver_db : DB := mkDB [samsung; hyundai] [] [].


(** The resolver the spec describes, step (4) being substring containment
    of the query in one of the three columns. *)
Definition spec_substring (q : string) (s : Stock) : bool :=
  str_contains q (name s) || str_contains q (symbol s) ||
  match krx_code s with Some k => str_contains q k | None => false end.


(** A query without the LIKE metacharacters [%], [_] and [\]. *)
Definition like_plain (q : list Z) : bool :=
  forallb (fun c => negb ((c =? 37) || (c =? 95) || (c =? 92))) q.







Lemma like_match_any (p t : list Z) :
  like_match (37 :: p) t =
    like_match p t || match t with [] => false | _ :: t' => like_match (37 :: p) t' end.
Proof. destruct t; reflexivity. Qed.

Lemma like_match_final_any (t : list Z) : like_match [37] t = true.
Proof.
  induction t as [|x t IH]; [reflexivity|].
  rewrite like_match_any, IH, orb_true_r. reflexivity.
Qed.

Lemma like_match_prefix (p t : list Z) :
  like_plain p = true -> like_match (app p [37]) t = cp_prefix p t.
Proof.
  revert t. induction p as [|c p IH]; intros t Hp.
  - apply like_match_final_any.
  - cbn in Hp. apply andb_true_iff in Hp as [Hc Hp].
    destruct (c =? 37) eqn:E1; [discriminate|].
    destruct (c =? 95) eqn:E2; [discriminate|].
    destruct (c =? 92) eqn:E3; [discriminate|].
    cbn [app like_match]. rewrite E1, E2, E3.
    destruct t as [|x t]; [reflexivity|]. cbn [cp_prefix].
    rewrite (IH t Hp), Z.eqb_sym. reflexivity.
Qed.

(** On a query free of LIKE metacharacters, [.contains] is substring
    containment. *)
Lemma like_contains_plain (col v : string) :
  like_plain (chars v) = true -> like_contains col v = str_contains v col.
Proof.
  intros Hp. unfold like_contains, str_contains.
  induction (chars col) as [|x t IH].
  - rewrite like_match_any, (like_match_prefix _ _ Hp). reflexivity.
  - rewrite like_match_any, (like_match_prefix _ _ Hp), IH. reflexivity.
Qed.

Lemma cp_prefix_refl (p : list Z) : cp_prefix p p = true.
Proof. induction p as [|x p IH]; cbn; [reflexivity|rewrite Z.eqb_refl; exact IH]. Qed.

Lemma str_contains_refl (q : string) : str_contains q q = true.
Proof.
  unfold str_contains. destruct (chars q) as [|x p]; cbn; [reflexivity|].
  rewrite Z.eqb_refl, cp_prefix_refl. reflexivity.
Qed.

(** The resolver finds nothing when no stock matches the query exactly or
    through [.contains]. *)
Lemma find_stock_none (db : DB) (q mkt : string) :
  (forall s, In s (stocks db) ->
     exact_name q s = false /\ exact_symbol q s = false /\
     exact_krx q s = false /\ partial_any q s = false) ->
  find_stock_by_name db q mkt = None.
Proof.
  intros Hno.
  assert (Hall : forall p, (forall s, In s (stocks db) -> p s = false) ->
                           find p (resolver_base db mkt) = None).
  { intros p Hp; destruct (find p (resolver_base db mkt)) as [s|] eqn:E; [|reflexivity].
    apply find_some in E as [Hin Hs]; apply resolver_base_In in Hin as [Hin _].
    rewrite (Hp s Hin) in Hs; discriminate. }
  unfold find_stock_by_name.
  rewrite (Hall _ (fun s H => proj1 (Hno s H))),
          (Hall _ (fun s H => proj1 (proj2 (Hno s H)))),
          (Hall _ (fun s H => proj1 (proj2 (proj2 (Hno s H))))),
          (Hall _ (fun s H => proj2 (proj2 (proj2 (Hno s H))))).
  reflexivity.
Qed.

(** A query free of LIKE metacharacters that is no substring of any
    stock's name, symbol or exchange code matches no strategy. *)
Lemma no_substring_no_strategy (q : string) (s : Stock) :
  like_plain (chars q) = true -> spec_substring q s = false ->
  exact_name q s = false /\ exact_symbol q s = false /\
  exact_krx q s = false /\ partial_any q s = false.
Proof.
  intros Hp Hs. unfold spec_substring in Hs.
  apply orb_false_iff in Hs as [Hs Hk]. apply orb_false_iff in Hs as [Hn Hy].
  unfold exact_name, exact_symbol, exact_krx, partial_any, col_eq, col_contains.
  rewrite !(like_contains_plain _ _ Hp), Hn, Hy.
  destruct (String.eqb_spec (name s) q) as [E|_];
    [rewrite <- E, str_contains_refl in Hn; discriminate|].
  destruct (String.eqb_spec (symbol s) q) as [E|_];
    [rewrite <- E, str_contains_refl in Hy; discriminate|].
  destruct (krx_code s) as [k|]; [|repeat split].
  rewrite (like_contains_plain _ _ Hp), Hk. destruct (String.eqb_spec k q) as [E|_];
    [rewrite <- E, str_contains_refl in Hk; discriminate|repeat split].
Qed.

Definition kakao_req : SignalReq :=
  mkSignalReq None "golden_cross_count" None None None None
    (Some "Kakao") (Some "2024-06-01") (Some "2024-06-30") 20 15.

(** C6 (code defect): for a query (free of the LIKE metacharacters [%],
    [_] and [\]) that is no substring of any stock's name, symbol or
    exchange code, hence no exact match either, the resolver returns
    [None] and the cross-count branch raises [HTTPException(404)], but the
    handler's [except Exception] turns it into an [HTTPException(500)]:
    the caller answers 500, not 404. *)
Theorem C6_not_found_answers_500 (db : DB) (req : SignalReq) :
  truthy_str (sq_stock req) && truthy_str (start_date req) && truthy_str (end_date req) = true ->
  like_plain (chars (opt_str (sq_stock req))) = true ->
  (forall s, In s (stocks db) -> spec_substring (opt_str (sq_stock req)) s = false) ->
  find_stock_by_name db (opt_str (sq_stock req)) "ALL" = None /\
  signal_query_body db req = inl (HTTPException 404) /\
  signal_query db req = inl (HTTPException 500).
Proof.
  intros Htr Hp Hno.
  assert (Hnone := find_stock_none db (opt_str (sq_stock req)) "ALL"
                     (fun s Hs => no_substring_no_strategy _ s Hp (Hno s Hs))).
  assert (Hbody : signal_query_body db req = inl (HTTPException 404)).
  { unfold signal_query_body; rewrite Htr, orb_true_r.
    unfold cross_count_branch; rewrite Htr; cbn [negb]; rewrite Hnone; reflexivity. }
  split; [exact Hnone|split; [exact Hbody|]].
  unfold signal_query; rewrite Hbody; reflexivity.
Qed.

Lemma C6_witness :
  truthy_str (sq_stock kakao_req) && truthy_str (start_date kakao_req)
    && truthy_str (end_date kakao_req) = true /\
  like_plain (chars "Kakao") = true /\
  (forall s, In s (stocks resolver_db) -> spec_substring "Kakao" s = false) /\
  (find_stock_by_name resolver_db "Kakao" "ALL" = None /\
   signal_query_body resolver_db kakao_req = inl (HTTPException 404) /\
   signal_query resolver_db kakao_req = inl (HTTPException 500)).
Proof.
  assert (H1 : truthy_str (sq_stock kakao_req) && truthy_str (start_date kakao_req)
                 && truthy_str (end_date kakao_req) = true) by reflexivity.
  assert (H2 : like_plain (chars "Kakao") = true) by (vm_compute; reflexivity).
  assert (H3 : forall s, In s (stocks resolver_db) -> spec_substring "Kakao" s = false).
  { intros s Hs; simpl in Hs.
    destruct Hs as [<-|[<-|[]]]; vm_compute; reflexivity. }
  split; [exact H1|split; [exact H2|split; [exact H3|]]].
  exact (C6_not_found_answers_500 resolver_db kakao_req H1 H2 H3).
Defined.

(** A query with a LIKE wildcard that is no substring of any column still
    resolves: the cross-count branch then runs on the matched stock. *)
Definition wildcard_req : SignalReq :=
  mkSignalReq None "golden_cross_count" None None None None
    (Some "Hyundai%Store") (Some "2024-06-01") (Some "2024-06-30") 20 15.

Example resolver_wildcard_query :
  (forall s, In s (stocks resolver_db) -> spec_substring "Hyundai%Store" s = false) /\
  find_stock_by_name resolver_db "Hyundai%Store" "ALL" = Some hyundai /\
  signal_query resolver_db wildcard_req = inr (CrossCount 0 0).
Proof.
  split; [intros s Hs; simpl in Hs; destruct Hs as [<-|[<-|[]]]; vm_compute; reflexivity|].
  vm_compute. split; reflexivity.
Qed.

(** ** Error statuses *)

Definition bad_date_req : SignalReq :=
  mkSignalReq (Some "2024/06/03") "rsi_overbought" None None None None None None None 20 15.

Definition bad_type_req : SignalReq :=
  mkSignalReq (Some "2024-06-03") "macd_cross" None None None None None None None 20 15.

Definition bad_rsi_req : SignalReq :=
  mkSignalReq (Some "2024-06-03") "rsi_divergence" None None None None None None None 20 15.

(** C7 (code defect): [parse_date] raises [HTTPException(400)] on a date not
    in YYYY-MM-DD form, and [signal_query] raises [HTTPException(400)] on an
    unsupported signal type, but both are raised inside the handler's
    [try] whose [except Exception] re-raises them as [HTTPException(500)];
    an unsupported [rsi_...] type fails with an unbound [query], also 500. *)
Theorem C7_bad_request_answers_500 (db : DB) :
  parse_date "2024/06/03" = inl (HTTPException 400) /\
  signal_query_body db bad_date_req = inl (HTTPException 400) /\
  signal_query db bad_date_req = inl (HTTPException 500) /\
  signal_query_body db bad_type_req = inl (HTTPException 400) /\
  signal_query db bad_type_req = inl (HTTPException 500) /\
  signal_query_body db bad_rsi_req = inl UnboundLocalError /\
  signal_query db bad_rsi_req = inl (HTTPException 500) /\
  simple_query_price db "Samsung Electronics" "2024/06/03" "close" = inl (HTTPException 500).
Proof. repeat split; reflexivity. Qed.

(** A market with no RSI at or above 70 and no price rows. *)
Definition quiet_db : DB :=
  mkDB [samsung; hyundai] []
       [mkTechnicalIndicator 1 (june 3) None None None (Some (55#1)) None None].

Definition rsi_overbought_req (d : string) : SignalReq :=
  mkSignalReq (Some d) "rsi_overbought" None None None None None None None 20 15.

(** C8 (code defect): a snapshot signal matching no stock is answered with
    an empty list of results, but an absent single value (the price of an
    existing stock on a date without a price row) raises
    [HTTPException(404)] inside the [try] of [simple_query], which answers
    [HTTPException(500)] instead of not-found. *)
Theorem C8_empty_list_and_absent_price :
  signal_query quiet_db (rsi_overbought_req "2024-06-03") = inr (SignalDetection []) /\
  simple_query_price_body quiet_db "Samsung Electronics" "2024-06-03" "close"
    = inl (HTTPException 404) /\
  simple_query_price quiet_db "Samsung Electronics" "2024-06-03" "close"
    = inl (HTTPException 500).
Proof. repeat split; vm_compute; reflexivity. Qed.

(** ** The price type of [simple_query] *)

Definition samsung_june3 : DailyPrice :=
  mkDailyPrice 1 (june 3) (Some (69000#1)) (Some (71000#1)) (Some (68500#1))
               (Some (70000#1)) (Some 1000000) (Some (15#10)).

Definition price_db : DB := mkDB [samsung; hyundai] [samsung_june3] [].

Lemma simple_query_price_not_400 (db : DB) (stock date pt : string) :
  simple_query_price db stock date pt <> inl (HTTPException 400).
Proof.
  unfold simple_query_price, guard500.
  destruct (simple_query_price_body db stock date pt); congruence.
Qed.

(** C10: in an individual price query, a price type other than open, high,
    low, close and change_rate is never answered with a bad-request: when
    the stock and its price row on the date are found, the answer is the
    close price of that row. *)
Theorem C10_unknown_price_type_gives_close (db : DB) (stock date pt : string)
  (d : Z) (so : Stock) (p : DailyPrice) :
  ~ In pt ["open"; "high"; "low"; "close"; "change_rate"] ->
  parse_date date = inr d ->
  simple_stock_lookup db stock = Some so ->
  find (fun p => (dp_stock_id p =? stock_id so) && (dp_date p =? d)) (daily_prices db)
    = Some p ->
  simple_query_price db stock date pt <> inl (HTTPException 400) /\
  simple_query_price db stock date pt = inr (IndividualPrice pt (close_price p)).
Proof.
  intros Hpt Hd Hso Hp.
  split; [apply simple_query_price_not_400|].
  unfold simple_query_price, simple_query_price_body; rewrite Hd, Hso, Hp.
  destruct (String.eqb_spec pt "open") as [->|_]; [exfalso; apply Hpt; simpl; tauto|].
  destruct (String.eqb_spec pt "high") as [->|_]; [exfalso; apply Hpt; simpl; tauto|].
  destruct (String.eqb_spec pt "low") as [->|_]; [exfalso; apply Hpt; simpl; tauto|].
  destruct (String.eqb_spec pt "close") as [->|_]; [exfalso; apply Hpt; simpl; tauto|].
  destruct (String.eqb_spec pt "change_rate") as [->|_]; [exfalso; apply Hpt; simpl; tauto|].
  reflexivity.
Qed.

Lemma C10_witness :
  ~ In "volume" ["open"; "high"; "low"; "close"; "change_rate"] /\
  parse_date "2024-06-03" = inr (june 3) /\
  simple_stock_lookup price_db "Samsung Electronics" = Some samsung /\
  find (fun p => (dp_stock_id p =? stock_id samsung) && (dp_date p =? june 3))
       (daily_prices price_db) = Some samsung_june3 /\
  (simple_query_price price_db "Samsung Electronics" "2024-06-03" "volume"
     <> inl (HTTPException 400) /\
   simple_query_price price_db "Samsung Electronics" "2024-06-03" "volume"
     = inr (IndividualPrice "volume" (close_price samsung_june3))).
Proof.
  assert (H1 : ~ In "volume" ["open"; "high"; "low"; "close"; "change_rate"]).
  { simpl; intros H; repeat destruct H as [H|H]; discriminate || contradiction. }
  assert (H2 : parse_date "2024-06-03" = inr (june 3)) by (vm_compute; reflexivity).
  assert (H3 : simple_stock_lookup price_db "Samsung Electronics" = Some samsung)
    by (vm_compute; reflexivity).
  assert (H4 : find (fun p => (dp_stock_id p =? stock_id samsung) && (dp_date p =? june 3))
                    (daily_prices price_db) = Some samsung_june3)
    by (vm_compute; reflexivity).
  split; [exact H1|split; [exact H2|split; [exact H3|split; [exact H4|]]]].
  exact (C10_unknown_price_type_gives_close price_db "Samsung Electronics" "2024-06-03"
           "volume" (june 3) samsung samsung_june3 H1 H2 H3 H4).
Defined.

(** ** RSI signals *)

Definition lg : Stock := mkStock 4 "066570.KS" (Some "066570") "LG Electronics" "KOSPI" true.
Definition kia : Stock := mkStock 5 "000270.KS" (Some "000270") "Kia" "KOSPI" true.

Definition rsi_row (sid : Z) (r : Q) : TechnicalIndicator :=
  mkTechnicalIndicator sid (june 3) None None None (Some r) None None.

(** RSI 72.5, 85.0, 69.9 and 25 on 2024-06-03. *)
Definition rsi_db : DB :=
  mkDB [samsung; hyundai; lg; kia] []
       [rsi_row 1 (725#10); rsi_row 2 (850#10); rsi_row 4 (699#10); rsi_row 5 (25#1)].

Definition rsi_req (st : string) (thr : option Q) : SignalReq :=
  mkSignalReq (Some "2024-06-03") st thr None None None None None None 20 15.

Definition rsi_values (r : M Response) : list (option Q) :=
  match r with
  | inr (SignalDetection items) => map item_metric items
  | _ => []
  end.

(** C4 (code defect): the overbought evaluator with threshold 70 keeps the
    rows of RSI 72.5 and 85.0 and orders them [85.0; 72.5]; but the oversold
    evaluator computes [threshold or 30], so an explicit threshold 0 is
    replaced by 30 and a row of RSI 25 is returned although 25 > 0. *)
Theorem C4_rsi_threshold_zero_ignored :
  rsi_values (signal_query rsi_db (rsi_req "rsi_overbought" (Some (70#1)))) =
    [Some (850#10); Some (725#10)] /\
  rsi_values (signal_query rsi_db (rsi_req "rsi_overbought" None)) =
    [Some (850#10); Some (725#10)] /\
  rsi_values (signal_query rsi_db (rsi_req "rsi_oversold" (Some (0#1)))) = [Some (25#1)] /\
  (0 < 25)%Q.
Proof.
  split; [vm_compute; reflexivity|].
  split; [vm_compute; reflexivity|].
  split; [vm_compute; reflexivity|].
  reflexivity.
Qed.

(** ** Moving-average breakout *)

Definition ma20_row (sid : Z) (m20 : Q) : TechnicalIndicator :=
  mkTechnicalIndicator sid (june 3) None (Some m20) None None None None.

Definition close_on (sid : Z) (c : Q) : DailyPrice :=
  mkDailyPrice sid (june 3) None None None (Some c) (Some 1000) None.

(** Close 121, 105 and 115 against an MA20 of 100. *)
Definition breakout_db : DB :=
  mkDB [samsung; hyundai; lg]
       [close_on 1 (121#1); close_on 2 (105#1); close_on 4 (115#1)]
       [ma20_row 1 (100#1); ma20_row 2 (100#1); ma20_row 4 (100#1)].

Definition breakout_req (lim : Z) : SignalReq :=
  mkSignalReq (Some "2024-06-03") "ma_breakout" None None (Some 20) (Some (10#1))
    None None None 20 lim.

Definition result_names (r : M Response) : list string :=
  match r with
  | inr (SignalDetection items) => map item_name items
  | _ => []
  end.

Example breakout_default_limit :
  result_names (signal_query breakout_db (breakout_req 15)) =
    ["Samsung Electronics"; "LG Electronics"].
Proof. vm_compute; reflexivity. Qed.









(** The route's branch dispatch for a snapshot request of a given type. *)
Lemma snapshot_dispatch (db : DB) (req : SignalReq) (d : Z) :
  endswith (signal_type req) "_count" = false ->
  truthy_str (sq_stock req) && truthy_str (start_date req) && truthy_str (end_date req) = false ->
  truthy_str (sq_date req) = true ->
  parse_date (opt_str (sq_date req)) = inr d ->
  signal_query_body db req =
    if startswith (signal_type req) "rsi_" then rsi_branch db req d
    else if String.eqb (signal_type req) "volume_surge" then volume_surge_branch db req d
    else if startswith (signal_type req) "bollinger_" then bollinger_branch db req d
    else if String.eqb (signal_type req) "ma_breakout" then ma_breakout_branch db req d
    else raise (HTTPException 400).
Proof.
  intros Hend Hcross Hdate Hparse.
  unfold signal_query_body; rewrite Hend, Hcross, Hdate; cbn [orb negb].
  rewrite Hparse; reflexivity.
Qed.




(** ** Volume surge *)



Lemma date_sub_days_inr (d k x : Z) : date_sub_days d k = inr x -> x = d - k.
Proof.
  unfold date_sub_days, raise, ret.
  destruct (999999999 <? Z.abs k); [discriminate|].
  destruct (_ || _); [discriminate|]. congruence.
Qed.




Lemma filter_length_le {X : Type} (f g : X -> bool) (l : list X) :
  (forall x, f x = true -> g x = true) ->
  (List.length (filter f l) <= List.length (filter g l))%nat.
Proof.
  intros Hfg; induction l as [|x xs IH]; simpl; [lia|].
  destruct (f x) eqn:Ef; [rewrite (Hfg x Ef); simpl; lia|].
  destruct (g x); simpl; lia.
Qed.





Definition july1 : Z := days_from_civil 2024 7 1.










(* ================================================================== *)
(** * Further helpers of [utils/helpers.py] *)

(** [get_stock_by_symbol]: the first active stock whose symbol is
    [symbol.upper()], else [HTTPException(404)]. *)
Definition get_stock_by_symbol (db : DB) (sym : string) : M Stock :=
  match find (fun s => String.eqb (symbol s) (str_upper sym) && is_active s) (stocks db) with
  | Some s => ret s
  | None => raise (HTTPException 404)
  end.

Example str_upper_examples :
  str_upper "005930.ks" = "005930.KS" /\ str_upper "straße" = "STRASSE" /\
  str_upper "ſ" = "S" /\ str_upper "ẞ" = "ẞ" /\ str_upper "삼성" = "삼성".
Proof. vm_compute. repeat split. Qed.

Lemma get_stock_by_symbol_result (db : DB) (sym : string) :
  match get_stock_by_symbol db sym with
  | inr st => In st (stocks db) /\ symbol st = str_upper sym /\ is_active st = true
  | inl e => e = HTTPException 404 /\
      forall st, In st (stocks db) -> symbol st = str_upper sym -> is_active st = false
  end.
Proof.
  unfold get_stock_by_symbol, ret, raise.
  destruct (find _ (stocks db)) as [st|] eqn:Hf.
  - apply find_some in Hf as [Hin Hp].
    apply andb_true_iff in Hp as [Hs Ha]. apply String.eqb_eq in Hs. auto.
  - split; [reflexivity|]. intros st Hin Hs.
    pose proof (find_none _ _ Hf st Hin) as Hn. cbn in Hn.
    rewrite Hs, String.eqb_refl in Hn. exact Hn.
Qed.

(** ** [date.isoformat()] and [parse_date] *)

Definition digit_char (k : Z) : ascii := ascii_of_nat (48 + Z.to_nat k).

(** [date.isoformat()], as emitted by [build_stock_response]:
    [%04d-%02d-%02d]. *)
Definition isoformat (y m d : Z) : string :=
  String (digit_char (y / 1000)) (String (digit_char (y / 100 mod 10))
  (String (digit_char (y / 10 mod 10)) (String (digit_char (y mod 10))
  (String "-" (String (digit_char (m / 10)) (String (digit_char (m mod 10))
  (String "-" (String (digit_char (d / 10)) (String (digit_char (d mod 10))
  EmptyString))))))))).

Lemma digit_char_cases (P : Z -> Prop) (k : Z) :
  0 <= k < 10 -> P 0 -> P 1 -> P 2 -> P 3 -> P 4 -> P 5 -> P 6 -> P 7 -> P 8 -> P 9 -> P k.
Proof.
  intros Hk H0 H1 H2 H3 H4 H5 H6 H7 H8 H9.
  assert (k = 0 \/ k = 1 \/ k = 2 \/ k = 3 \/ k = 4 \/ k = 5 \/ k = 6 \/ k = 7 \/ k = 8 \/ k = 9)
    as Hc by lia.
  repeat destruct Hc as [-> | Hc]; [..|subst]; assumption.
Qed.

Lemma digit_char_byte (k : Z) : 0 <= k < 10 -> byte_of (digit_char k) = 48 + k.
Proof. intros Hk. apply (digit_char_cases (fun k => byte_of (digit_char k) = 48 + k)); auto. Qed.

Lemma nd_digit_char (k : Z) : 0 <= k < 10 -> nd_digit (byte_of (digit_char k)) = Some k.
Proof.
  intros Hk. apply (digit_char_cases (fun k => nd_digit (byte_of (digit_char k)) = Some k));
    auto; vm_compute; reflexivity.
Qed.

Lemma utf8_decode_ascii (c : ascii) (r : list ascii) :
  byte_of c < 128 -> utf8_decode (c :: r) = byte_of c :: utf8_decode r.
Proof.
  intros Hc. cbn [utf8_decode]. rewrite (proj2 (Z.ltb_lt _ _) Hc). reflexivity.
Qed.

(** The code points of an isoformat string: ten ASCII characters. *)
Lemma chars_isoformat (y m d : Z) :
  0 <= y < 10000 -> 0 <= m < 100 -> 0 <= d < 100 ->
  chars (isoformat y m d) =
  [byte_of (digit_char (y / 1000)); byte_of (digit_char (y / 100 mod 10));
   byte_of (digit_char (y / 10 mod 10)); byte_of (digit_char (y mod 10)); 45;
   byte_of (digit_char (m / 10)); byte_of (digit_char (m mod 10)); 45;
   byte_of (digit_char (d / 10)); byte_of (digit_char (d mod 10))].
Proof.
  intros Hy Hm Hd.
  assert (Hb : forall k, 0 <= k < 10 -> byte_of (digit_char k) < 128)
    by (intros k Hk; rewrite digit_char_byte by exact Hk; lia).
  unfold chars, isoformat. cbn [list_ascii_of_string].
  rewrite !utf8_decode_ascii
    by (try apply Hb; try (apply Z.mod_pos_bound; lia); try (Z.div_mod_to_equations; lia);
        reflexivity).
  reflexivity.
Qed.

Lemma digit_char_not_dash (k : Z) : 0 <= k < 10 -> (byte_of (digit_char k) =? 45) = false.
Proof. intros Hk. rewrite digit_char_byte by exact Hk. apply Z.eqb_neq. lia. Qed.

Lemma parse_year_digits (y : Z) :
  0 <= y < 10000 ->
  parse_year [byte_of (digit_char (y / 1000)); byte_of (digit_char (y / 100 mod 10));
              byte_of (digit_char (y / 10 mod 10)); byte_of (digit_char (y mod 10))] = Some y.
Proof.
  intros Hy. cbn [parse_year].
  rewrite (nd_digit_char (y / 1000)) by (Z.div_mod_to_equations; lia).
  rewrite !(nd_digit_char (_ mod 10)) by (apply Z.mod_pos_bound; lia).
  f_equal. Z.div_mod_to_equations. lia.
Qed.

Lemma parse_month_digits (m : Z) :
  1 <= m <= 12 ->
  parse_month [byte_of (digit_char (m / 10)); byte_of (digit_char (m mod 10))] = Some m.
Proof.
  intros Hm.
  assert (m = 1 \/ m = 2 \/ m = 3 \/ m = 4 \/ m = 5 \/ m = 6 \/ m = 7 \/ m = 8 \/ m = 9 \/
          m = 10 \/ m = 11 \/ m = 12) as Hc by lia.
  repeat destruct Hc as [-> | Hc]; [..|subst]; vm_compute; reflexivity.
Qed.

Lemma parse_day_digits (d : Z) :
  1 <= d <= 31 ->
  parse_day [byte_of (digit_char (d / 10)); byte_of (digit_char (d mod 10))] = Some d.
Proof.
  intros Hd.
  assert (exists k, d = Z.of_nat k /\ (1 <= k <= 31)%nat) as [k [-> Hk]]
    by (exists (Z.to_nat d); lia).
  do 32 (destruct k as [|k]; [try lia; vm_compute; reflexivity|]). lia.
Qed.

Lemma days_in_month_le_31 (y m : Z) : days_in_month y m <= 31.
Proof.
  unfold days_in_month.
  destruct (Z.eqb m 2); [destruct (is_leap y); lia|].
  destruct (_ || _); lia.
Qed.

(** Every date of years 1..9999, written by [date.isoformat()], is read
    back by [parse_date] as the same day. *)
Theorem parse_date_isoformat (y m d : Z) :
  1 <= y <= 9999 -> 1 <= m <= 12 -> 1 <= d <= days_in_month y m ->
  parse_date (isoformat y m d) = inr (days_from_civil y m d).
Proof.
  intros Hy Hm Hd. pose proof (days_in_month_le_31 y m) as H31.
  unfold parse_date. rewrite chars_isoformat by lia.
  cbn [split_dash].
  rewrite !digit_char_not_dash
    by (try apply Z.mod_pos_bound; Z.div_mod_to_equations; lia).
  cbn [Z.eqb Pos.eqb].
  rewrite parse_year_digits by lia.
  rewrite parse_month_digits by lia.
  rewrite parse_day_digits by lia.
  destruct (Z.leb_spec 1 y); [|lia]. destruct (Z.leb_spec d (days_in_month y m)); [|lia].
  reflexivity.
Qed.

Lemma parse_date_isoformat_witness :
  (1 <= 2024 <= 9999 /\ 1 <= 2 <= 12 /\ 1 <= 29 <= days_in_month 2024 2) /\
  parse_date (isoformat 2024 2 29) = inr (days_from_civil 2024 2 29).
Proof.
  assert (H3 : 1 <= 29 <= days_in_month 2024 2) by (vm_compute; split; discriminate).
  split; [split; [lia | split; [lia | exact H3]]|].
  exact (parse_date_isoformat 2024 2 29 ltac:(lia) ltac:(lia) H3).
Defined.

(* ================================================================== *)
(** * [filter_query] ([routes/query.py]) *)

(** A [float] query parameter: besides the finite values, FastAPI accepts
    "inf", "-inf" and "nan" (and overflowing literals such as "1e400"). *)
Inductive PyFloat :=
| Fin (q : Q)
| PInf
| NInf
| NaN.

(** [x < b] for a finite [x]; every comparison with NaN is false. *)
Definition float_lt (x : Q) (b : PyFloat) : bool :=
  match b with Fin q => Qltb x q | PInf => true | NInf => false | NaN => false end.

(** [x > b] for a finite [x]. *)
Definition float_gt (x : Q) (b : PyFloat) : bool :=
  match b with Fin q => Qltb q x | PInf => false | NInf => true | NaN => false end.

Record FilterReq := mkFilterReq {
  fq_date : string;
  volume_change_min : option PyFloat;
  volume_min : option Z;
  change_rate_min : option PyFloat;
  change_rate_max : option PyFloat;
  price_min : option PyFloat;
  price_max : option PyFloat;
  fq_market : string;
  fq_limit : Z
}.

(** One entry of [results]. *)
Record FilterItem := mkFilterItem {
  fi_name : string;
  fi_symbol : string;
  fi_market : string;
  fi_close_price : option Q;
  fi_change_rate : option Q;
  fi_volume : option Z
}.

Definition filter_item (p : DailyPrice) (s : Stock) : FilterItem :=
  mkFilterItem (name s) (symbol s) (market s) (close_price p) (change_rate p) (volume p).

(** [bound is not None and (v is None or v < bound)] *)
Definition below_min (bound : option PyFloat) (v : option Q) : bool :=
  match bound with
  | None => false
  | Some b => match v with None => true | Some x => float_lt x b end
  end.

(** [bound is not None and (v is None or v > bound)] *)
Definition above_max (bound : option PyFloat) (v : option Q) : bool :=
  match bound with
  | None => false
  | Some b => match v with None => true | Some x => float_gt x b end
  end.

Definition below_min_Z (bound v : option Z) : bool :=
  match bound with
  | None => false
  | Some b => match v with None => true | Some x => x <? b end
  end.

(** The five [continue] tests that read only the row itself. *)
Definition filter_skip (req : FilterReq) (p : DailyPrice) : bool :=
  below_min (change_rate_min req) (change_rate p) ||
  above_max (change_rate_max req) (change_rate p) ||
  below_min (price_min req) (close_price p) ||
  above_max (price_max req) (close_price p) ||
  below_min_Z (volume_min req) (volume p).

(** The previous day's row: [.filter(stock_id == ..., date == prev_date).first()]. *)
Definition prev_price_of (db : DB) (prev_date : Z) (p : DailyPrice) : option DailyPrice :=
  find (fun q => (dp_stock_id q =? dp_stock_id p) && (dp_date q =? prev_date))
       (daily_prices db).

(** [((price.volume - prev_price.volume) / prev_price.volume) * 100] *)
Definition volume_change (v pv : Z) : Q :=
  (inject_Z (v - pv) / inject_Z pv * inject_Z 100)%Q.

(** The [volume_change_min] test: [true] keeps the row. *)
Definition volume_change_keep (db : DB) (req : FilterReq) (query_date : Z)
    (p : DailyPrice) : M bool :=
  match volume_change_min req with
  | None => ret true
  | Some m =>
      prev_date <- date_sub_days query_date 1 ;;
      match prev_price_of db prev_date p with
      | None => ret false
      | Some pp =>
          if match volume pp with Some pv => pv =? 0 | None => false end then ret false
          else match volume p, volume pp with
               | Some v, Some pv => ret (negb (float_lt (volume_change v pv) m))
               | _, _ => raise TypeError
               end
      end
  end.

Fixpoint filter_loop (db : DB) (req : FilterReq) (query_date : Z)
    (rows : list (DailyPrice * Stock)) : M (list FilterItem) :=
  match rows with
  | [] => ret []
  | (p, s) :: rest =>
      keep <- (if filter_skip req p then ret false
               else volume_change_keep db req query_date p) ;;
      tl <- filter_loop db req query_date rest ;;
      ret (if keep then filter_item p s :: tl else tl)
  end.

(** [results.sort(key=lambda x: x["change_rate"] or 0, reverse=True)] *)
Definition filter_key (it : FilterItem) : Q := or_Q (fi_change_rate it) 0.

Definition sort_filter (l : list FilterItem) : list FilterItem :=
  sort_by (fun a b => Qle_bool (filter_key b) (filter_key a)) l.

Definition filter_rows (db : DB) (req : FilterReq) (query_date : Z)
  : list (DailyPrice * Stock) :=
  let rows := price_join db query_date in
  if String.eqb (fq_market req) "ALL" then rows
  else filter (fun ps => String.eqb (market (snd ps)) (fq_market req)) rows.

Definition filter_query_body (db : DB) (req : FilterReq) : M (list FilterItem) :=
  query_date <- parse_date (fq_date req) ;;
  results <- filter_loop db req query_date (filter_rows db req query_date) ;;
  ret (py_take (fq_limit req) (sort_filter results)).

Definition filter_query (db : DB) (req : FilterReq) : M (list FilterItem) :=
  guard500 (filter_query_body db req).

Lemma Sorted_firstn {A : Type} (R : A -> A -> Prop) (n : nat) (l : list A) :
  Sorted R l -> Sorted R (firstn n l).
Proof.
  revert l; induction n as [|n IH]; intros l Hs; [constructor|].
  destruct l as [|x xs]; [constructor|].
  apply Sorted_inv in Hs as [Hs Hhd]. cbn. constructor; [apply IH, Hs|].
  destruct n; [constructor|]. destruct xs; cbn; [constructor|].
  inversion Hhd; constructor; assumption.
Qed.

Lemma Sorted_py_take {A : Type} (R : A -> A -> Prop) (n : Z) (l : list A) :
  Sorted R l -> Sorted R (py_take n l).
Proof. intros Hs; unfold py_take; destruct (0 <=? n); apply Sorted_firstn, Hs. Qed.

Lemma py_take_nil {A : Type} (n : Z) : py_take n (@nil A) = [].
Proof. unfold py_take; destruct (0 <=? n); apply firstn_nil. Qed.








Lemma filter_query_inv (db : DB) (req : FilterReq) (res : list FilterItem) :
  filter_query db req = inr res ->
  exists d results, parse_date (fq_date req) = inr d /\
    filter_loop db req d (filter_rows db req d) = inr results /\
    res = py_take (fq_limit req) (sort_filter results).
Proof.
  unfold filter_query, guard500, filter_query_body.
  destruct (parse_date (fq_date req)) as [e|d] eqn:Hd; [discriminate|].
  destruct (filter_loop db req d (filter_rows db req d)) as [e|results] eqn:Hl;
    [discriminate|].
  intros H; injection H as <-. exists d, results. auto.
Qed.


(** ** Extra properties of [filter_query] *)



(** The volume-change test looks at the previous calendar day, not the
    previous trading day: when no price row exists on the day before the
    query date (as after a weekend), a request with [volume_change_min]
    returns no stock at all (the query date being after 0001-01-01, so
    that the day before it exists). *)
Theorem filter_query_no_previous_day (db : DB) (req : FilterReq) (d : Z) (m : PyFloat) :
  parse_date (fq_date req) = inr d -> volume_change_min req = Some m ->
  date_sub_days d 1 = inr (d - 1) ->
  (forall q, In q (daily_prices db) -> dp_date q <> d - 1) ->
  filter_query db req = inr [].
Proof.
  intros Hd Hm Hsub Hnone.
  assert (Hprev : forall p, prev_price_of db (d - 1) p = None).
  { intros p. unfold prev_price_of.
    destruct (find _ _) as [q|] eqn:Hf; [|reflexivity].
    apply find_some in Hf as [Hq Hc]. apply andb_true_iff in Hc as [_ Hc].
    apply Z.eqb_eq in Hc. exfalso; exact (Hnone q Hq Hc). }
  assert (Hloop : forall rows, filter_loop db req d rows = inr []).
  { induction rows as [|[p s] rows IH]; [reflexivity|]. cbn [filter_loop].
    unfold volume_change_keep. rewrite Hm, Hsub, Hprev, IH.
    destruct (filter_skip req p); reflexivity. }
  unfold filter_query, filter_query_body. rewrite Hd, Hloop.
  cbn. rewrite py_take_nil. reflexivity.
Qed.

(** The results are ordered by decreasing [change_rate] (NULL counted as
    0), and a non-negative [limit] bounds their number. *)
Theorem filter_query_sorted_limit (db : DB) (req : FilterReq) (res : list FilterItem) :
  filter_query db req = inr res ->
  Sorted (fun a b => filter_key b <= filter_key a)%Q res /\
  (0 <= fq_limit req -> (List.length res <= Z.to_nat (fq_limit req))%nat).
Proof.
  intros H. destruct (filter_query_inv db req res H) as [d [results [_ [_ ->]]]].
  split.
  - apply Sorted_py_take. unfold sort_filter.
    eapply Sorted_weaken; [|apply (sort_by_sorted (fun a b => Qle_bool (filter_key b) (filter_key a)))].
    + intros a b Hab; apply Qle_bool_iff; exact Hab.
    + intros a b; apply Qle_bool_total.
  - intros Hl. unfold py_take. destruct (Z.leb_spec 0 (fq_limit req)); [|lia].
    apply firstn_le_length.
Qed.

(** Apart from an invalid date, only the volume-change test can make
    [filter_query] fail: without [volume_change_min] it always answers,
    and with it a single candidate row whose previous-day row has a NULL
    volume turns the whole request into a 500, as does a single candidate
    row on 0001-01-01, whose previous day [date] cannot represent. *)
Theorem filter_query_failures (db : DB) (req : FilterReq) (d : Z) :
  parse_date (fq_date req) = inr d ->
  (volume_change_min req = None -> exists res, filter_query db req = inr res) /\
  (forall m p s pp, volume_change_min req = Some m ->
     In (p, s) (filter_rows db req d) -> filter_skip req p = false ->
     prev_price_of db (d - 1) p = Some pp -> volume pp = None ->
     filter_query db req = inl (HTTPException 500)) /\
  (forall m p s, volume_change_min req = Some m ->
     In (p, s) (filter_rows db req d) -> filter_skip req p = false ->
     d = date_min ->
     filter_query db req = inl (HTTPException 500)).
Proof.
  intros Hd. split.
  - intros Hm.
    assert (Hloop : forall rows, exists r, filter_loop db req d rows = inr r).
    { induction rows as [|[p s] rows [r IH]]; [exists []; reflexivity|].
      cbn [filter_loop]. unfold volume_change_keep. rewrite Hm, IH.
      destruct (filter_skip req p); eexists; reflexivity. }
    destruct (Hloop (filter_rows db req d)) as [r Hr].
    unfold filter_query, filter_query_body. rewrite Hd, Hr. eexists; reflexivity.
  - assert (Hfail : forall p s, In (p, s) (filter_rows db req d) ->
              (exists e, (if filter_skip req p then ret false
                          else volume_change_keep db req d p) = inl e) ->
              filter_query db req = inl (HTTPException 500)).
    { intros p s Hin Hp.
      assert (Hloop : forall rows, In (p, s) rows ->
                exists e, filter_loop db req d rows = inl e).
      { induction rows as [|[p' s'] rows IH]; intros Hr; [destruct Hr|].
        cbn [filter_loop].
        destruct Hr as [Heq|Hr].
        - injection Heq as -> ->. destruct Hp as [e He]. rewrite He.
          eexists; reflexivity.
        - destruct (IH Hr) as [e He]. rewrite He.
          destruct (if filter_skip req p' then ret false else volume_change_keep db req d p');
            eexists; reflexivity. }
      destruct (Hloop _ Hin) as [e He].
      unfold filter_query, filter_query_body. rewrite Hd, He. reflexivity. }
    split.
    + intros m p s pp Hm Hin Hskip Hpp Hv. apply (Hfail p s Hin).
      rewrite Hskip. unfold volume_change_keep. rewrite Hm.
      destruct (date_sub_days d 1) as [e|pd] eqn:Hpd; [eexists; reflexivity|].
      apply date_sub_days_inr in Hpd. subst pd.
      rewrite Hpp, Hv. destruct (volume p); eexists; reflexivity.
    + intros m p s Hm Hin Hskip ->. apply (Hfail p s Hin).
      rewrite Hskip. unfold volume_change_keep. rewrite Hm.
      eexists; reflexivity.
Qed.

(** ** Sample data for [filter_query] *)

Definition fprice (sid d : Z) (close : Q) (v : option Z) (cr : Q) : DailyPrice :=
  mkDailyPrice sid d None None None (Some close) v (Some cr).

(** Samsung doubles its volume from June 2 to June 3; Hyundai has no
    volume recorded on June 2. *)
Definition filter_db : DB :=
  mkDB [samsung; hyundai]
       [fprice 1 (june 3) (70000#1) (Some 200) (3#1);
        fprice 2 (june 3) (200000#1) (Some 100) (5#1);
        fprice 1 (june 2) (68000#1) (Some 100) (1#1);
        fprice 2 (june 2) (190000#1) None (0#1)] [].

Definition filter_req (date : string) (vcm pmax : option PyFloat) : FilterReq :=
  mkFilterReq date vcm (Some 50) (Some (Fin (1#1))) None None pmax "KOSPI" 10.



Lemma filter_query_no_previous_day_witness :
  parse_date (fq_date (filter_req "2024-06-02" (Some (Fin (50#1))) None)) = inr (june 2) /\
  volume_change_min (filter_req "2024-06-02" (Some (Fin (50#1))) None) = Some (Fin (50#1)) /\
  date_sub_days (june 2) 1 = inr (june 2 - 1) /\
  (forall q, In q (daily_prices filter_db) -> dp_date q <> june 2 - 1) /\
  filter_query filter_db (filter_req "2024-06-02" (Some (Fin (50#1))) None) = inr [].
Proof.
  assert (H1 : parse_date (fq_date (filter_req "2024-06-02" (Some (Fin (50#1))) None)) = inr (june 2))
    by (vm_compute; reflexivity).
  assert (H2 : volume_change_min (filter_req "2024-06-02" (Some (Fin (50#1))) None)
               = Some (Fin (50#1))) by reflexivity.
  assert (H2' : date_sub_days (june 2) 1 = inr (june 2 - 1)) by (vm_compute; reflexivity).
  assert (H3 : forall q, In q (daily_prices filter_db) -> dp_date q <> june 2 - 1).
  { intros q Hq. cbn in Hq. repeat destruct Hq as [<-|Hq]; [..|destruct Hq];
      vm_compute; discriminate. }
  split; [exact H1|split; [exact H2|split; [exact H2'|split; [exact H3|]]]].
  exact (filter_query_no_previous_day filter_db _ (june 2) (Fin (50#1)) H1 H2 H2' H3).
Defined.

Lemma filter_query_sorted_limit_witness :
  filter_query filter_db (filter_req "2024-06-03" None None) =
    inr [filter_item (fprice 2 (june 3) (200000#1) (Some 100) (5#1)) hyundai;
         filter_item (fprice 1 (june 3) (70000#1) (Some 200) (3#1)) samsung] /\
  Sorted (fun a b => filter_key b <= filter_key a)%Q
    [filter_item (fprice 2 (june 3) (200000#1) (Some 100) (5#1)) hyundai;
     filter_item (fprice 1 (june 3) (70000#1) (Some 200) (3#1)) samsung].
Proof.
  assert (H1 : filter_query filter_db (filter_req "2024-06-03" None None) =
    inr [filter_item (fprice 2 (june 3) (200000#1) (Some 100) (5#1)) hyundai;
         filter_item (fprice 1 (june 3) (70000#1) (Some 200) (3#1)) samsung])
    by (vm_compute; reflexivity).
  split; [exact H1|].
  exact (proj1 (filter_query_sorted_limit filter_db _ _ H1)).
Defined.

Lemma filter_query_failures_witness :
  parse_date (fq_date (filter_req "2024-06-03" (Some (Fin (50#1))) None)) = inr (june 3) /\
  filter_query filter_db (filter_req "2024-06-03" (Some (Fin (50#1))) None)
    = inl (HTTPException 500).
Proof.
  assert (H1 : parse_date (fq_date (filter_req "2024-06-03" (Some (Fin (50#1))) None)) = inr (june 3))
    by (vm_compute; reflexivity).
  split; [exact H1|].
  apply (proj1 (proj2 (filter_query_failures filter_db _ (june 3) H1)) (Fin (50#1))
           (fprice 2 (june 3) (200000#1) (Some 100) (5#1)) hyundai
           (fprice 2 (june 2) (190000#1) None (0#1))); vm_compute; try reflexivity.
  right; left; reflexivity.
Defined.

(** Non-finite bounds: a NaN lower bound on [change_rate] keeps every
    stock with a [change_rate], a +inf one keeps none. *)
Example filter_query_nonfinite_bounds :
  filter_query filter_db (mkFilterReq "2024-06-03" None None (Some NaN) None None None "ALL" 10) =
    inr [filter_item (fprice 2 (june 3) (200000#1) (Some 100) (5#1)) hyundai;
         filter_item (fprice 1 (june 3) (70000#1) (Some 200) (3#1)) samsung] /\
  filter_query filter_db (mkFilterReq "2024-06-03" None None (Some PInf) None None None "ALL" 10) =
    inr [].
Proof. vm_compute. split; reflexivity. Qed.

(* ================================================================== *)
(** * [simple_query] ([routes/query.py]): all branches *)

(** [MarketStat] rows. *)
Record MarketStat := mkMarketStat {
  ms_date : Z;
  ms_market : string;
  rising_stocks : option Z;
  falling_stocks : option Z;
  total_stocks : option Z;
  total_value : option Q
}.

(** [MarketIndex] rows. The model declares [open_index] ... [close_index]
    but no [index_value] column. *)
Record MarketIndex := mkMarketIndex {
  mi_market : string;
  mi_date : Z;
  close_index : option Q
}.

Record MarketDB := mkMarketDB {
  mdb : DB;
  market_stats : list MarketStat;
  market_indices : list MarketIndex
}.

(** The exceptions of [simple_query]: those of the other handlers, and the
    [AttributeError] of reading an attribute the model does not declare. *)
Inductive simple_exn :=
| PyExn (e : py_exn)
| AttributeError.

Definition SM (A : Type) : Type := (simple_exn + A)%type.

Definition lift {A} (m : M A) : SM A :=
  match m with inl e => inl (PyExn e) | inr a => inr a end.

Definition sraise {A} (e : py_exn) : SM A := inl (PyExn e).

Record SimpleReq := mkSimpleReq {
  sp_stock : option string;
  sp_date : option string;
  sp_price_type : string;
  sp_stat_type : option string;
  sp_rank_type : option string;
  sp_direction : string;
  sp_market : string;
  sp_limit : Z
}.

Inductive SimpleResponse :=
| PriceAnswer (r : Response)
| MarketStats (stat_type : string) (value : Q)
| MarketRanking (target_market : string) (rows : list (DailyPrice * Stock)).

(** [parse_date(date)] on an [Optional[str]]: [strptime(None, ...)] raises
    a [TypeError], which [parse_date] does not catch. *)
Definition parse_opt_date (o : option string) : M Z :=
  match o with None => raise TypeError | Some s => parse_date s end.

(** *** Market index *)

Definition index_branch (m : MarketDB) (query_date : Z) (market : string)
  : SM SimpleResponse :=
  if String.eqb market "ALL" then sraise (HTTPException 400)
  else match find (fun mi => (mi_date mi =? query_date) && String.eqb (mi_market mi) market)
                  (market_indices m) with
       | None => sraise (HTTPException 404)
       | Some _ => inl AttributeError   (* [index_data.index_value] *)
       end.

(** *** Market statistics *)

Definition stat_first (m : MarketDB) (query_date : Z) (market : string) : option MarketStat :=
  find (fun st => (ms_date st =? query_date) && String.eqb (ms_market st) market)
       (market_stats m).

Definition qZ (o : option Z) : option Q := option_map inject_Z o.

Definition stat_rising (st : MarketStat) : option Q := qZ (rising_stocks st).
Definition stat_falling (st : MarketStat) : option Q := qZ (falling_stocks st).
Definition stat_total (st : MarketStat) : option Q := qZ (total_stocks st).
Definition stat_value (st : MarketStat) : option Q := total_value st.

(** [(row.col if row else 0)] *)
Definition col_or_zero (r : option MarketStat) (col : MarketStat -> option Q) : option Q :=
  match r with Some st => col st | None => Some 0%Q end.

(** [a + b], where [None + x] and [x + None] raise [TypeError]. *)
Definition py_add (a b : option Q) : M Q :=
  match a, b with
  | Some x, Some y => ret (x + y)%Q
  | _, _ => raise TypeError
  end.

(** [stat_map.get(stat_type, rising)] *)
Definition stat_select (stat_type : string) (rising falling total value : option Q) : option Q :=
  if String.eqb stat_type "rising_count" then rising
  else if String.eqb stat_type "falling_count" then falling
  else if String.eqb stat_type "market_count" then total
  else if String.eqb stat_type "total_value" then value
  else rising.

(** [rising], [falling], [total] and [value], in that order. *)
Definition stat_values (m : MarketDB) (query_date : Z) (market : string)
  : M (option Q * option Q * option Q * option Q) :=
  if String.eqb market "ALL" then
    let ko := stat_first m query_date "KOSPI" in
    let kq := stat_first m query_date "KOSDAQ" in
    r <- py_add (col_or_zero ko stat_rising) (col_or_zero kq stat_rising) ;;
    f <- py_add (col_or_zero ko stat_falling) (col_or_zero kq stat_falling) ;;
    t <- py_add (col_or_zero ko stat_total) (col_or_zero kq stat_total) ;;
    v <- py_add (col_or_zero ko stat_value) (col_or_zero kq stat_value) ;;
    ret (Some r, Some f, Some t, Some v)
  else
    match stat_first m query_date market with
    | None => raise (HTTPException 404)
    | Some st => ret (stat_rising st, stat_falling st, stat_total st, stat_value st)
    end.

(** Formatting with [:,.0f] or [:,] raises [TypeError] on [None]. *)
Definition stats_branch (m : MarketDB) (query_date : Z) (market stat_type : string)
  : M SimpleResponse :=
  vals <- stat_values m query_date market ;;
  let '(r, f, t, v) := vals in
  match stat_select stat_type r f t v with
  | Some x => ret (MarketStats stat_type x)
  | None => raise TypeError
  end.

(** *** Market ranking *)

(** [sort_columns.get(rank_type, DailyPrice.change_rate)] *)
Definition rank_key (rank_type : string) (p : DailyPrice) : option Q :=
  if String.eqb rank_type "volume" then qZ (volume p)
  else if String.eqb rank_type "close_price" then close_price p
  else change_rate p.

(** MySQL orders NULL below every value. *)
Definition opt_le (a b : option Q) : bool :=
  match a, b with
  | None, _ => true
  | Some _, None => false
  | Some x, Some y => Qle_bool x y
  end.

Definition rank_order (rank_type direction : string) (l : list (DailyPrice * Stock))
  : list (DailyPrice * Stock) :=
  if String.eqb direction "desc"
  then sort_by (fun a b => opt_le (rank_key rank_type (fst b)) (rank_key rank_type (fst a))) l
  else sort_by (fun a b => opt_le (rank_key rank_type (fst a)) (rank_key rank_type (fst b))) l.

Definition ranking_branch (m : MarketDB) (req : SimpleReq) (rank_type : string)
  : M SimpleResponse :=
  let target_market := if String.eqb (sp_market req) "ALL" then "KOSPI" else sp_market req in
  query_date <- parse_opt_date (sp_date req) ;;
  let rows := filter (fun ps => String.eqb (market (snd ps)) target_market)
                     (price_join (mdb m) query_date) in
  results <- sql_limit (sp_limit req) (rank_order rank_type (sp_direction req) rows) ;;
  (* [f"{stock.name} ({price.volume:,}주)"] raises on a NULL volume *)
  if String.eqb rank_type "volume" &&
     existsb (fun ps => negb (is_some (volume (fst ps)))) results
  then raise TypeError
  else ret (MarketRanking target_market results).

(** *** Dispatch *)

Definition simple_query_body (m : MarketDB) (req : SimpleReq) : SM SimpleResponse :=
  if truthy_str (sp_stock req) && truthy_str (sp_date req) then
    r <- lift (simple_query_price_body (mdb m) (opt_str (sp_stock req))
                 (opt_str (sp_date req)) (sp_price_type req)) ;;
    inr (PriceAnswer r)
  else if truthy_str (sp_stat_type req) && truthy_str (sp_date req) then
    query_date <- lift (parse_date (opt_str (sp_date req))) ;;
    if String.eqb (opt_str (sp_stat_type req)) "index"
    then index_branch m query_date (sp_market req)
    else lift (stats_branch m query_date (sp_market req) (opt_str (sp_stat_type req)))
  else if truthy_str (sp_rank_type req) then
    lift (ranking_branch m req (opt_str (sp_rank_type req)))
  else sraise (HTTPException 400).

(** [except Exception]: every failure leaves as a 500. *)
Definition simple_query (m : MarketDB) (req : SimpleReq) : M SimpleResponse :=
  match simple_query_body m req with
  | inl _ => inl (HTTPException 500)
  | inr r => inr r
  end.

(** ** Lemmas on the [simple_query] branches *)

Lemma lift_inr {A} (m : M A) (a : A) : lift m = inr a -> m = inr a.
Proof. destruct m; cbn; congruence. Qed.

Lemma index_branch_fails (m : MarketDB) (d : Z) (market : string) :
  exists e, index_branch m d market = inl e.
Proof.
  unfold index_branch, sraise. destruct (String.eqb market "ALL"); [eexists; reflexivity|].
  destruct (find _ _); eexists; reflexivity.
Qed.

Lemma stats_branch_shape (m : MarketDB) (d : Z) (market t : string) (r : SimpleResponse) :
  stats_branch m d market t = inr r -> exists v, r = MarketStats t v.
Proof.
  unfold stats_branch. destruct (stat_values m d market) as [e|[[[a b] c] e]]; [discriminate|].
  destruct (stat_select t a b c e) as [x|]; [|discriminate].
  intros H; injection H as <-. exists x; reflexivity.
Qed.

Lemma opt_le_total (a b : option Q) : opt_le a b = false -> opt_le b a = true.
Proof.
  destruct a as [x|], b as [y|]; cbn; try discriminate; try reflexivity.
  apply Qle_bool_total.
Qed.

Lemma stat_select_same (t : string) (x : option Q) : stat_select t x x x x = x.
Proof.
  unfold stat_select.
  destruct (String.eqb t _); [reflexivity|]. destruct (String.eqb t _); [reflexivity|].
  destruct (String.eqb t _); [reflexivity|]. destruct (String.eqb t _); reflexivity.
Qed.

(** The request with another [stat_type]. *)
Definition with_stat_type (req : SimpleReq) (t : string) : SimpleReq :=
  mkSimpleReq (sp_stock req) (sp_date req) (sp_price_type req) (Some t)
              (sp_rank_type req) (sp_direction req) (sp_market req) (sp_limit req).

(** ** Extra properties of [simple_query] *)

(** The market-index query never succeeds: with [market="ALL"] it raises
    400, without an index row 404, and with a row it reads
    [index_data.index_value], which [MarketIndex] does not declare; each
    leaves as a 500. *)
Theorem simple_query_index_always_fails (m : MarketDB) (req : SimpleReq) :
  truthy_str (sp_stock req) = false -> sp_stat_type req = Some "index" ->
  truthy_str (sp_date req) = true ->
  simple_query m req = inl (HTTPException 500).
Proof.
  intros Hs Ht Hd. unfold simple_query, simple_query_body.
  rewrite Hs, Ht, Hd. cbn [andb truthy_str opt_str negb String.eqb].
  destruct (lift (parse_date (opt_str (sp_date req)))) as [e|d]; [reflexivity|].
  cbn. destruct (index_branch_fails m d (sp_market req)) as [e He]. rewrite He. reflexivity.
Qed.

(** With [market="ALL"], a date without any [MarketStat] row answers 0
    for every statistic, while a single market without a row answers 500. *)
Theorem simple_query_stats_no_rows (m : MarketDB) (req : SimpleReq) (t ds : string) (d : Z) :
  truthy_str (sp_stock req) = false -> sp_stat_type req = Some t ->
  t <> EmptyString -> t <> "index" ->
  sp_date req = Some ds -> ds <> EmptyString -> parse_date ds = inr d ->
  (sp_market req = "ALL" ->
   stat_first m d "KOSPI" = None -> stat_first m d "KOSDAQ" = None ->
   simple_query m req = inr (MarketStats t 0%Q)) /\
  (sp_market req <> "ALL" -> stat_first m d (sp_market req) = None ->
   simple_query m req = inl (HTTPException 500)).
Proof.
  intros Hs Ht Ht0 Hti Hd Hds0 Hp.
  assert (Hb : simple_query_body m req =
               lift (stats_branch m d (sp_market req) t)).
  { unfold simple_query_body. rewrite Hs, Ht, Hd. cbn [andb truthy_str opt_str].
    apply String.eqb_neq in Ht0, Hds0, Hti. rewrite Ht0, Hds0. cbn [negb].
    rewrite Hp. cbn [lift]. rewrite Hti. reflexivity. }
  unfold simple_query. rewrite Hb. split.
  - intros Hm Hko Hkq. unfold stats_branch, stat_values.
    rewrite Hm, Hko, Hkq. cbn - [stat_select]. rewrite stat_select_same. reflexivity.
  - intros Hm Hn. unfold stats_branch, stat_values.
    apply String.eqb_neq in Hm. rewrite Hm, Hn. reflexivity.
Qed.

(** A [stat_type] outside [rising_count], [falling_count], [market_count],
    [total_value] and [index] is answered as [rising_count]: same outcome,
    same value, only the echoed label differs. *)
Theorem simple_query_unknown_stat_type (m : MarketDB) (req : SimpleReq) (t : string) :
  sp_stat_type req = Some t ->
  ~ In t [""; "rising_count"; "falling_count"; "market_count"; "total_value"; "index"] ->
  simple_query m req =
  match simple_query m (with_stat_type req "rising_count") with
  | inr (MarketStats _ v) => inr (MarketStats t v)
  | r => r
  end.
Proof.
  intros Ht Hnin.
  assert (Hne : forall u, In u [""; "rising_count"; "falling_count"; "market_count";
                                 "total_value"; "index"] -> String.eqb t u = false).
  { intros u Hu. apply String.eqb_neq. intros ->. exact (Hnin Hu). }
  assert (Hsel : forall a b c e, stat_select t a b c e = stat_select "rising_count" a b c e).
  { intros a b c e. unfold stat_select.
    rewrite !Hne by (cbn; tauto). reflexivity. }
  unfold simple_query, simple_query_body. cbn [sp_stock sp_date sp_stat_type with_stat_type
    sp_rank_type sp_price_type sp_market sp_limit sp_direction].
  rewrite Ht. cbn [truthy_str opt_str].
  rewrite (Hne "") by (cbn; tauto). cbn [negb String.eqb].
  destruct (truthy_str (sp_stock req) && truthy_str (sp_date req)).
  - destruct (lift _) as [e|r]; reflexivity.
  - destruct (truthy_str (sp_date req)); cbn [andb].
    + destruct (lift (parse_date (opt_str (sp_date req)))) as [e|d]; [reflexivity|].
      rewrite (Hne "index") by (cbn; tauto). cbn.
      unfold stats_branch.
      destruct (stat_values m d (sp_market req)) as [e|[[[a b] c] e]]; [reflexivity|].
      rewrite Hsel. destruct (stat_select "rising_count" a b c e); reflexivity.
    + destruct (truthy_str (sp_rank_type req)); [|reflexivity].
      destruct (lift (ranking_branch _ _ _)) as [e|r] eqn:Hr; [reflexivity|].
      unfold ranking_branch in Hr.
      destruct (parse_opt_date (sp_date req)); [discriminate|].
      destruct (sql_limit _ _); [discriminate|].
      destruct (_ && _); [discriminate|]. injection Hr as <-. reflexivity.
Qed.

Lemma simple_query_stats_dispatch (m : MarketDB) (req : SimpleReq) (t ds : string) (d : Z) :
  truthy_str (sp_stock req) = false -> sp_stat_type req = Some t ->
  t <> EmptyString -> t <> "index" ->
  sp_date req = Some ds -> ds <> EmptyString -> parse_date ds = inr d ->
  simple_query_body m req = lift (stats_branch m d (sp_market req) t).
Proof.
  intros Hs Ht Ht0 Hti Hd Hds0 Hp.
  unfold simple_query_body. rewrite Hs, Ht, Hd. cbn [andb truthy_str opt_str].
  apply String.eqb_neq in Ht0, Hds0, Hti. rewrite Ht0, Hds0. cbn [negb].
  rewrite Hp. cbn [lift]. rewrite Hti. reflexivity.
Qed.

(** The selected statistic of one row, 0 for a missing row. *)
Definition stat_or_zero (t : string) (o : option MarketStat) : Q :=
  match o with
  | None => 0%Q
  | Some st =>
      match stat_select t (stat_rising st) (stat_falling st) (stat_total st) (stat_value st) with
      | Some x => x
      | None => 0%Q
      end
  end.

Definition stat_complete (st : MarketStat) : bool :=
  is_some (stat_rising st) && is_some (stat_falling st) &&
  is_some (stat_total st) && is_some (stat_value st).

(** With [market="ALL"], a statistic is the KOSPI row's plus the KOSDAQ
    row's, a missing row counting 0, provided the rows found have no NULL
    column (all four sums are computed, whichever is asked). *)
Theorem simple_query_stats_all_sum (m : MarketDB) (req : SimpleReq) (t ds : string) (d : Z) :
  truthy_str (sp_stock req) = false -> sp_stat_type req = Some t ->
  t <> EmptyString -> t <> "index" ->
  sp_date req = Some ds -> ds <> EmptyString -> parse_date ds = inr d ->
  sp_market req = "ALL" ->
  (forall st, stat_first m d "KOSPI" = Some st \/ stat_first m d "KOSDAQ" = Some st ->
              stat_complete st = true) ->
  simple_query m req =
  inr (MarketStats t (stat_or_zero t (stat_first m d "KOSPI") +
                      stat_or_zero t (stat_first m d "KOSDAQ"))%Q).
Proof.
  intros Hs Ht Ht0 Hti Hd Hds0 Hp Hm Hc.
  unfold simple_query. rewrite (simple_query_stats_dispatch m req t ds d) by assumption.
  unfold stats_branch, stat_values. rewrite Hm. cbn [String.eqb Ascii.eqb Bool.eqb].
  destruct (stat_first m d "KOSPI") as [s1|] eqn:H1;
  destruct (stat_first m d "KOSDAQ") as [s2|] eqn:H2;
  [pose proof (Hc s1 (or_introl eq_refl)) as C1; pose proof (Hc s2 (or_intror eq_refl)) as C2
  |pose proof (Hc s1 (or_introl eq_refl)) as C1
  |pose proof (Hc s2 (or_intror eq_refl)) as C2|];
  unfold stat_complete in *;
  repeat match goal with
  | C : _ && _ = true |- _ => apply andb_true_iff in C as [C ?]
  | C : is_some ?x = true |- _ => destruct x eqn:?; [clear C|discriminate C]
  | C : true = true |- _ => clear C
  end;
  unfold stat_or_zero, col_or_zero, py_add, ret, stat_select;
  repeat match goal with E : ?c _ = Some _ |- _ => rewrite E; clear E end;
  repeat destruct (String.eqb t _); reflexivity.
Qed.

Lemma In_firstn_In {X : Type} (n : nat) (l : list X) (x : X) : In x (firstn n l) -> In x l.
Proof. intros H; rewrite <- (firstn_skipn n l); apply in_or_app; left; exact H. Qed.

(** The order of a ranking: [desc(col)] or, for any other [direction],
    [asc(col)]. *)
Definition rank_before (rank_type direction : string) (a b : DailyPrice * Stock) : Prop :=
  (if String.eqb direction "desc"
   then opt_le (rank_key rank_type (fst b)) (rank_key rank_type (fst a))
   else opt_le (rank_key rank_type (fst a)) (rank_key rank_type (fst b))) = true.

(** A ranking answer lists, for the parsed date, priced active stocks of
    the target market (KOSPI when [market="ALL"]), at most [limit] of them,
    ordered by the ranked column in the requested direction; a volume
    ranking lists only rows with a volume. *)
Theorem simple_query_ranking (m : MarketDB) (req : SimpleReq) (tm : string)
    (rows : list (DailyPrice * Stock)) :
  simple_query m req = inr (MarketRanking tm rows) ->
  tm = (if String.eqb (sp_market req) "ALL" then "KOSPI" else sp_market req) /\
  (exists ds d, sp_date req = Some ds /\ parse_date ds = inr d /\
     forall p s, In (p, s) rows -> In (p, s) (price_join (mdb m) d) /\ market s = tm) /\
  (List.length rows <= Z.to_nat (sp_limit req))%nat /\
  Sorted (rank_before (opt_str (sp_rank_type req)) (sp_direction req)) rows /\
  (opt_str (sp_rank_type req) = "volume" ->
     forall ps, In ps rows -> is_some (volume (fst ps)) = true).
Proof.
  unfold simple_query. destruct (simple_query_body m req) as [e|r] eqn:Hb; [discriminate|].
  intros H; injection H as ->. unfold simple_query_body in Hb.
  destruct (truthy_str (sp_stock req) && truthy_str (sp_date req)).
  { destruct (lift _); discriminate. }
  destruct (truthy_str (sp_stat_type req) && truthy_str (sp_date req)).
  { destruct (lift (parse_date _)) as [e|d]; [discriminate|].
    destruct (String.eqb _ "index").
    - destruct (index_branch_fails m d (sp_market req)) as [e He]. rewrite He in Hb. discriminate.
    - apply lift_inr, stats_branch_shape in Hb as [v Hv]. discriminate. }
  destruct (truthy_str (sp_rank_type req)); [|discriminate].
  apply lift_inr in Hb. unfold ranking_branch in Hb.
  set (rt := opt_str (sp_rank_type req)) in *.
  destruct (parse_opt_date (sp_date req)) as [e|d] eqn:Hd; [discriminate|].
  destruct (sql_limit _ _) as [e|res] eqn:Hl; [discriminate|].
  destruct (String.eqb rt "volume" && existsb _ res) eqn:Hv; [discriminate|].
  injection Hb as <- <-.
  unfold sql_limit, ret, raise in Hl.
  destruct (Z.ltb_spec (sp_limit req) 0); [discriminate|]. injection Hl as <-.
  split; [reflexivity|]. split; [|split; [|split]].
  - destruct (sp_date req) as [ds|]; [|discriminate]. exists ds, d.
    split; [reflexivity|split; [exact Hd|]].
    intros p s Hin. apply In_firstn_In in Hin.
    unfold rank_order in Hin.
    destruct (String.eqb (sp_direction req) "desc");
      apply (Permutation_in _ (sort_by_perm _ _)) in Hin;
      apply filter_In in Hin as [Hin Hmk]; apply String.eqb_eq in Hmk; auto.
  - rewrite length_firstn. lia.
  - apply Sorted_firstn. unfold rank_order, rank_before.
    destruct (String.eqb (sp_direction req) "desc").
    + apply (sort_by_sorted (fun a b => opt_le (rank_key rt (fst b)) (rank_key rt (fst a)))).
      intros a b; apply opt_le_total.
    + apply (sort_by_sorted (fun a b => opt_le (rank_key rt (fst a)) (rank_key rt (fst b)))).
      intros a b; apply opt_le_total.
  - intros Hrt ps Hin. apply String.eqb_eq in Hrt. rewrite Hrt in Hv. cbn [andb] in Hv.
    destruct (is_some (volume (fst ps))) eqn:Hs; [reflexivity|].
    assert (Hx : existsb (fun ps => negb (is_some (volume (fst ps))))
                   (firstn (Z.to_nat (sp_limit req))
                      (rank_order rt (sp_direction req)
                         (filter (fun ps => String.eqb (market (snd ps))
                            (if String.eqb (sp_market req) "ALL" then "KOSPI" else sp_market req))
                            (price_join (mdb m) d)))) = true).
    { apply existsb_exists. exists ps. split; [exact Hin|]. rewrite Hs. reflexivity. }
    rewrite Hx in Hv. discriminate.
Qed.

(** ** Sample data for [simple_query] *)

Definition market_db : MarketDB :=
  mkMarketDB filter_db
    [mkMarketStat (june 3) "KOSPI" (Some 500) (Some 300) (Some 900) (Some (1000#1));
     mkMarketStat (june 3) "KOSDAQ" (Some 700) (Some 800) (Some 1600) (Some (2000#1))]
    [mkMarketIndex "KOSPI" (june 3) (Some (2700#1))].

Definition stat_req (date t market : string) : SimpleReq :=
  mkSimpleReq None (Some date) "close" (Some t) None "desc" market 5.

Definition rank_req (rank_type direction : string) (lim : Z) : SimpleReq :=
  mkSimpleReq None (Some "2024-06-03") "close" None (Some rank_type) direction "ALL" lim.

Lemma simple_query_index_always_fails_witness :
  (truthy_str (sp_stock (stat_req "2024-06-03" "index" "KOSPI")) = false /\
   sp_stat_type (stat_req "2024-06-03" "index" "KOSPI") = Some "index" /\
   truthy_str (sp_date (stat_req "2024-06-03" "index" "KOSPI")) = true) /\
  stat_first market_db (june 3) "KOSPI" <> None /\
  simple_query market_db (stat_req "2024-06-03" "index" "KOSPI") = inl (HTTPException 500).
Proof.
  assert (H1 : truthy_str (sp_stock (stat_req "2024-06-03" "index" "KOSPI")) = false)
    by reflexivity.
  assert (H2 : sp_stat_type (stat_req "2024-06-03" "index" "KOSPI") = Some "index")
    by reflexivity.
  assert (H3 : truthy_str (sp_date (stat_req "2024-06-03" "index" "KOSPI")) = true)
    by reflexivity.
  split; [split; [exact H1|split; [exact H2|exact H3]]|split].
  - vm_compute. discriminate.
  - exact (simple_query_index_always_fails market_db _ H1 H2 H3).
Defined.

Lemma simple_query_stats_no_rows_witness :
  parse_date "2024-06-04" = inr (june 4) /\
  stat_first market_db (june 4) "KOSPI" = None /\
  stat_first market_db (june 4) "KOSDAQ" = None /\
  simple_query market_db (stat_req "2024-06-04" "rising_count" "ALL")
    = inr (MarketStats "rising_count" 0%Q) /\
  simple_query market_db (stat_req "2024-06-04" "rising_count" "KOSPI")
    = inl (HTTPException 500).
Proof.
  assert (Hp : parse_date "2024-06-04" = inr (june 4)) by (vm_compute; reflexivity).
  assert (H1 : stat_first market_db (june 4) "KOSPI" = None) by (vm_compute; reflexivity).
  assert (H2 : stat_first market_db (june 4) "KOSDAQ" = None) by (vm_compute; reflexivity).
  assert (Hne : "rising_count" <> EmptyString) by discriminate.
  assert (Hni : "rising_count" <> "index") by discriminate.
  assert (Hde : "2024-06-04" <> EmptyString) by discriminate.
  split; [exact Hp|split; [exact H1|split; [exact H2|split]]].
  - exact (proj1 (simple_query_stats_no_rows market_db (stat_req "2024-06-04" "rising_count" "ALL")
             "rising_count" "2024-06-04" (june 4) eq_refl eq_refl Hne Hni eq_refl Hde Hp)
             eq_refl H1 H2).
  - exact (proj2 (simple_query_stats_no_rows market_db (stat_req "2024-06-04" "rising_count" "KOSPI")
             "rising_count" "2024-06-04" (june 4) eq_refl eq_refl Hne Hni eq_refl Hde Hp)
             ltac:(discriminate) H1).
Defined.

Lemma simple_query_unknown_stat_type_witness :
  ~ In "up_count" [""; "rising_count"; "falling_count"; "market_count"; "total_value"; "index"] /\
  simple_query market_db (stat_req "2024-06-03" "up_count" "ALL")
    = inr (MarketStats "up_count" (1200#1)).
Proof.
  assert (Hn : ~ In "up_count" [""; "rising_count"; "falling_count"; "market_count";
                                 "total_value"; "index"]).
  { cbn. intros H; repeat destruct H as [H|H]; discriminate || contradiction. }
  split; [exact Hn|].
  rewrite (simple_query_unknown_stat_type market_db (stat_req "2024-06-03" "up_count" "ALL")
             "up_count" eq_refl Hn).
  vm_compute. reflexivity.
Defined.

Lemma simple_query_stats_all_sum_witness :
  parse_date "2024-06-03" = inr (june 3) /\
  (forall st, stat_first market_db (june 3) "KOSPI" = Some st \/
              stat_first market_db (june 3) "KOSDAQ" = Some st -> stat_complete st = true) /\
  simple_query market_db (stat_req "2024-06-03" "falling_count" "ALL")
    = inr (MarketStats "falling_count" (1100#1)).
Proof.
  assert (Hp : parse_date "2024-06-03" = inr (june 3)) by (vm_compute; reflexivity).
  assert (Hc : forall st, stat_first market_db (june 3) "KOSPI" = Some st \/
              stat_first market_db (june 3) "KOSDAQ" = Some st -> stat_complete st = true).
  { intros st Hst. vm_compute in Hst.
    destruct Hst as [Hst|Hst]; injection Hst as <-; reflexivity. }
  split; [exact Hp|split; [exact Hc|]].
  rewrite (simple_query_stats_all_sum market_db (stat_req "2024-06-03" "falling_count" "ALL")
             "falling_count" "2024-06-03" (june 3) eq_refl eq_refl ltac:(discriminate)
             ltac:(discriminate) eq_refl ltac:(discriminate) Hp eq_refl Hc).
  vm_compute. reflexivity.
Defined.

Lemma simple_query_ranking_witness :
  simple_query market_db (rank_req "volume" "desc" 1) =
    inr (MarketRanking "KOSPI" [(fprice 1 (june 3) (70000#1) (Some 200) (3#1), samsung)]) /\
  Sorted (rank_before "volume" "desc") [(fprice 1 (june 3) (70000#1) (Some 200) (3#1), samsung)].
Proof.
  assert (H : simple_query market_db (rank_req "volume" "desc" 1) =
    inr (MarketRanking "KOSPI" [(fprice 1 (june 3) (70000#1) (Some 200) (3#1), samsung)]))
    by (vm_compute; reflexivity).
  split; [exact H|].
  exact (proj1 (proj2 (proj2 (proj2 (simple_query_ranking market_db _ _ _ H))))).
Defined.

(* ================================================================== *)
(** * Further properties of [signal_query] *)

Lemma cross_count_branch_shape (db : DB) (req : SignalReq) (r : Response) :
  cross_count_branch db req = inr r -> exists g d, r = CrossCount g d.
Proof.
  unfold cross_count_branch, ret, raise.
  destruct (negb _); [discriminate|].
  destruct (find_stock_by_name _ _ _) as [st|]; [|discriminate].
  destruct (parse_date (opt_str (start_date req))) as [e|s]; [discriminate|].
  destruct (parse_date (opt_str (end_date req))) as [e'|e]; [discriminate|].
  destruct (_ <? 2)%nat; [intros H; injection H as <-; eauto|].
  destruct (cross_counts _) as [g d]. intros H; injection H as <-; eauto.
Qed.

(** A request naming a stock, a start date and an end date is always
    answered as a cross count, whatever its [signal_type]. *)
Theorem signal_query_cross_precedence (db : DB) (req : SignalReq) (r : Response) :
  truthy_str (sq_stock req) && truthy_str (start_date req) && truthy_str (end_date req) = true ->
  signal_query db req = inr r ->
  exists g d, r = CrossCount g d.
Proof.
  intros Htr H. unfold signal_query, signal_query_body in H.
  rewrite Htr, orb_true_r in H.
  destruct (cross_count_branch db req) as [e|r'] eqn:Hc; [discriminate|].
  injection H as <-. exact (cross_count_branch_shape db req r' Hc).
Qed.

(** A cross-count period whose start date falls after its end date selects
    no indicator row and answers zero crosses of each kind. *)
Theorem signal_query_cross_reversed_period (db : DB) (req : SignalReq) (st : Stock) (s e : Z) :
  truthy_str (sq_stock req) && truthy_str (start_date req) && truthy_str (end_date req) = true ->
  find_stock_by_name db (opt_str (sq_stock req)) "ALL" = Some st ->
  parse_date (opt_str (start_date req)) = inr s ->
  parse_date (opt_str (end_date req)) = inr e ->
  e < s ->
  signal_query db req = inr (CrossCount 0 0).
Proof.
  intros Htr Hf Hs He Hlt.
  rewrite (cross_branch_result db req st s e Htr Hf Hs He).
  destruct (cross_rows db st s e) as [|t l] eqn:Hr; [reflexivity|].
  assert (Hin : In t (cross_rows db st s e)) by (rewrite Hr; left; reflexivity).
  apply cross_rows_In in Hin. lia.
Qed.

Lemma tech_join_In_intro (db : DB) (keep : TechnicalIndicator -> bool)
    (t : TechnicalIndicator) (s : Stock) :
  In t (technical_indicators db) -> keep t = true ->
  In s (stocks db) -> stock_id s = ti_stock_id t -> is_active s = true ->
  In (t, s) (tech_join db keep).
Proof.
  intros Ht Hk Hs Hid Ha. unfold tech_join. apply in_flat_map. exists t.
  split; [exact Ht|]. rewrite Hk. apply in_map, filter_In. split; [exact Hs|].
  rewrite Hid, Z.eqb_refl, Ha. reflexivity.
Qed.

Lemma tech_join_length (db : DB) (keep : TechnicalIndicator -> bool) :
  (List.length (tech_join db keep) <=
   List.length (technical_indicators db) * List.length (stocks db))%nat.
Proof.
  unfold tech_join. induction (technical_indicators db) as [|t l IH]; cbn; [lia|].
  rewrite length_app. destruct (keep t); cbn [List.length]; [|lia].
  rewrite length_map. pose proof (List.filter_length_le
    (fun s => (stock_id s =? ti_stock_id t) && is_active s) (stocks db)). lia.
Qed.

Lemma tech_join_In (db : DB) (keep : TechnicalIndicator -> bool)
    (t : TechnicalIndicator) (s : Stock) :
  In (t, s) (tech_join db keep) ->
  In t (technical_indicators db) /\ keep t = true /\
  In s (stocks db) /\ stock_id s = ti_stock_id t /\ is_active s = true.
Proof.
  unfold tech_join. rewrite in_flat_map. intros [t' [Ht' Hin]].
  destruct (keep t') eqn:Hk; [|destruct Hin].
  apply in_map_iff in Hin as [s' [Heq Hs]]. injection Heq as <- <-.
  apply filter_In in Hs as [Hs Hc]. apply andb_true_iff in Hc as [Hid Ha].
  apply Z.eqb_eq in Hid. auto.
Qed.

(** Every stock of a Bollinger answer is active, has an indicator row of
    the date whose requested touch flag is true, and whose
    [bb_upper_touch] is not NULL, for [bollinger_lower] too; at most
    [limit] stocks are listed. *)
Theorem signal_query_bollinger (db : DB) (req : SignalReq) (d : Z) (items : list SignalItem) :
  signal_type req = "bollinger_upper" \/ signal_type req = "bollinger_lower" ->
  truthy_str (sq_stock req) && truthy_str (start_date req) && truthy_str (end_date req) = false ->
  truthy_str (sq_date req) = true ->
  parse_date (opt_str (sq_date req)) = inr d ->
  signal_query db req = inr (SignalDetection items) ->
  (List.length items <= Z.to_nat (limit req))%nat /\
  forall it, In it items -> exists t s,
    In t (technical_indicators db) /\ ti_date t = d /\ bb_upper_touch t <> None /\
    (if String.eqb (signal_type req) "bollinger_upper" then bb_upper_touch t
     else bb_lower_touch t) = Some true /\
    In s (stocks db) /\ stock_id s = ti_stock_id t /\ is_active s = true /\
    it = mkSignalItem (name s) (symbol s) None.
Proof.
  intros Hty Hcr Hdt Hp H. unfold signal_query, guard500 in H.
  assert (Hend : endswith (signal_type req) "_count" = false)
    by (destruct Hty as [-> | ->]; reflexivity).
  rewrite (snapshot_dispatch db req d Hend Hcr Hdt Hp) in H.
  assert (Hb : startswith (signal_type req) "rsi_" = false /\
               String.eqb (signal_type req) "volume_surge" = false /\
               startswith (signal_type req) "bollinger_" = true)
    by (destruct Hty as [-> | ->]; repeat split).
  destruct Hb as [H1 [H2 H3]]. rewrite H1, H2, H3 in H.
  unfold bollinger_branch in H.
  set (flag := fun t => if String.eqb (signal_type req) "bollinger_upper" then bb_upper_touch t
                        else bb_lower_touch t).
  assert (Hq : exists keep, (forall t, keep t = true ->
                 ti_date t = d /\ bb_upper_touch t <> None /\ flag t = Some true) /\
               (if String.eqb (signal_type req) "bollinger_upper" then
                  ret (tech_join db (fun t => (ti_date t =? d) && is_some (bb_upper_touch t) &&
                         match bb_upper_touch t with Some true => true | _ => false end))
                else if String.eqb (signal_type req) "bollinger_lower" then
                  ret (tech_join db (fun t => (ti_date t =? d) && is_some (bb_upper_touch t) &&
                         match bb_lower_touch t with Some true => true | _ => false end))
                else raise UnboundLocalError) = @ret (list (TechnicalIndicator * Stock))
                                                   (tech_join db keep)).
  { unfold flag. destruct Hty as [Ht|Ht]; rewrite Ht; cbn [String.eqb Ascii.eqb Bool.eqb].
    - eexists; split; [|reflexivity]. intros t Hk.
      repeat rewrite andb_true_iff in Hk. destruct Hk as [[Hd Hu] Hf].
      apply Z.eqb_eq in Hd. split; [exact Hd|].
      destruct (bb_upper_touch t) as [[]|]; [split; [discriminate|reflexivity]|discriminate..].
    - eexists; split; [|reflexivity]. intros t Hk.
      repeat rewrite andb_true_iff in Hk. destruct Hk as [[Hd Hu] Hf].
      apply Z.eqb_eq in Hd. split; [exact Hd|]. split.
      + destruct (bb_upper_touch t); discriminate.
      + destruct (bb_lower_touch t) as [[]|]; [reflexivity|discriminate..]. }
  destruct Hq as [keep [Hkeep Hq]]. rewrite Hq in H. unfold ret at 1 in H.
  unfold sql_limit, ret, raise in H.
  destruct (limit req <? 0) eqn:Hl; [discriminate|]. apply Z.ltb_ge in Hl.
  injection H as <-. split.
  - rewrite length_map, length_firstn. lia.
  - intros it Hin. apply in_map_iff in Hin as [[t s] [<- Hin]].
    apply In_firstn_In, tech_join_In in Hin as [Ht [Hk [Hs [Hid Ha]]]].
    destruct (Hkeep t Hk) as [Hd [Hu Hf]].
    exists t, s. repeat split; auto.
Qed.

Lemma NoDup_range_length (l : list Z) (a n : Z) :
  NoDup l -> (forall x, In x l -> a <= x < a + n) -> (List.length l <= Z.to_nat n)%nat.
Proof.
  intros Hnd Hr.
  rewrite <- (length_seq (Z.to_nat n) 0), <- (length_map (fun k => a + Z.of_nat k)).
  apply NoDup_incl_length; [exact Hnd|].
  intros x Hx. specialize (Hr x Hx). apply in_map_iff.
  exists (Z.to_nat (x - a)). split; [lia|]. apply in_seq. lia.
Qed.

Lemma filter_dates_NoDup (l : list DailyPrice) (sid : Z) (f : DailyPrice -> bool) :
  (forall p, f p = true -> dp_stock_id p = sid) ->
  NoDup (map (fun p => (dp_stock_id p, dp_date p)) l) ->
  NoDup (map dp_date (filter f l)).
Proof.
  intros Hf. induction l as [|p l IH]; cbn; intros Hnd; [constructor|].
  apply NoDup_cons_iff in Hnd as [Hnin Hnd].
  destruct (f p) eqn:Hp; cbn; [|exact (IH Hnd)].
  constructor; [|exact (IH Hnd)].
  intros Hin. apply in_map_iff in Hin as [q [Hq Hin]]. apply filter_In in Hin as [Hin Hfq].
  apply Hnin. apply in_map_iff. exists q. split; [|exact Hin].
  rewrite Hq, (Hf q Hfq), (Hf p Hp). reflexivity.
Qed.

(** With one price row per stock and date, the averaging window of
    [volume_surge] holds at most [period] rows. *)
Lemma volume_window_length (db : DB) (sid lo hi : Z) :
  NoDup (map (fun p => (dp_stock_id p, dp_date p)) (daily_prices db)) ->
  (List.length (volume_window db sid lo hi) <= Z.to_nat (hi - lo + 1))%nat.
Proof.
  intros Hnd. unfold volume_window.
  rewrite <- (length_map dp_date).
  apply (NoDup_range_length _ lo (hi - lo + 1)).
  - apply (filter_dates_NoDup _ sid); [|exact Hnd].
    intros p Hp. repeat rewrite andb_true_iff in Hp. destruct Hp as [[Hs _] _].
    apply Z.eqb_eq. exact Hs.
  - intros x Hx. apply in_map_iff in Hx as [p [<- Hp]].
    apply filter_In in Hp as [_ Hp]. repeat rewrite andb_true_iff in Hp.
    destruct Hp as [[_ H1] H2]. apply Z.leb_le in H1, H2. lia.
Qed.

(** With one price row per stock and date, a [volume_surge] request whose
    [period] is below 10 never reports a stock: the window can never hold
    the 10 rows the code requires before it averages. *)
Theorem signal_query_volume_surge_short_period (db : DB) (req : SignalReq) (d : Z) :
  signal_type req = "volume_surge" ->
  truthy_str (sq_stock req) && truthy_str (start_date req) && truthy_str (end_date req) = false ->
  truthy_str (sq_date req) = true ->
  parse_date (opt_str (sq_date req)) = inr d ->
  date_sub_days d 1 = inr (d - 1) ->
  date_sub_days d (period req) = inr (d - period req) ->
  NoDup (map (fun p => (dp_stock_id p, dp_date p)) (daily_prices db)) ->
  period req < 10 ->
  signal_query db req = inr (SignalDetection []).
Proof.
  intros Hty Hcr Hdt Hp Hs1 Hs2 Hnd Hper.
  unfold signal_query, guard500.
  assert (Hend : endswith (signal_type req) "_count" = false) by (rewrite Hty; reflexivity).
  rewrite (snapshot_dispatch db req d Hend Hcr Hdt Hp), Hty.
  change (startswith "volume_surge" "rsi_") with false.
  change (String.eqb "volume_surge" "volume_surge") with true. cbv iota.
  assert (Hloop : forall rows, surge_loop db d (period req)
                    (or_Q (volume_multiplier req) 1) rows = inr []).
  { induction rows as [|[p s] rows IH]; [reflexivity|]. cbn [surge_loop].
    assert (Hw : (10 <=? List.length (volume_window db (stock_id s) (d - period req) (d - 1)))%nat
                 = false).
    { apply Nat.leb_gt.
      pose proof (volume_window_length db (stock_id s) (d - period req) (d - 1) Hnd).
      lia. }
    unfold surge_row. rewrite Hs1, Hs2, Hw, IH. reflexivity. }
  unfold volume_surge_branch. rewrite Hloop. cbn -[py_take]. rewrite py_take_nil.
  reflexivity.
Qed.

(** An [ma_period] other than 5, 20 and 60 (and not 0, which falls back to
    20) selects no moving average, so [ma_breakout] reports no stock. *)
Theorem signal_query_ma_breakout_unsupported_period (db : DB) (req : SignalReq) (d k : Z) :
  signal_type req = "ma_breakout" ->
  truthy_str (sq_stock req) && truthy_str (start_date req) && truthy_str (end_date req) = false ->
  truthy_str (sq_date req) = true ->
  parse_date (opt_str (sq_date req)) = inr d ->
  ma_period req = Some k -> ~ In k [0; 5; 20; 60] ->
  signal_query db req = inr (SignalDetection []).
Proof.
  intros Hty Hcr Hdt Hp Hk Hnin.
  unfold signal_query, guard500.
  assert (Hend : endswith (signal_type req) "_count" = false) by (rewrite Hty; reflexivity).
  rewrite (snapshot_dispatch db req d Hend Hcr Hdt Hp), Hty.
  change (startswith "ma_breakout" "rsi_") with false.
  change (String.eqb "ma_breakout" "volume_surge") with false.
  change (startswith "ma_breakout" "bollinger_") with false.
  change (String.eqb "ma_breakout" "ma_breakout") with true. cbv iota.
  unfold ma_breakout_branch. rewrite Hk.
  assert (Hor : or_Z (Some k) 20 = k).
  { cbn. destruct (Z.eqb_spec k 0); [subst; exfalso; apply Hnin; left; reflexivity|reflexivity]. }
  rewrite Hor.
  assert (Hma : forall t, ma_value_of k t = None).
  { intros t. unfold ma_value_of.
    destruct (Z.eqb_spec k 5); [subst; exfalso; apply Hnin; cbn; tauto|].
    destruct (Z.eqb_spec k 20); [subst; exfalso; apply Hnin; cbn; tauto|].
    destruct (Z.eqb_spec k 60); [subst; exfalso; apply Hnin; cbn; tauto|].
    reflexivity. }
  assert (Hnone : forall l, flat_map (fun r => match breakout_row k (or_Q (breakout_percent req) 3) r
                                      with Some it => [it] | None => [] end) l = []).
  { induction l as [|[[t p] s] l IH]; [reflexivity|]. cbn [flat_map].
    unfold breakout_row. rewrite Hma. cbn [truthy_Q andb app]. exact IH. }
  rewrite Hnone. cbn -[py_take]. rewrite py_take_nil. reflexivity.
Qed.

Lemma Sorted_map_rel {X Y : Type} (R : Y -> Y -> Prop) (f : X -> Y) (l : list X) :
  Sorted (fun a b => R (f a) (f b)) l -> Sorted R (map f l).
Proof.
  induction 1 as [|x xs _ IH Hhd]; cbn; constructor; [exact IH|].
  destruct Hhd; cbn; constructor; assumption.
Qed.

Lemma rsi_rows_In (db : DB) (d : Z) (keep : TechnicalIndicator * Stock -> bool)
    (le : TechnicalIndicator * Stock -> TechnicalIndicator * Stock -> bool) (n : nat)
    (r : TechnicalIndicator * Stock) :
  In r (firstn n (sort_by le (filter keep
          (tech_join db (fun t => (ti_date t =? d) && is_some (rsi t)))))) ->
  keep r = true /\ exists x, rsi (fst r) = Some x /\ rsi_of r = x /\
    In (fst r) (technical_indicators db) /\ ti_date (fst r) = d /\
    In (snd r) (stocks db) /\ stock_id (snd r) = ti_stock_id (fst r) /\ is_active (snd r) = true.
Proof.
  intros Hin. apply In_firstn_In in Hin.
  apply (Permutation_in _ (sort_by_perm _ _)) in Hin.
  apply filter_In in Hin as [Hin Hk]. split; [exact Hk|].
  destruct r as [t s]. apply tech_join_In in Hin as [Ht [Hkp [Hs [Hid Ha]]]].
  apply andb_true_iff in Hkp as [Hd Hr]. apply Z.eqb_eq in Hd.
  destruct (rsi t) as [x|] eqn:Hx; [|discriminate].
  exists x. unfold rsi_of. cbn. rewrite Hx. auto 10.
Qed.

(** An RSI answer lists at most [limit] active stocks with an indicator
    row of the date: for [rsi_overbought] those with RSI at least
    [threshold or 70], by decreasing RSI; for [rsi_oversold] those with RSI
    at most [threshold or 30], by increasing RSI. *)
Theorem signal_query_rsi (db : DB) (req : SignalReq) (d : Z) (items : list SignalItem) :
  signal_type req = "rsi_overbought" \/ signal_type req = "rsi_oversold" ->
  truthy_str (sq_stock req) && truthy_str (start_date req) && truthy_str (end_date req) = false ->
  truthy_str (sq_date req) = true ->
  parse_date (opt_str (sq_date req)) = inr d ->
  signal_query db req = inr (SignalDetection items) ->
  (List.length items <= Z.to_nat (limit req))%nat /\
  (forall it, In it items -> exists t s x,
     In t (technical_indicators db) /\ ti_date t = d /\ rsi t = Some x /\
     (if String.eqb (signal_type req) "rsi_overbought"
      then (or_Q (threshold req) 70 <= x)%Q else (x <= or_Q (threshold req) 30)%Q) /\
     In s (stocks db) /\ stock_id s = ti_stock_id t /\ is_active s = true /\
     it = mkSignalItem (name s) (symbol s) (Some x)) /\
  Sorted (fun a b => if String.eqb (signal_type req) "rsi_overbought"
                     then (metric b <= metric a)%Q else (metric a <= metric b)%Q) items.
Proof.
  intros Hty Hcr Hdt Hp H. unfold signal_query, guard500 in H.
  assert (Hend : endswith (signal_type req) "_count" = false)
    by (destruct Hty as [-> | ->]; reflexivity).
  rewrite (snapshot_dispatch db req d Hend Hcr Hdt Hp) in H.
  assert (Hrs : startswith (signal_type req) "rsi_" = true)
    by (destruct Hty as [-> | ->]; reflexivity).
  rewrite Hrs in H. unfold rsi_branch in H.
  set (base := tech_join db (fun t => (ti_date t =? d) && is_some (rsi t))) in *.
  destruct Hty as [Ht|Ht]; rewrite Ht in H |- *;
    change (String.eqb "rsi_overbought" "rsi_overbought") with true in *;
    change (String.eqb "rsi_oversold" "rsi_overbought") with false in *;
    change (String.eqb "rsi_oversold" "rsi_oversold") with true in *;
    cbv iota in H |- *;
    unfold sql_limit, ret, raise in H;
    (destruct (limit req <? 0) eqn:Hl; [discriminate|]); apply Z.ltb_ge in Hl;
    injection H as <-; (split; [rewrite length_map, length_firstn; lia|]); split.
  - intros it Hin. apply in_map_iff in Hin as [r [<- Hin]].
    apply rsi_rows_In in Hin as [Hk [x [Hx [Hrx [Ht' [Hd [Hs [Hid Ha]]]]]]]].
    exists (fst r), (snd r), x. rewrite <- Hrx. apply Qle_bool_iff in Hk.
    unfold rsi_item. rewrite Hx. rewrite Hrx in Hk |- *. auto 10.
  - apply Sorted_map_rel, Sorted_firstn.
    eapply Sorted_weaken; [|apply (sort_by_sorted (fun a b => Qle_bool (rsi_of b) (rsi_of a)))].
    + intros a b Hab. apply Qle_bool_iff. exact Hab.
    + intros a b; apply Qle_bool_total.
  - intros it Hin. apply in_map_iff in Hin as [r [<- Hin]].
    apply rsi_rows_In in Hin as [Hk [x [Hx [Hrx [Ht' [Hd [Hs [Hid Ha]]]]]]]].
    exists (fst r), (snd r), x. apply Qle_bool_iff in Hk.
    unfold rsi_item. rewrite Hx. rewrite Hrx in Hk. auto 10.
  - apply Sorted_map_rel, Sorted_firstn.
    eapply Sorted_weaken; [|apply (sort_by_sorted (fun a b => Qle_bool (rsi_of a) (rsi_of b)))].
    + intros a b Hab. apply Qle_bool_iff. exact Hab.
    + intros a b; apply Qle_bool_total.
Qed.

(** ** Sample data for the further [signal_query] properties *)

Definition cross_rsi_req : SignalReq :=
  mkSignalReq None "rsi_overbought" None None None None
    (Some "Samsung Electronics") (Some "2024-06-01") (Some "2024-06-30") 20 15.

Definition reversed_req : SignalReq :=
  mkSignalReq None "golden_cross_count" None None None None
    (Some "Samsung Electronics") (Some "2024-06-30") (Some "2024-06-01") 20 15.

(** Both stocks touch the lower band on June 3; Hyundai's upper-band flag
    is NULL. *)
Definition boll_db : DB :=
  mkDB [samsung; hyundai] []
       [mkTechnicalIndicator 1 (june 3) None None None None (Some false) (Some true);
        mkTechnicalIndicator 2 (june 3) None None None None None (Some true)].

(** Samsung traded on each of the 20 days before 2024-07-01 with volume
    100, and with volume 500 on the day. *)
Definition dense_rows : list DailyPrice :=
  mkDailyPrice 1 july1 None None None None (Some 500) None ::
  map (fun k => mkDailyPrice 1 (july1 - Z.of_nat k) None None None None (Some 100) None)
      (seq 1 20).

Definition dense_db : DB := mkDB [samsung; hyundai] dense_rows [].

Definition surge_period_req (per : Z) : SignalReq :=
  mkSignalReq (Some "2024-07-01") "volume_surge" None None None None None None None per 15.

Definition ma_req (k : Z) : SignalReq :=
  mkSignalReq (Some "2024-06-03") "ma_breakout" None None (Some k) (Some (10#1))
    None None None 20 15.

Lemma signal_query_cross_precedence_witness :
  truthy_str (sq_stock cross_rsi_req) && truthy_str (start_date cross_rsi_req)
    && truthy_str (end_date cross_rsi_req) = true /\
  signal_query cross_db cross_rsi_req = inr (CrossCount 2 1) /\
  exists g d, CrossCount 2 1 = CrossCount g d.
Proof.
  assert (H1 : truthy_str (sq_stock cross_rsi_req) && truthy_str (start_date cross_rsi_req)
                 && truthy_str (end_date cross_rsi_req) = true) by reflexivity.
  assert (H2 : signal_query cross_db cross_rsi_req = inr (CrossCount 2 1))
    by (vm_compute; reflexivity).
  split; [exact H1|split; [exact H2|]].
  exact (signal_query_cross_precedence cross_db cross_rsi_req _ H1 H2).
Defined.

Lemma signal_query_cross_reversed_period_witness :
  find_stock_by_name cross_db "Samsung Electronics" "ALL" = Some samsung /\
  parse_date "2024-06-30" = inr (june 30) /\ parse_date "2024-06-01" = inr (june 1) /\
  june 1 < june 30 /\
  signal_query cross_db reversed_req = inr (CrossCount 0 0).
Proof.
  assert (H1 : find_stock_by_name cross_db "Samsung Electronics" "ALL" = Some samsung)
    by (vm_compute; reflexivity).
  assert (H2 : parse_date "2024-06-30" = inr (june 30)) by (vm_compute; reflexivity).
  assert (H3 : parse_date "2024-06-01" = inr (june 1)) by (vm_compute; reflexivity).
  assert (H4 : june 1 < june 30) by (vm_compute; reflexivity).
  split; [exact H1|split; [exact H2|split; [exact H3|split; [exact H4|]]]].
  exact (signal_query_cross_reversed_period cross_db reversed_req samsung (june 30) (june 1)
           eq_refl H1 H2 H3 H4).
Defined.

Definition boll_req : SignalReq :=
  mkSignalReq (Some "2024-06-03") "bollinger_lower" None None None None None None None 20 15.

Lemma signal_query_bollinger_witness :
  parse_date "2024-06-03" = inr (june 3) /\
  signal_query boll_db boll_req =
    inr (SignalDetection [mkSignalItem "Samsung Electronics" "005930.KS" None]) /\
  (List.length [mkSignalItem "Samsung Electronics" "005930.KS" None] <= 15)%nat.
Proof.
  assert (H1 : parse_date "2024-06-03" = inr (june 3)) by (vm_compute; reflexivity).
  assert (H2 : signal_query boll_db boll_req =
    inr (SignalDetection [mkSignalItem "Samsung Electronics" "005930.KS" None]))
    by (vm_compute; reflexivity).
  split; [exact H1|split; [exact H2|]].
  exact (proj1 (signal_query_bollinger boll_db boll_req (june 3) _ (or_intror eq_refl)
                  eq_refl eq_refl H1 H2)).
Defined.

Lemma dense_db_unique :
  NoDup (map (fun p => (dp_stock_id p, dp_date p)) (daily_prices dense_db)).
Proof.
  vm_compute. repeat constructor.
  all: cbn; intros H; repeat (destruct H as [H|H]; [discriminate H|]); exact H.
Qed.

Lemma signal_query_volume_surge_short_period_witness :
  parse_date "2024-07-01" = inr july1 /\
  NoDup (map (fun p => (dp_stock_id p, dp_date p)) (daily_prices dense_db)) /\
  signal_query dense_db (surge_period_req 20) <> inr (SignalDetection []) /\
  signal_query dense_db (surge_period_req 9) = inr (SignalDetection []).
Proof.
  assert (H1 : parse_date "2024-07-01" = inr july1) by (vm_compute; reflexivity).
  split; [exact H1|split; [exact dense_db_unique|split]].
  - vm_compute. discriminate.
  - exact (signal_query_volume_surge_short_period dense_db (surge_period_req 9) july1
             eq_refl eq_refl eq_refl H1 ltac:(vm_compute; reflexivity)
             ltac:(vm_compute; reflexivity) dense_db_unique ltac:(cbn; lia)).
Defined.

Lemma signal_query_ma_breakout_unsupported_period_witness :
  parse_date "2024-06-03" = inr (june 3) /\ ~ In 10 [0; 5; 20; 60] /\
  signal_query breakout_db (ma_req 20) <> inr (SignalDetection []) /\
  signal_query breakout_db (ma_req 10) = inr (SignalDetection []).
Proof.
  assert (H1 : parse_date "2024-06-03" = inr (june 3)) by (vm_compute; reflexivity).
  assert (H2 : ~ In 10 [0; 5; 20; 60]) by (cbn; lia).
  split; [exact H1|split; [exact H2|split]].
  - vm_compute. discriminate.
  - exact (signal_query_ma_breakout_unsupported_period breakout_db (ma_req 10) (june 3) 10
             eq_refl eq_refl eq_refl H1 eq_refl H2).
Defined.

Lemma signal_query_rsi_witness :
  parse_date "2024-06-03" = inr (june 3) /\
  signal_query rsi_db (rsi_req "rsi_overbought" None) =
    inr (SignalDetection [mkSignalItem "Hyundai Department Store" "069960.KS" (Some (850#10));
                          mkSignalItem "Samsung Electronics" "005930.KS" (Some (725#10))]) /\
  Sorted (fun a b => (metric b <= metric a)%Q)
    [mkSignalItem "Hyundai Department Store" "069960.KS" (Some (850#10));
     mkSignalItem "Samsung Electronics" "005930.KS" (Some (725#10))].
Proof.
  assert (H1 : parse_date "2024-06-03" = inr (june 3)) by (vm_compute; reflexivity).
  assert (H2 : signal_query rsi_db (rsi_req "rsi_overbought" None) =
    inr (SignalDetection [mkSignalItem "Hyundai Department Store" "069960.KS" (Some (850#10));
                          mkSignalItem "Samsung Electronics" "005930.KS" (Some (725#10))]))
    by (vm_compute; reflexivity).
  split; [exact H1|split; [exact H2|]].
  exact (proj2 (proj2 (signal_query_rsi rsi_db (rsi_req "rsi_overbought" None) (june 3) _
                         (or_introl eq_refl) eq_refl eq_refl H1 H2))).
Defined.

(* ================================================================== *)
(** * Callers of the helpers in [routes/basic.py] *)

(** [get_historical_stock_prices], with [datetime.now().date()] as
    [today]: the stock's rows of the last [days] days by descending date.
    [except HTTPException: raise e] keeps the 400 and the 404. *)
Definition get_historical_stock_prices (db : DB) (ticker : string) (days today : Z)
  : M (list DailyPrice) :=
  if (days <=? 0) || (3650 <? days) then raise (HTTPException 400)
  else
    stock <- get_stock_by_symbol db ticker ;;
    let start_date := today - days in
    ret (sort_by (fun a b => dp_date b <=? dp_date a)
           (filter (fun p => (dp_stock_id p =? stock_id stock) &&
                             (start_date <=? dp_date p) && (dp_date p <=? today))
                   (daily_prices db))).

(** The latest price row of a stock: [.order_by(DailyPrice.date.desc()).first()]. *)
Definition latest_price (db : DB) (st : Stock) : option DailyPrice :=
  hd_error (sort_by (fun a b => dp_date b <=? dp_date a)
              (filter (fun p => dp_stock_id p =? stock_id st) (daily_prices db))).

(** [get_stock_info]: the stock and its latest price row, if any. *)
Definition get_stock_info (db : DB) (ticker : string) : M (Stock * option DailyPrice) :=
  stock <- get_stock_by_symbol db ticker ;;
  ret (stock, latest_price db stock).

Lemma sort_dates_desc_sorted (l : list DailyPrice) :
  Sorted (fun a b => dp_date b <= dp_date a) (sort_by (fun a b => dp_date b <=? dp_date a) l).
Proof.
  eapply Sorted_weaken; [|apply (sort_by_sorted (fun a b => dp_date b <=? dp_date a))].
  - intros a b H; apply Z.leb_le; exact H.
  - intros a b; apply Zleb_total.
Qed.

(** ** Extra properties of the [basic.py] callers *)

Lemma get_historical_stock_prices_result (db : DB) (ticker : string) (days today : Z) :
  match get_historical_stock_prices db ticker days today with
  | inl e =>
      (e = HTTPException 400 /\ ~ (1 <= days <= 3650)) \/
      (e = HTTPException 404 /\ 1 <= days <= 3650 /\
       forall st, In st (stocks db) -> symbol st = str_upper ticker -> is_active st = false)
  | inr rows =>
      1 <= days <= 3650 /\
      exists st, get_stock_by_symbol db ticker = inr st /\
        (forall p, In p rows <-> In p (daily_prices db) /\ dp_stock_id p = stock_id st /\
                                 today - days <= dp_date p <= today) /\
        Sorted (fun a b => dp_date b <= dp_date a) rows
  end.
Proof.
  unfold get_historical_stock_prices.
  destruct (Z.leb_spec days 0) as [H0|H0]; cbn [orb].
  { left. split; [reflexivity|lia]. }
  destruct (Z.ltb_spec 3650 days) as [H1|H1].
  { left. split; [reflexivity|lia]. }
  pose proof (get_stock_by_symbol_result db ticker) as Hs.
  destruct (get_stock_by_symbol db ticker) as [e|st] eqn:Hg.
  - destruct Hs as [-> Hn]. right. split; [reflexivity|split; [lia|exact Hn]].
  - split; [lia|]. exists st. split; [reflexivity|split].
    + intros p. split.
      * intros Hin. apply (Permutation_in _ (sort_by_perm _ _)) in Hin.
        apply filter_In in Hin as [Hin Hc]. repeat rewrite andb_true_iff in Hc.
        destruct Hc as [[Hid Ha] Hb]. apply Z.eqb_eq in Hid. apply Z.leb_le in Ha, Hb.
        auto.
      * intros [Hin [Hid [Ha Hb]]].
        apply (Permutation_in _ (Permutation_sym (sort_by_perm _ _))).
        apply filter_In. split; [exact Hin|].
        rewrite Hid, Z.eqb_refl. apply Z.leb_le in Ha, Hb. rewrite Ha, Hb. reflexivity.
    + apply sort_dates_desc_sorted.
Qed.

(** [get_historical_stock_prices] answers 400 exactly for a [days] outside
    1..3650 and 404 for a ticker with no active stock (in any letter
    case); otherwise it lists exactly the stock's rows dated within
    [today - days, today], newest first. *)
Theorem get_historical_stock_prices_spec (db : DB) (ticker : string) (days today : Z) :
  match get_historical_stock_prices db ticker days today with
  | inl e =>
      (e = HTTPException 400 /\ ~ (1 <= days <= 3650)) \/
      (e = HTTPException 404 /\ 1 <= days <= 3650 /\
       forall st, In st (stocks db) -> symbol st = str_upper ticker -> is_active st = false)
  | inr rows =>
      1 <= days <= 3650 /\
      exists st, get_stock_by_symbol db ticker = inr st /\
        (forall p, In p rows <-> In p (daily_prices db) /\ dp_stock_id p = stock_id st /\
                                 today - days <= dp_date p <= today) /\
        Sorted (fun a b => dp_date b <= dp_date a) rows
  end.
Proof. exact (get_historical_stock_prices_result db ticker days today). Qed.

(** With one price row per stock and date, the history holds at most
    [days + 1] rows: both ends of the period are included. *)
Theorem get_historical_stock_prices_length (db : DB) (ticker : string) (days today : Z)
    (rows : list DailyPrice) :
  NoDup (map (fun p => (dp_stock_id p, dp_date p)) (daily_prices db)) ->
  get_historical_stock_prices db ticker days today = inr rows ->
  (List.length rows <= Z.to_nat (days + 1))%nat.
Proof.
  intros Hnd H.
  pose proof (get_historical_stock_prices_result db ticker days today) as Hs.
  rewrite H in Hs. destruct Hs as [Hd [st [_ [Hin _]]]].
  unfold get_historical_stock_prices in H.
  destruct ((days <=? 0) || (3650 <? days)); [discriminate|].
  destruct (get_stock_by_symbol db ticker) as [e|st'] eqn:Hg; [discriminate|].
  unfold ret in H. injection H as <-.
  rewrite (Permutation_length (sort_by_perm _ _)), <- (length_map dp_date).
  apply (NoDup_range_length _ (today - days) (days + 1)).
  - apply (filter_dates_NoDup _ (stock_id st')); [|exact Hnd].
    intros p Hp. repeat rewrite andb_true_iff in Hp. destruct Hp as [[Hs _] _].
    apply Z.eqb_eq. exact Hs.
  - intros x Hx. apply in_map_iff in Hx as [p [<- Hp]].
    apply filter_In in Hp as [_ Hp]. repeat rewrite andb_true_iff in Hp.
    destruct Hp as [[_ H1] H2]. apply Z.leb_le in H1, H2. lia.
Qed.

(** [get_stock_info] reports, for the active stock of the ticker, its
    price row with the latest date, and no price only when the stock has
    no price row at all. *)
Theorem get_stock_info_latest (db : DB) (ticker : string) :
  match get_stock_info db ticker with
  | inl e => e = HTTPException 404
  | inr (st, Some p) =>
      get_stock_by_symbol db ticker = inr st /\
      In p (daily_prices db) /\ dp_stock_id p = stock_id st /\
      forall q, In q (daily_prices db) -> dp_stock_id q = stock_id st -> dp_date q <= dp_date p
  | inr (st, None) =>
      get_stock_by_symbol db ticker = inr st /\
      forall q, In q (daily_prices db) -> dp_stock_id q <> stock_id st
  end.
Proof.
  unfold get_stock_info.
  pose proof (get_stock_by_symbol_result db ticker) as Hs.
  destruct (get_stock_by_symbol db ticker) as [e|st] eqn:Hg; [exact (proj1 Hs)|].
  unfold ret, latest_price.
  pose proof (sort_dates_desc_sorted (filter (fun p => dp_stock_id p =? stock_id st)
                                              (daily_prices db))) as Hsort.
  pose proof (sort_by_perm (fun a b => dp_date b <=? dp_date a)
                (filter (fun p => dp_stock_id p =? stock_id st) (daily_prices db))) as Hperm.
  destruct (sort_by _ _) as [|p rest] eqn:Hl; cbn [hd_error].
  - split; [reflexivity|]. intros q Hq Hid.
    assert (Hf : In q (filter (fun p => dp_stock_id p =? stock_id st) (daily_prices db))).
    { apply filter_In. split; [exact Hq|]. apply Z.eqb_eq, Hid. }
    apply (Permutation_in _ (Permutation_sym Hperm)) in Hf. destruct Hf.
  - assert (Hp : In p (filter (fun p => dp_stock_id p =? stock_id st) (daily_prices db)))
      by (apply (Permutation_in _ Hperm); left; reflexivity).
    apply filter_In in Hp as [Hp Hid]. apply Z.eqb_eq in Hid.
    split; [reflexivity|split; [exact Hp|split; [exact Hid|]]].
    intros q Hq Hqid.
    assert (Hf : In q (p :: rest)).
    { apply (Permutation_in _ (Permutation_sym Hperm)). apply filter_In.
      split; [exact Hq|]. apply Z.eqb_eq, Hqid. }
    destruct Hf as [<-|Hf]; [lia|].
    apply Sorted_StronglySorted in Hsort; [|intros a b c Hab Hbc; lia].
    apply StronglySorted_inv in Hsort as [_ Hall].
    exact (proj1 (Forall_forall _ _) Hall q Hf).
Qed.

(** ** Sample data for the [basic.py] callers *)

Definition history_rows : list DailyPrice :=
  match get_historical_stock_prices dense_db "005930.ks" 5 july1 with
  | inr rows => rows
  | inl _ => []
  end.

Lemma get_historical_stock_prices_length_witness :
  NoDup (map (fun p => (dp_stock_id p, dp_date p)) (daily_prices dense_db)) /\
  get_historical_stock_prices dense_db "005930.ks" 5 july1 = inr history_rows /\
  List.length history_rows = 6%nat /\
  (List.length history_rows <= Z.to_nat (5 + 1))%nat.
Proof.
  assert (H : get_historical_stock_prices dense_db "005930.ks" 5 july1 = inr history_rows)
    by (vm_compute; reflexivity).
  split; [exact dense_db_unique|split; [exact H|split; [vm_compute; reflexivity|]]].
  exact (get_historical_stock_prices_length dense_db "005930.ks" 5 july1 history_rows
           dense_db_unique H).
Defined.

(* ================================================================== *)
(** * [routes/enhanced.py] and [routes/technical.py] *)

(** Handlers that call [datetime.strptime] themselves see its [ValueError],
    which is no [HTTPException]. *)
Inductive route_exn :=
| RoutePy (e : py_exn)
| ValueError.

Definition RM (A : Type) : Type := (route_exn + A)%type.

Definition rlift {A} (m : M A) : RM A :=
  match m with inl e => inl (RoutePy e) | inr a => inr a end.

(** [datetime.strptime(date, "%Y-%m-%d").date()]: the format of
    [parse_date], failing with [ValueError]. *)
Definition strptime_date (s : string) : RM Z :=
  match parse_date s with inl _ => inl ValueError | inr d => inr d end.

(** [except HTTPException as e: raise e] then
    [except Exception as e: raise HTTPException(status_code=500, ...)]. *)
Definition except_http {A} (m : RM A) : M A :=
  match m with
  | inl (RoutePy (HTTPException c)) => inl (HTTPException c)
  | inl _ => inl (HTTPException 500)
  | inr a => inr a
  end.

(** [except Exception as e: raise HTTPException(status_code=500, ...)] alone. *)
Definition except_all {A} (m : RM A) : M A :=
  match m with inl _ => inl (HTTPException 500) | inr a => inr a end.

(** [if market != "ALL": query = query.filter(Stock.market == market)] *)
Definition market_ok (mk : string) (s : Stock) : bool :=
  String.eqb mk "ALL" || String.eqb (market s) mk.

(** ** [get_stock_price_by_date] ([/stock/price]) *)

(** [if price_type in ["open", "high", "low", "close", "volume"]:
    result["requested_value"] = price_map[price_type]]; [None] when the
    key is not set. *)
Definition requested_value (price_type : string) (p : DailyPrice) : option (option Q) :=
  if String.eqb price_type "open" then Some (open_price p)
  else if String.eqb price_type "high" then Some (high_price p)
  else if String.eqb price_type "low" then Some (low_price p)
  else if String.eqb price_type "close" then Some (close_price p)
  else if String.eqb price_type "volume" then Some (qZ (volume p))
  else None.

(** The stock, its price row of the date, and [requested_value]. *)
Definition get_stock_price_by_date (db : DB) (ticker date price_type : string)
  : M (Stock * DailyPrice * option (option Q)) :=
  except_http (
    query_date <- rlift (parse_date date) ;;
    stock <- rlift (get_stock_by_symbol db ticker) ;;
    match find (fun p => (dp_stock_id p =? stock_id stock) && (dp_date p =? query_date))
               (daily_prices db) with
    | None => inl (RoutePy (HTTPException 404))
    | Some price_data => inr (stock, price_data, requested_value price_type price_data)
    end).

(** ** [get_market_stats_by_date] ([/market/stats]) *)

(** The [MarketStat] row of [date] and [market] (the response copies its
    columns). *)
Definition get_market_stats_by_date (m : MarketDB) (date mk : string) : M MarketStat :=
  except_http (
    query_date <- strptime_date date ;;
    match stat_first m query_date mk with
    | None => inl (RoutePy (HTTPException 404))
    | Some st => inr st
    end).

(** ** [get_market_rankings] ([/market/rankings]) *)

(** [enumerate(results, 1)]: each row with its rank. *)
Definition ranked {A} (l : list A) : list (Z * A) :=
  combine (map Z.of_nat (seq 1 (List.length l))) l.

(** The same join, [sort_columns.get(sort_by, DailyPrice.change_rate)],
    [desc] or [asc] and [limit] as the ranking branch of [simple_query],
    for the given market; no row is a 404. *)
Definition get_market_rankings (db : DB) (date mk sort_col order : string) (lim : Z)
  : M (list (Z * (DailyPrice * Stock))) :=
  except_http (
    query_date <- strptime_date date ;;
    let rows := filter (fun ps => String.eqb (market (snd ps)) mk) (price_join db query_date) in
    results <- rlift (sql_limit lim (rank_order sort_col order rows)) ;;
    match results with
    | [] => inl (RoutePy (HTTPException 404))
    | _ => inr (ranked results)
    end).

(** ** [get_stocks_by_rsi] ([/technical/rsi]) *)

Record RsiItem := mkRsiItem {
  ri_symbol : string;
  ri_name : string;
  ri_market : string;
  ri_rsi : option Q;
  ri_date : string
}.

(** [TechnicalIndicator.rsi.between(rsi_min, rsi_max)]: SQL [BETWEEN],
    false on NULL; no [order_by]. *)
Definition get_stocks_by_rsi (db : DB) (date mk : string) (rsi_min rsi_max : Q) (lim : Z)
  : M (list RsiItem) :=
  except_all (
    query_date <- strptime_date date ;;
    let rows := filter (fun r => market_ok mk (snd r))
                  (tech_join db (fun t => (ti_date t =? query_date) &&
                     match rsi t with
                     | Some x => Qle_bool rsi_min x && Qle_bool x rsi_max
                     | None => false
                     end)) in
    results <- rlift (sql_limit lim rows) ;;
    inr (map (fun r => mkRsiItem (symbol (snd r)) (name (snd r)) (market (snd r))
                                 (rsi (fst r)) date) results)).

(** ** [get_bollinger_touch_stocks] ([/technical/bollinger-touch]) *)

Record TouchItem := mkTouchItem {
  touch_symbol : string;
  touch_name : string;
  touch_market : string;
  band_type : string;
  touch_date : string
}.

(** [bb_upper_touch == True] when [band_type == "upper"], else
    [bb_lower_touch == True]; no [order_by]. *)
Definition touch_flag (band_type : string) (t : TechnicalIndicator) : option bool :=
  if String.eqb band_type "upper" then bb_upper_touch t else bb_lower_touch t.

Definition get_bollinger_touch_stocks (db : DB) (date mk bt : string) (lim : Z)
  : M (list TouchItem) :=
  except_all (
    query_date <- strptime_date date ;;
    let rows := filter (fun r => market_ok mk (snd r))
                  (tech_join db (fun t => (ti_date t =? query_date) &&
                     match touch_flag bt t with Some true => true | _ => false end)) in
    results <- rlift (sql_limit lim rows) ;;
    inr (map (fun r => mkTouchItem (symbol (snd r)) (name (snd r)) (market (snd r)) bt date)
             results)).

(** ** Lemmas on the route handlers *)

Lemma parse_date_error (s : string) (e : py_exn) :
  parse_date s = inl e -> e = HTTPException 400.
Proof.
  unfold parse_date, raise, ret.
  destruct (split_dash _) as [|a [|b [|c [|? ?]]]]; try congruence.
  destruct (parse_year a), (parse_month b), (parse_day c); try congruence.
  destruct (_ && _); congruence.
Qed.

Lemma find_none_all {A : Type} (f : A -> bool) (l : list A) :
  (forall x, In x l -> f x = false) -> find f l = None.
Proof.
  intros H. destruct (find f l) as [x|] eqn:E; [|reflexivity].
  apply find_some in E as [Hin Hf]. rewrite (H x Hin) in Hf. discriminate.
Qed.

Lemma ranked_from {A : Type} (n : nat) (l : list A) :
  map fst (combine (map Z.of_nat (seq n (List.length l))) l) = map Z.of_nat (seq n (List.length l)) /\
  map snd (combine (map Z.of_nat (seq n (List.length l))) l) = l.
Proof.
  revert n; induction l as [|x l IH]; intros n; [split; reflexivity|].
  cbn. destruct (IH (S n)) as [H1 H2]. rewrite H1, H2. split; reflexivity.
Qed.

Lemma ranked_length {A : Type} (l : list A) : List.length (ranked l) = List.length l.
Proof.
  rewrite <- (length_map snd). unfold ranked. rewrite (proj2 (ranked_from 1 l)). reflexivity.
Qed.

Lemma rank_order_In (rt dir : string) (l : list (DailyPrice * Stock)) (x : DailyPrice * Stock) :
  In x (rank_order rt dir l) <-> In x l.
Proof.
  unfold rank_order. destruct (String.eqb dir "desc");
    (split; [apply Permutation_in, sort_by_perm|apply Permutation_in, Permutation_sym, sort_by_perm]).
Qed.

Lemma rank_order_sorted (rt dir : string) (l : list (DailyPrice * Stock)) :
  Sorted (rank_before rt dir) (rank_order rt dir l).
Proof.
  unfold rank_order, rank_before. destruct (String.eqb dir "desc").
  - apply (sort_by_sorted (fun a b => opt_le (rank_key rt (fst b)) (rank_key rt (fst a)))).
    intros a b; apply opt_le_total.
  - apply (sort_by_sorted (fun a b => opt_le (rank_key rt (fst a)) (rank_key rt (fst b)))).
    intros a b; apply opt_le_total.
Qed.

Lemma market_ok_spec (mk : string) (s : Stock) :
  market_ok mk s = true -> mk <> "ALL" -> market s = mk.
Proof.
  unfold market_ok. intros H Hmk. apply orb_true_iff in H as [H|H].
  - apply String.eqb_eq in H. contradiction.
  - apply String.eqb_eq, H.
Qed.

(** The ranking branch of [simple_query], as the rows it lists. *)
Lemma simple_query_ranking_rows (m : MarketDB) (req : SimpleReq) (tm : string)
    (rows : list (DailyPrice * Stock)) :
  simple_query m req = inr (MarketRanking tm rows) ->
  exists d, parse_opt_date (sp_date req) = inr d /\ 0 <= sp_limit req /\
    tm = (if String.eqb (sp_market req) "ALL" then "KOSPI" else sp_market req) /\
    rows = firstn (Z.to_nat (sp_limit req))
             (rank_order (opt_str (sp_rank_type req)) (sp_direction req)
                (filter (fun ps => String.eqb (market (snd ps)) tm) (price_join (mdb m) d))).
Proof.
  unfold simple_query. destruct (simple_query_body m req) as [e|r] eqn:Hb; [discriminate|].
  intros H; injection H as ->. unfold simple_query_body in Hb.
  destruct (truthy_str (sp_stock req) && truthy_str (sp_date req)).
  { destruct (lift _); discriminate. }
  destruct (truthy_str (sp_stat_type req) && truthy_str (sp_date req)).
  { destruct (lift (parse_date _)) as [e|d]; [discriminate|].
    destruct (String.eqb _ "index").
    - destruct (index_branch_fails m d (sp_market req)) as [e He]. rewrite He in Hb. discriminate.
    - apply lift_inr, stats_branch_shape in Hb as [v Hv]. discriminate. }
  destruct (truthy_str (sp_rank_type req)); [|discriminate].
  apply lift_inr in Hb. unfold ranking_branch in Hb.
  destruct (parse_opt_date (sp_date req)) as [e|d] eqn:Hd; [discriminate|].
  destruct (sql_limit _ _) as [e|res] eqn:Hl; [discriminate|].
  destruct (_ && existsb _ res); [discriminate|].
  injection Hb as <- <-.
  unfold sql_limit, ret, raise in Hl.
  destruct (Z.ltb_spec (sp_limit req) 0); [discriminate|]. injection Hl as <-.
  exists d. split; [reflexivity|]. split; [lia|]. split; reflexivity.
Qed.

Lemma get_market_rankings_eq (db : DB) (date mk sc ord : string) (lim : Z) :
  get_market_rankings db date mk sc ord lim =
  match parse_date date with
  | inl _ => inl (HTTPException 500)
  | inr d =>
      if lim <? 0 then inl (HTTPException 500) else
      match firstn (Z.to_nat lim)
              (rank_order sc ord (filter (fun ps => String.eqb (market (snd ps)) mk)
                                         (price_join db d))) with
      | [] => inl (HTTPException 404)
      | res => inr (ranked res)
      end
  end.
Proof.
  unfold get_market_rankings, strptime_date, sql_limit, ret, raise.
  destruct (parse_date date); [reflexivity|].
  destruct (lim <? 0); [reflexivity|].
  cbn [rlift]. destruct (firstn _ _); reflexivity.
Qed.

(** ** Extra properties of the route handlers *)

(** [/market/rankings] lists the rows that the ranking branch of
    [simple_query] lists for the same date, target market, sort column,
    direction and limit, numbered from 1, and answers 404 where that
    branch answers an empty list. *)
Theorem get_market_rankings_agrees (m : MarketDB) (req : SimpleReq) (ds tm : string)
    (rows : list (DailyPrice * Stock)) :
  sp_date req = Some ds ->
  simple_query m req = inr (MarketRanking tm rows) ->
  get_market_rankings (mdb m) ds tm (opt_str (sp_rank_type req)) (sp_direction req) (sp_limit req) =
  match rows with [] => inl (HTTPException 404) | _ => inr (ranked rows) end.
Proof.
  intros Hds H.
  destruct (simple_query_ranking_rows m req tm rows H) as [d [Hd [Hlim [_ Hrows]]]].
  rewrite Hds in Hd. cbn [parse_opt_date] in Hd.
  rewrite get_market_rankings_eq, Hd.
  destruct (Z.ltb_spec (sp_limit req) 0); [lia|].
  rewrite <- Hrows. destruct rows; reflexivity.
Qed.

(** [/market/rankings] answers 500 for a malformed date (the [ValueError]
    of [strptime], not a 400) or a negative limit, 404 when the limit is 0
    or the market has no priced active stock on the date; otherwise a
    non-empty list ranked 1, 2, ..., at most [limit] long, ordered by the
    sort column, of priced active stocks of the market on the date. *)
Theorem get_market_rankings_outcomes (db : DB) (date mk sc ord : string) (lim : Z) :
  match get_market_rankings db date mk sc ord lim with
  | inl e =>
      (e = HTTPException 500 /\ ((exists e', parse_date date = inl e') \/ lim < 0)) \/
      (e = HTTPException 404 /\ 0 <= lim /\
       exists d, parse_date date = inr d /\
         (lim = 0 \/ forall p s, In (p, s) (price_join db d) -> market s <> mk))
  | inr rk =>
      rk <> [] /\ map fst rk = map Z.of_nat (seq 1 (List.length rk)) /\
      (List.length rk <= Z.to_nat lim)%nat /\ Sorted (rank_before sc ord) (map snd rk) /\
      exists d, parse_date date = inr d /\
        forall p s, In (p, s) (map snd rk) -> In (p, s) (price_join db d) /\ market s = mk
  end.
Proof.
  rewrite get_market_rankings_eq.
  destruct (parse_date date) as [e0|d] eqn:Hd.
  { left. split; [reflexivity|]. left. exists e0. reflexivity. }
  destruct (Z.ltb_spec lim 0) as [Hneg|Hpos].
  { left. split; [reflexivity|]. right. exact Hneg. }
  set (rows := filter (fun ps => String.eqb (market (snd ps)) mk) (price_join db d)).
  assert (Hsort : Sorted (rank_before sc ord) (firstn (Z.to_nat lim) (rank_order sc ord rows)))
    by apply Sorted_firstn, rank_order_sorted.
  assert (Hlen : (List.length (firstn (Z.to_nat lim) (rank_order sc ord rows)) <= Z.to_nat lim)%nat)
    by (rewrite length_firstn; lia).
  assert (Hmem : forall p s, In (p, s) (firstn (Z.to_nat lim) (rank_order sc ord rows)) ->
                   In (p, s) (price_join db d) /\ market s = mk).
  { intros p s Hin. apply In_firstn_In, rank_order_In in Hin.
    apply filter_In in Hin as [Hin Hmk]. split; [exact Hin|]. apply String.eqb_eq, Hmk. }
  destruct (firstn (Z.to_nat lim) (rank_order sc ord rows)) as [|x xs] eqn:Hf.
  - right. split; [reflexivity|]. split; [lia|]. exists d. split; [reflexivity|].
    destruct (Z.eq_dec lim 0) as [->|Hne]; [left; reflexivity|]. right.
    intros p s Hin Hmk.
    assert (Hr : In (p, s) (rank_order sc ord rows)).
    { apply rank_order_In, filter_In. split; [exact Hin|]. apply String.eqb_eq, Hmk. }
    destruct (rank_order sc ord rows) as [|y ys]; [destruct Hr|].
    destruct (Z.to_nat lim) eqn:Hn; [lia|]. discriminate Hf.
  - destruct (ranked_from 1 (x :: xs)) as [Hfst Hsnd]. fold (ranked (x :: xs)) in Hfst, Hsnd.
    rewrite Hsnd, ranked_length.
    split; [unfold ranked; cbn; discriminate|].
    split; [exact Hfst|]. split; [exact Hlen|]. split; [exact Hsort|].
    exists d. split; [reflexivity|]. exact Hmem.
Qed.

(** [/technical/rsi] lists at most [limit] active stocks of the market,
    each with an indicator row of the date whose RSI is non-NULL and within
    [rsi_min, rsi_max]; bounds given the wrong way round list nothing. *)
Theorem get_stocks_by_rsi_bounds (db : DB) (date mk : string) (lo hi : Q) (lim : Z)
    (items : list RsiItem) :
  get_stocks_by_rsi db date mk lo hi lim = inr items ->
  (List.length items <= Z.to_nat lim)%nat /\
  ((hi < lo)%Q -> items = []) /\
  forall it, In it items -> exists d t s x,
    parse_date date = inr d /\ In t (technical_indicators db) /\ ti_date t = d /\
    rsi t = Some x /\ (lo <= x <= hi)%Q /\
    In s (stocks db) /\ stock_id s = ti_stock_id t /\ is_active s = true /\
    (mk <> "ALL" -> market s = mk) /\
    it = mkRsiItem (symbol s) (name s) (market s) (Some x) date.
Proof.
  intros H. unfold get_stocks_by_rsi, strptime_date, sql_limit, ret, raise in H.
  destruct (parse_date date) as [e|d] eqn:Hd in H; [discriminate|].
  destruct (Z.ltb_spec lim 0) as [Hneg|Hpos]; [discriminate H|]. cbn [rlift except_all] in H.
  injection H as <-.
  assert (Hmem : forall it, In it (map (fun r => mkRsiItem (symbol (snd r)) (name (snd r))
                   (market (snd r)) (rsi (fst r)) date)
                   (firstn (Z.to_nat lim) (filter (fun r => market_ok mk (snd r))
                      (tech_join db (fun t => (ti_date t =? d) &&
                         match rsi t with
                         | Some x => Qle_bool lo x && Qle_bool x hi
                         | None => false
                         end))))) ->
    exists d' t s x,
      parse_date date = inr d' /\ In t (technical_indicators db) /\ ti_date t = d' /\
      rsi t = Some x /\ (lo <= x <= hi)%Q /\
      In s (stocks db) /\ stock_id s = ti_stock_id t /\ is_active s = true /\
      (mk <> "ALL" -> market s = mk) /\
      it = mkRsiItem (symbol s) (name s) (market s) (Some x) date).
  { intros it Hin. apply in_map_iff in Hin as [[t s] [<- Hin]].
    apply In_firstn_In, filter_In in Hin as [Hin Hmk]. cbn [fst snd] in *.
    apply tech_join_In in Hin as [Ht [Hk [Hs [Hid Hact]]]].
    apply andb_true_iff in Hk as [Hdt Hk]. apply Z.eqb_eq in Hdt.
    destruct (rsi t) as [x|] eqn:Hr; [|discriminate].
    apply andb_true_iff in Hk as [Hlo Hhi]. apply Qle_bool_iff in Hlo, Hhi.
    exists d, t, s, x. repeat split; try assumption.
    - intros Hne. apply (market_ok_spec mk s Hmk Hne). }
  split; [rewrite length_map, length_firstn; lia|].
  split; [|exact Hmem].
  intros Hlt. destruct (map _ _) as [|it rest] eqn:Hl; [reflexivity|].
  exfalso. destruct (Hmem it (or_introl eq_refl)) as [d' [t [s [x [_ [_ [_ [_ [[Hlo Hhi] _]]]]]]]]].
  apply (Qlt_not_le hi lo Hlt). apply (Qle_trans _ x); assumption.
Qed.

(** [/technical/bollinger-touch] lists at most [limit] active stocks of
    the market with an indicator row of the date whose upper-band flag
    (for [band_type = "upper"]) or lower-band flag (for any other
    [band_type]) is true; when [limit] is at least the number of
    indicator rows times the number of stocks, every such stock is
    listed, and only the requested flag is read: unlike [signal_query],
    a row whose [bb_upper_touch] is NULL is not excluded. *)
Theorem get_bollinger_touch_stocks_sound (db : DB) (date mk bt : string) (lim : Z)
    (items : list TouchItem) :
  get_bollinger_touch_stocks db date mk bt lim = inr items ->
  (List.length items <= Z.to_nat lim)%nat /\
  (forall it, In it items -> exists d t s,
    parse_date date = inr d /\ In t (technical_indicators db) /\ ti_date t = d /\
    (if String.eqb bt "upper" then bb_upper_touch t else bb_lower_touch t) = Some true /\
    In s (stocks db) /\ stock_id s = ti_stock_id t /\ is_active s = true /\
    (mk <> "ALL" -> market s = mk) /\
    it = mkTouchItem (symbol s) (name s) (market s) bt date) /\
  (Z.of_nat (List.length (technical_indicators db) * List.length (stocks db)) <= lim ->
   forall d t s, parse_date date = inr d -> In t (technical_indicators db) -> ti_date t = d ->
     (if String.eqb bt "upper" then bb_upper_touch t else bb_lower_touch t) = Some true ->
     In s (stocks db) -> stock_id s = ti_stock_id t -> is_active s = true ->
     (mk <> "ALL" -> market s = mk) ->
     In (mkTouchItem (symbol s) (name s) (market s) bt date) items).
Proof.
  intros H. unfold get_bollinger_touch_stocks, strptime_date, sql_limit, ret, raise in H.
  destruct (parse_date date) as [e|d] eqn:Hd in H; [discriminate|].
  destruct (Z.ltb_spec lim 0) as [Hneg|Hpos]; [discriminate H|]. cbn [rlift except_all] in H.
  injection H as <-.
  split; [rewrite length_map, length_firstn; lia|].
  split.
  2:{ intros Hlim d' t s Hd' Ht Htd Hflag Hs Hid Hact Hmk.
      rewrite Hd in Hd'. injection Hd' as <-.
      match goal with |- In _ (map ?f (firstn _ ?rows)) =>
        change (In (f (t, s)) (map f (firstn (Z.to_nat lim) rows))) end.
      apply in_map. rewrite firstn_all2.
      2:{ pose proof (List.filter_length_le (fun r => market_ok mk (snd r))
            (tech_join db (fun t0 => (ti_date t0 =? d) &&
               match touch_flag bt t0 with Some true => true | _ => false end))).
          pose proof (tech_join_length db (fun t0 => (ti_date t0 =? d) &&
               match touch_flag bt t0 with Some true => true | _ => false end)).
          lia. }
      apply filter_In. split.
      - apply tech_join_In_intro; try assumption.
        rewrite Htd, Z.eqb_refl. unfold touch_flag. rewrite Hflag. reflexivity.
      - cbn [snd]. unfold market_ok. destruct (String.eqb_spec mk "ALL") as [|Hne]; [reflexivity|].
        rewrite (Hmk Hne), String.eqb_refl. reflexivity. }
  intros it Hin. apply in_map_iff in Hin as [[t s] [<- Hin]].
  apply In_firstn_In, filter_In in Hin as [Hin Hmk]. cbn [fst snd] in *.
  apply tech_join_In in Hin as [Ht [Hk [Hs [Hid Hact]]]].
  apply andb_true_iff in Hk as [Hdt Hk]. apply Z.eqb_eq in Hdt.
  exists d, t, s. repeat split; try assumption.
  - unfold touch_flag in Hk. destruct (if String.eqb bt "upper" then _ else _) as [[|]|];
      [reflexivity|discriminate|discriminate].
  - intros Hne. apply (market_ok_spec mk s Hmk Hne).
Qed.

(** [/market/stats] filters on [MarketStat.market == market] without
    treating its default ["ALL"]: unless a row is stored under the market
    name "ALL", that default answers 404 for every valid date (and 500 for
    a malformed one). *)
Theorem get_market_stats_by_date_all (m : MarketDB) (date : string) :
  (forall st, In st (market_stats m) -> ms_market st <> "ALL") ->
  get_market_stats_by_date m date "ALL" =
  inl (HTTPException (match parse_date date with inl _ => 500 | inr _ => 404 end)).
Proof.
  intros Hall. unfold get_market_stats_by_date, strptime_date.
  destruct (parse_date date) as [e|d]; [reflexivity|].
  unfold stat_first. rewrite find_none_all; [reflexivity|].
  intros st Hin. apply andb_false_iff. right.
  apply String.eqb_neq, Hall, Hin.
Qed.

(** [/stock/price] answers 400 for a malformed date, 404 when the ticker
    names no active stock or the stock has no row on the date, and
    otherwise the stock's row of the date; [requested_value] is set
    exactly for the price types open, high, low, close and volume. *)
Theorem get_stock_price_by_date_spec (db : DB) (ticker date pt : string) :
  match get_stock_price_by_date db ticker date pt with
  | inl e =>
      (e = HTTPException 400 /\ exists e', parse_date date = inl e') \/
      (e = HTTPException 404 /\ exists d, parse_date date = inr d /\
         forall st, get_stock_by_symbol db ticker = inr st ->
           forall p, In p (daily_prices db) -> dp_stock_id p = stock_id st -> dp_date p <> d)
  | inr (st, p, rv) =>
      get_stock_by_symbol db ticker = inr st /\ In p (daily_prices db) /\
      dp_stock_id p = stock_id st /\ parse_date date = inr (dp_date p) /\
      (rv <> None <-> In pt ["open"; "high"; "low"; "close"; "volume"])
  end.
Proof.
  unfold get_stock_price_by_date.
  destruct (parse_date date) as [e0|d] eqn:Hd.
  { cbn [rlift except_http]. rewrite (parse_date_error date e0 Hd).
    left. split; [reflexivity|]. eexists; reflexivity. }
  cbn [rlift].
  destruct (get_stock_by_symbol db ticker) as [e1|st] eqn:Hg.
  { unfold get_stock_by_symbol, ret, raise in Hg.
    destruct (find _ _); [discriminate|]. injection Hg as <-. cbn [except_http].
    right. split; [reflexivity|]. exists d. split; [reflexivity|]. intros st Hst. discriminate. }
  cbn [rlift].
  destruct (find (fun p => (dp_stock_id p =? stock_id st) && (dp_date p =? d)) (daily_prices db))
    as [p|] eqn:Hf.
  - apply find_some in Hf as [Hp Hk]. apply andb_true_iff in Hk as [Hid Hdt].
    apply Z.eqb_eq in Hid, Hdt. subst d. cbn [except_http].
    split; [reflexivity|]. split; [exact Hp|]. split; [exact Hid|]. split; [reflexivity|].
    unfold requested_value.
    destruct (String.eqb_spec pt "open") as [->|H1];
      [split; [intros _; cbn; repeat (first [left; reflexivity | right])|discriminate]|].
    destruct (String.eqb_spec pt "high") as [->|H2];
      [split; [intros _; cbn; repeat (first [left; reflexivity | right])|discriminate]|].
    destruct (String.eqb_spec pt "low") as [->|H3];
      [split; [intros _; cbn; repeat (first [left; reflexivity | right])|discriminate]|].
    destruct (String.eqb_spec pt "close") as [->|H4];
      [split; [intros _; cbn; repeat (first [left; reflexivity | right])|discriminate]|].
    destruct (String.eqb_spec pt "volume") as [->|H5];
      [split; [intros _; cbn; repeat (first [left; reflexivity | right])|discriminate]|].
    split; [intros Hn; contradiction Hn; reflexivity|].
    intros Hin. cbn in Hin. destruct Hin as [H|[H|[H|[H|[H|[]]]]]]; congruence.
  - cbn [except_http]. right. split; [reflexivity|]. exists d. split; [reflexivity|].
    intros st' Hst' q Hq Hid Hdt. injection Hst' as <-.
    apply (find_none _ _ Hf) in Hq. rewrite Hid, Hdt, !Z.eqb_refl in Hq. discriminate.
Qed.

(** ** Sample data for the route handlers *)

Definition kospi_rank_req : SimpleReq :=
  mkSimpleReq None (Some "2024-06-03") "close" None (Some "change_rate") "desc" "KOSPI" 5.

Definition kospi_rank_rows : list (DailyPrice * Stock) :=
  match simple_query market_db kospi_rank_req with
  | inr (MarketRanking _ rows) => rows
  | _ => []
  end.

Lemma get_market_rankings_agrees_witness :
  sp_date kospi_rank_req = Some "2024-06-03" /\
  simple_query market_db kospi_rank_req = inr (MarketRanking "KOSPI" kospi_rank_rows) /\
  map (fun ps => name (snd ps)) kospi_rank_rows = ["Hyundai Department Store"; "Samsung Electronics"] /\
  get_market_rankings (mdb market_db) "2024-06-03" "KOSPI" "change_rate" "desc" 5 =
    inr (ranked kospi_rank_rows).
Proof.
  assert (H1 : sp_date kospi_rank_req = Some "2024-06-03") by reflexivity.
  assert (H2 : simple_query market_db kospi_rank_req = inr (MarketRanking "KOSPI" kospi_rank_rows))
    by (vm_compute; reflexivity).
  split; [exact H1|split; [exact H2|split; [vm_compute; reflexivity|]]].
  exact (get_market_rankings_agrees market_db kospi_rank_req "2024-06-03" "KOSPI"
           kospi_rank_rows H1 H2).
Defined.

Definition rsi_items : list RsiItem :=
  match get_stocks_by_rsi rsi_db "2024-06-03" "ALL" (70#1) (100#1) 10 with
  | inr l => l
  | inl _ => []
  end.

Lemma get_stocks_by_rsi_bounds_witness :
  get_stocks_by_rsi rsi_db "2024-06-03" "ALL" (70#1) (100#1) 10 = inr rsi_items /\
  map ri_rsi rsi_items = [Some (725#10); Some (850#10)] /\
  (List.length rsi_items <= Z.to_nat 10)%nat.
Proof.
  assert (H : get_stocks_by_rsi rsi_db "2024-06-03" "ALL" (70#1) (100#1) 10 = inr rsi_items)
    by (vm_compute; reflexivity).
  split; [exact H|split; [vm_compute; reflexivity|]].
  exact (proj1 (get_stocks_by_rsi_bounds rsi_db "2024-06-03" "ALL" (70#1) (100#1) 10
                  rsi_items H)).
Defined.

(** With a [band_type] other than "upper", Hyundai is listed although its
    [bb_upper_touch] is NULL. *)
Definition touch_items : list TouchItem :=
  match get_bollinger_touch_stocks boll_db "2024-06-03" "KOSPI" "bottom" 10 with
  | inr l => l
  | inl _ => []
  end.

Definition hyundai_touch_row : TechnicalIndicator :=
  mkTechnicalIndicator 2 (june 3) None None None None None (Some true).

Lemma get_bollinger_touch_stocks_sound_witness :
  get_bollinger_touch_stocks boll_db "2024-06-03" "KOSPI" "bottom" 10 = inr touch_items /\
  map touch_name touch_items = ["Samsung Electronics"; "Hyundai Department Store"] /\
  (List.length touch_items <= Z.to_nat 10)%nat /\
  bb_upper_touch hyundai_touch_row = None /\
  In (mkTouchItem (symbol hyundai) (name hyundai) (market hyundai) "bottom" "2024-06-03")
     touch_items.
Proof.
  assert (H : get_bollinger_touch_stocks boll_db "2024-06-03" "KOSPI" "bottom" 10 = inr touch_items)
    by (vm_compute; reflexivity).
  split; [exact H|split; [vm_compute; reflexivity|split]].
  - exact (proj1 (get_bollinger_touch_stocks_sound boll_db "2024-06-03" "KOSPI" "bottom" 10
                    touch_items H)).
  - split; [reflexivity|].
    exact (proj2 (proj2 (get_bollinger_touch_stocks_sound boll_db "2024-06-03" "KOSPI" "bottom" 10
                           touch_items H)) ltac:(vm_compute; discriminate) (june 3)
             hyundai_touch_row hyundai ltac:(vm_compute; reflexivity)
             ltac:(right; left; reflexivity) eq_refl eq_refl
             ltac:(right; left; reflexivity) eq_refl eq_refl (fun _ => eq_refl)).
Defined.

Lemma get_market_stats_by_date_all_witness :
  (forall st, In st (market_stats market_db) -> ms_market st <> "ALL") /\
  get_market_stats_by_date market_db "2024-06-03" "ALL" = inl (HTTPException 404) /\
  get_market_stats_by_date market_db "2024-06-03" "KOSPI" <> inl (HTTPException 404).
Proof.
  assert (H : forall st, In st (market_stats market_db) -> ms_market st <> "ALL").
  { intros st Hin. cbn in Hin. destruct Hin as [<-|[<-|[]]]; cbn; discriminate. }
  split; [exact H|split; [|vm_compute; discriminate]].
  exact (get_market_stats_by_date_all market_db "2024-06-03" H).
Defined.
